(** * WCS remote-service harvester: model and verified properties

    Shallow embedding of [wcs_remote_service/utils.py],
    [wcs_remote_service/harvesters/wcs.py] and
    [wcs_remote_service/serviceprocessors/wcs.py].

    Conventions of the embedding
    - Python [str] is [string]: the byte string holding the UTF-8 encoding.
    - Python [float] is the binary64 type [PrimFloat.float].
    - A Python exception is a value of [exn]; code that may raise returns
      in [res]; code that also talks to the remote endpoint runs in the
      monad [M], which threads the log of requests that were issued.
    - A [dict] read by key is a [gmap]; a [dict] whose order is observed is
      an association list with unique keys, in insertion order. *)

From Stdlib Require Import ZArith Floats Ascii String List Bool Lia.
From stdpp Require Import base option list gmap strings.

Local Open Scope Z_scope.

(** ** Exceptions and results *)

Inductive exn : Type :=
| AttributeError (name : string)
| KeyError (key : string)
| IndexError
| ValueError
| TypeError
| Exception (msg : string).

Inductive res (A : Type) : Type :=
| Ok (a : A)
| Raise (e : exn).
Arguments Ok {A} a.
Arguments Raise {A} e.

Definition res_bind {A B} (r : res A) (k : A -> res B) : res B :=
  match r with
  | Ok a => k a
  | Raise e => Raise e
  end.

(** A value of [option] read as "present, or this exception". *)
Definition or_raise {A} (e : exn) (o : option A) : res A :=
  match o with
  | Some a => Ok a
  | None => Raise e
  end.

(** ** Requests sent to the remote endpoint *)

Inductive event : Type :=
| GetCapabilities (url version : string) (timeout : Z)
| DescribeCoverage (url : string) (coverage_id : option string).

(** ** The monad of the harvester: exceptions over a request log *)

Definition M (A : Type) : Type := list event -> res A * list event.

Definition ret {A} (a : A) : M A := fun log => (Ok a, log).

Definition bind {A B} (m : M A) (k : A -> M B) : M B :=
  fun log =>
    match m log with
    | (Ok a, log') => k a log'
    | (Raise e, log') => (Raise e, log')
    end.

Definition raise {A} (e : exn) : M A := fun log => (Raise e, log).

Definition lift {A} (r : res A) : M A := fun log => (r, log).

Definition request (ev : event) : M unit := fun log => (Ok tt, log ++ [ev]).

(** [try: body except Exception: handler] *)
Definition try_except {A} (body : M A) (handler : exn -> M A) : M A :=
  fun log =>
    match body log with
    | (Ok a, log') => (Ok a, log')
    | (Raise e, log') => handler e log'
    end.

Declare Scope py_scope.
Delimit Scope py_scope with py.
Notation "x <-- m ; k" := (bind m (fun x => k))
  (at level 20, m at level 100, k at level 200, only parsing) : py_scope.
Notation "x <~~ r ; k" := (res_bind r (fun x => k))
  (at level 20, r at level 100, k at level 200, only parsing) : py_scope.
Local Open Scope py_scope.

(** ** Python strings *)

Definition dquote : ascii := ascii_of_nat 34.

Definition is_upper (c : ascii) : bool :=
  let n := nat_of_ascii c in (65 <=? n)%nat && (n <=? 90)%nat.

Definition lower_char (c : ascii) : ascii :=
  if is_upper c then ascii_of_nat (nat_of_ascii c + 32) else c.

(** [str.lower()]. A string is the sequence of the bytes of its UTF-8
    encoding; the ASCII letters are lowered and the other characters are
    kept. The code lowers the axis labels, to look them up in two lists of
    ASCII labels, and [urlsplit] lowers a scheme, which is ASCII: the
    characters outside ASCII that have an ASCII letter in their lower case
    (U+0130, U+212A) give [i] followed by U+0307 and [k], and no label has
    a [k]. *)
Fixpoint lower (s : string) : string :=
  match s with
  | EmptyString => EmptyString
  | String c s' => String (lower_char c) (lower s')
  end.

(** ASCII white space of [str.split()]: TAB LF VT FF CR, FS GS RS US, SPACE. *)
Definition isspace (c : ascii) : bool :=
  let n := nat_of_ascii c in
  ((9 <=? n)%nat && (n <=? 13)%nat) || ((28 <=? n)%nat && (n <=? 32)%nat).

(** The white space outside ASCII, in UTF-8: U+0085 and U+00A0 (two
    bytes), U+1680, U+2000 to U+200A, U+2028, U+2029, U+202F, U+205F and
    U+3000 (three bytes). *)
Definition isspace2 (c d : ascii) : bool :=
  (nat_of_ascii c =? 194)%nat && ((nat_of_ascii d =? 133)%nat || (nat_of_ascii d =? 160)%nat).

Definition isspace3 (c d e : ascii) : bool :=
  let '(c, d, e) := (nat_of_ascii c, nat_of_ascii d, nat_of_ascii e) in
  ((c =? 225)%nat && (d =? 154)%nat && (e =? 128)%nat)
  || ((c =? 226)%nat && (d =? 128)%nat
      && (((128 <=? e)%nat && (e <=? 138)%nat) || (e =? 168)%nat || (e =? 169)%nat
          || (e =? 175)%nat))
  || ((c =? 226)%nat && (d =? 129)%nat && (e =? 159)%nat)
  || ((c =? 227)%nat && (d =? 128)%nat && (e =? 128)%nat).

(** The number of bytes of the white-space character that [s] starts
    with, 0 when it starts with another character. *)
Definition space_width (s : string) : nat :=
  match s with
  | String c s1 =>
      if isspace c then 1
      else match s1 with
           | String d s2 =>
               if isspace2 c d then 2
               else match s2 with
                    | String e _ => if isspace3 c d e then 3 else 0
                    | EmptyString => 0
                    end
           | EmptyString => 0
           end
  | EmptyString => 0
  end.

(** [str.split()] with no separator: runs of white space separate the
    words and no empty word is produced. [tok] is the word being read and
    [skip] the number of bytes left of the white-space character being
    read. *)
Fixpoint split_ws_from (skip : nat) (tok : string) (s : string) : list string :=
  match s with
  | EmptyString => if String.eqb tok "" then [] else [tok]
  | String c s' =>
      match skip with
      | S k => split_ws_from k tok s'
      | O =>
          match space_width s with
          | S k => if String.eqb tok "" then split_ws_from k "" s'
                   else tok :: split_ws_from k "" s'
          | O => split_ws_from 0 (tok +:+ String c "") s'
          end
      end
  end.

Definition split_ws (s : string) : list string := split_ws_from 0 "" s.

(** [str.split(sep)] for a one-character separator: never empty. *)
Fixpoint split_on (sep : ascii) (s : string) : list string :=
  match s with
  | EmptyString => [EmptyString]
  | String c s' =>
      if Ascii.eqb c sep then EmptyString :: split_on sep s'
      else match split_on sep s' with
           | h :: t => String c h :: t
           | [] => [String c EmptyString]
           end
  end.

(** [str.replace(c, '')] for a one-character pattern. *)
Fixpoint remove_char (c : ascii) (s : string) : string :=
  match s with
  | EmptyString => EmptyString
  | String d s' => if Ascii.eqb d c then remove_char c s' else String d (remove_char c s')
  end.

(** [s.lstrip(c)], [s.rstrip(c)] and [s.strip(c)] for one character *)
Fixpoint lstrip_char (c : ascii) (s : string) : string :=
  match s with
  | EmptyString => EmptyString
  | String d s' => if Ascii.eqb d c then lstrip_char c s' else s
  end.

Fixpoint rstrip_char (c : ascii) (s : string) : string :=
  match s with
  | EmptyString => EmptyString
  | String d s' =>
      match rstrip_char c s' with
      | EmptyString => if Ascii.eqb d c then EmptyString else String d EmptyString
      | r => String d r
      end
  end.

Definition strip_char (c : ascii) (s : string) : string :=
  rstrip_char c (lstrip_char c s).

(** [l[i]] for [i >= 0] and [l[-k]] for [k >= 1]; [IndexError] out of range. *)
Definition getitem {A} (l : list A) (i : nat) : res A :=
  or_raise IndexError (l !! i).

Definition getitem_neg {A} (l : list A) (k : nat) : res A :=
  match k with
  | O => Raise IndexError
  | S k' => or_raise IndexError (rev l !! k')
  end.

(** [x in labels] for a list of strings. *)
Definition str_in (x : string) (labels : list string) : bool :=
  existsb (String.eqb x) labels.

(** ** [urllib.parse] (Python standard library, the part the code calls)

    The functions below follow [urllib/parse.py] (and, for a host in
    brackets, [ipaddress.py]) of CPython 3.11. A string is the sequence of
    the bytes of its UTF-8 encoding. One check of [urlsplit] is outside
    the model: the NFKC check of a netloc that is not ASCII. *)

(** *** UTF-8 *)

Definition is_ascii (c : ascii) : bool := (nat_of_ascii c <? 128)%nat.

(** a continuation byte, 80 to BF *)
Definition is_cont (c : ascii) : bool :=
  let n := nat_of_ascii c in (128 <=? n)%nat && (n <? 192)%nat.

(** The byte [b1] continues the lead byte [b0] of a sequence of three or
    four bytes: E0 takes A0..BF, ED takes 80..9F, F0 takes 90..BF and F4
    takes 80..8F (no overlong form, no surrogate, nothing above U+10FFFF). *)
Definition second_ok (b0 b1 : ascii) : bool :=
  let n0 := nat_of_ascii b0 in
  let n1 := nat_of_ascii b1 in
  is_cont b1 &&
  (if (n0 =? 224)%nat then (160 <=? n1)%nat
   else if (n0 =? 237)%nat then (n1 <? 160)%nat
   else if (n0 =? 240)%nat then (144 <=? n1)%nat
   else if (n0 =? 244)%nat then (n1 <? 144)%nat
   else true).

(** The number of bytes that a lead byte announces: 1 for ASCII, 2 for
    C2..DF, 3 for E0..EF, 4 for F0..F4, and 0 for a byte that starts no
    character. *)
Definition lead_width (b0 : ascii) : nat :=
  let n0 := nat_of_ascii b0 in
  if (n0 <? 128)%nat then 1%nat
  else if (n0 <? 194)%nat then 0%nat
  else if (n0 <? 224)%nat then 2%nat
  else if (n0 <? 240)%nat then 3%nat
  else if (n0 <? 245)%nat then 4%nat
  else 0%nat.

(** U+FFFD *)
Definition replacement : string :=
  String (ascii_of_nat 239) (String (ascii_of_nat 191) (String (ascii_of_nat 189) EmptyString)).

(** [bs.decode('utf-8', 'replace')], the result again in UTF-8: a
    well-formed character is kept; a byte that starts none, and a lead
    byte with the bytes that continue it up to the first byte that does
    not, or up to the end, become one U+FFFD. *)
Fixpoint decode_replace (s : string) : string :=
  match s with
  | EmptyString => EmptyString
  | String b0 s1 =>
      match lead_width b0 with
      | 1%nat => String b0 (decode_replace s1)
      | 2%nat =>
          match s1 with
          | EmptyString => replacement
          | String b1 s2 =>
              if is_cont b1 then String b0 (String b1 (decode_replace s2))
              else replacement +:+ decode_replace s1
          end
      | 3%nat =>
          match s1 with
          | EmptyString => replacement
          | String b1 s2 =>
              if second_ok b0 b1 then
                match s2 with
                | EmptyString => replacement
                | String b2 s3 =>
                    if is_cont b2
                    then String b0 (String b1 (String b2 (decode_replace s3)))
                    else replacement +:+ decode_replace s2
                end
              else replacement +:+ decode_replace s1
          end
      | 4%nat =>
          match s1 with
          | EmptyString => replacement
          | String b1 s2 =>
              if second_ok b0 b1 then
                match s2 with
                | EmptyString => replacement
                | String b2 s3 =>
                    if is_cont b2 then
                      match s3 with
                      | EmptyString => replacement
                      | String b3 s4 =>
                          if is_cont b3
                          then String b0 (String b1 (String b2 (String b3 (decode_replace s4))))
                          else replacement +:+ decode_replace s3
                      end
                    else replacement +:+ decode_replace s2
                end
              else replacement +:+ decode_replace s1
          end
      | _ => replacement +:+ decode_replace s1
      end
  end.

(** The byte strings that are the UTF-8 encoding of a string. *)
Fixpoint utf8_valid (s : string) : bool :=
  match s with
  | EmptyString => true
  | String b0 s1 =>
      match lead_width b0 with
      | 1%nat => utf8_valid s1
      | 2%nat =>
          match s1 with
          | String b1 s2 => is_cont b1 && utf8_valid s2
          | _ => false
          end
      | 3%nat =>
          match s1 with
          | String b1 (String b2 s3) => second_ok b0 b1 && is_cont b2 && utf8_valid s3
          | _ => false
          end
      | 4%nat =>
          match s1 with
          | String b1 (String b2 (String b3 s4)) =>
              second_ok b0 b1 && is_cont b2 && is_cont b3 && utf8_valid s4
          | _ => false
          end
      | _ => false
      end
  end.

(** *** Percent-decoding *)

Definition hexval (c : ascii) : option nat :=
  let n := nat_of_ascii c in
  if (48 <=? n)%nat && (n <=? 57)%nat then Some (n - 48)%nat
  else if (65 <=? n)%nat && (n <=? 70)%nat then Some (n - 55)%nat
  else if (97 <=? n)%nat && (n <=? 102)%nat then Some (n - 87)%nat
  else None.

(** [unquote]: every [%XX] with two hex digits becomes the byte [XX]. *)
Fixpoint unquote (s : string) : string :=
  match s with
  | EmptyString => EmptyString
  | String c s' =>
      if Ascii.eqb c "%" then
        match s' with
        | String h (String l s'') =>
            match hexval h, hexval l with
            | Some a, Some b => String (ascii_of_nat (16 * a + b)) (unquote s'')
            | _, _ => String c (unquote s')
            end
        | _ => String c (unquote s')
        end
      else String c (unquote s')
  end.

(** [c in s] *)
Fixpoint contains (c : ascii) (s : string) : bool :=
  match s with
  | EmptyString => false
  | String d s' => Ascii.eqb d c || contains c s'
  end.

(** [s.split(c, 1)] as a pair when [c] occurs: the text before the first
    [c] and the text after it. *)
Fixpoint partition (c : ascii) (s : string) : option (string * string) :=
  match s with
  | EmptyString => None
  | String d s' =>
      if Ascii.eqb d c then Some (EmptyString, s')
      else match partition c s' with
           | Some (a, b) => Some (String d a, b)
           | None => None
           end
  end.

(** [s.lstrip(_WHATWG_C0_CONTROL_OR_SPACE)] *)
Fixpoint lstrip_c0 (s : string) : string :=
  match s with
  | EmptyString => EmptyString
  | String c s' => if (nat_of_ascii c <=? 32)%nat then lstrip_c0 s' else s
  end.

(** removal of the bytes of [_UNSAFE_URL_BYTES_TO_REMOVE] *)
Definition remove_unsafe (s : string) : string :=
  remove_char (ascii_of_nat 10) (remove_char (ascii_of_nat 13) (remove_char (ascii_of_nat 9) s)).

Definition is_alpha (c : ascii) : bool :=
  let n := nat_of_ascii c in
  ((65 <=? n)%nat && (n <=? 90)%nat) || ((97 <=? n)%nat && (n <=? 122)%nat).

Definition is_digit (c : ascii) : bool :=
  let n := nat_of_ascii c in (48 <=? n)%nat && (n <=? 57)%nat.

(** [c in scheme_chars] *)
Definition is_scheme_char (c : ascii) : bool :=
  is_alpha c || is_digit c || Ascii.eqb c "+" || Ascii.eqb c "-" || Ascii.eqb c ".".

Fixpoint forallb_str (p : ascii -> bool) (s : string) : bool :=
  match s with
  | EmptyString => true
  | String c s' => p c && forallb_str p s'
  end.

Definition uses_netloc : list string :=
  [""; "ftp"; "http"; "gopher"; "nntp"; "telnet"; "imap"; "wais"; "file";
   "mms"; "https"; "shttp"; "snews"; "prospero"; "rtsp"; "rtspu"; "rsync";
   "svn"; "svn+ssh"; "sftp"; "nfs"; "git"; "git+ssh"; "ws"; "wss"]%string.

Definition uses_params : list string :=
  [""; "ftp"; "hdl"; "prospero"; "http"; "imap"; "https"; "shttp"; "rtsp";
   "rtspu"; "sip"; "sips"; "mms"; "sftp"; "tel"]%string.

(** The scheme of [urlsplit]: [url.find(':') > 0], a letter first, scheme
    characters up to the colon; the scheme is lowered. *)
Definition split_scheme (url : string) : string * string :=
  match partition ":" url with
  | Some (String c0 pre, rest) =>
      if is_alpha c0 && forallb_str is_scheme_char (String c0 pre)
      then (lower (String c0 pre), rest)
      else (EmptyString, url)
  | _ => (EmptyString, url)
  end.

(** [_splitnetloc(url, 0)] on the text after [//]: up to the first of [/?#]. *)
Fixpoint splitnetloc (s : string) : string * string :=
  match s with
  | EmptyString => (EmptyString, EmptyString)
  | String c s' =>
      if Ascii.eqb c "/" || Ascii.eqb c "?" || Ascii.eqb c "#" then (EmptyString, s)
      else let '(n, r) := splitnetloc s' in (String c n, r)
  end.

(** [bool(s)], [s[:2] == ab] and [s[:1] == a] *)
Definition nonempty (s : string) : bool := negb (String.eqb s "").

Definition has_prefix2 (a b : ascii) (s : string) : bool :=
  match s with
  | String c (String d _) => Ascii.eqb c a && Ascii.eqb d b
  | _ => false
  end.

Definition has_prefix1 (a : ascii) (s : string) : bool :=
  match s with
  | String c _ => Ascii.eqb c a
  | _ => false
  end.

(** *** A host in brackets

    [_check_bracketed_netloc] and [_check_bracketed_host] of
    [urllib/parse.py], with the part of [ipaddress.py] that decides whether
    a string is an IPv6 address. The functions return [true] where the
    Python functions return and [false] where they raise. *)

Definition is_hexdigit (c : ascii) : bool :=
  match hexval c with
  | Some _ => true
  | None => false
  end.

(** [s.rpartition(c)[2]]: the text after the last [c], all of [s] when
    there is none. *)
Fixpoint after_last (c : ascii) (s : string) : string :=
  match s with
  | EmptyString => EmptyString
  | String d s' =>
      if contains c s' then after_last c s'
      else if Ascii.eqb d c then s' else s
  end.

(** [int(s, 10)] for a string of digits *)
Fixpoint digits_value (acc : nat) (s : string) : nat :=
  match s with
  | EmptyString => acc
  | String c s' => digits_value (10 * acc + (nat_of_ascii c - 48)) s'
  end.

(** [IPv4Address._parse_octet] returns *)
Definition octet_ok (octet_str : string) : bool :=
  if negb (nonempty octet_str) then false
  else if negb (forallb_str is_digit octet_str) then false
  else if (3 <? String.length octet_str)%nat then false
  else if negb (String.eqb octet_str "0") && has_prefix1 "0" octet_str then false
  else (digits_value 0 octet_str <=? 255)%nat.

(** [IPv4Address(s)] returns *)
Definition ipv4_ok (ip_str : string) : bool :=
  negb (contains "/" ip_str)
  && nonempty ip_str
  && match split_on "." ip_str with
     | [a; b; c; d] => octet_ok a && octet_ok b && octet_ok c && octet_ok d
     | _ => false
     end.

(** [IPv6Address._parse_hextet] returns *)
Definition hextet_ok (hextet_str : string) : bool :=
  forallb_str is_hexdigit hextet_str
  && (String.length hextet_str <=? 4)%nat
  && nonempty hextet_str.

(** The part of [IPv6Address._ip_int_from_string] after the IPv4 suffix is
    replaced: at most nine parts; at most one empty part between the first
    and the last, which stands for the skipped zeroes ([::]); an empty
    first or last part only next to it; eight hextets without it and at
    most seven with it. *)
Definition ipv6_parts_ok (parts : list string) : bool :=
  let n := length parts in
  (n <=? 9)%nat &&
  match List.filter (fun i => String.eqb (nth i parts "x") "") (seq 1 (n - 2)) with
  | [] => (n =? 8)%nat && forallb hextet_ok parts
  | [skip_index] =>
      let first_empty := String.eqb (nth 0 parts "x") "" in
      let last_empty := String.eqb (List.last parts "x") "" in
      let parts_hi := if first_empty then (skip_index - 1)%nat else skip_index in
      let parts_lo :=
        if last_empty then (n - skip_index - 1 - 1)%nat else (n - skip_index - 1)%nat in
      (negb first_empty || (parts_hi =? 0)%nat)
      && (negb last_empty || (parts_lo =? 0)%nat)
      && (parts_hi + parts_lo <? 8)%nat
      && forallb hextet_ok (firstn parts_hi parts)
      && forallb hextet_ok (skipn (n - parts_lo) parts)
  | _ => false
  end.

(** [IPv6Address._ip_int_from_string] returns. An IPv4 suffix is replaced
    by its two hextets, which are hex numerals of at most four digits:
    ["0"] stands for each. *)
Definition ipv6_ok (ip_str : string) : bool :=
  nonempty ip_str &&
  let parts := split_on ":" ip_str in
  (3 <=? length parts)%nat &&
  (if contains "." (List.last parts "")
   then ipv4_ok (List.last parts "") && ipv6_parts_ok (removelast parts ++ ["0"; "0"]%string)
   else ipv6_parts_ok parts).

(** [IPv6Address(s)] returns: no [/]; a scope id after [%] is not empty
    and has no [%]. *)
Definition ipv6_address_ok (addr_str : string) : bool :=
  negb (contains "/" addr_str) &&
  match partition "%" addr_str with
  | None => ipv6_ok addr_str
  | Some (addr, scope_id) =>
      nonempty scope_id && negb (contains "%" scope_id) && ipv6_ok addr
  end.

Fixpoint drop_hexdigits (s : string) : string :=
  match s with
  | EmptyString => EmptyString
  | String c s' => if is_hexdigit c then drop_hexdigits s' else s
  end.

(** [re.match(r"\Av[a-fA-F0-9]+\..+\Z", hostname)] *)
Definition ipvfuture_ok (hostname : string) : bool :=
  match hostname with
  | String "v" (String h rest) =>
      is_hexdigit h &&
      match drop_hexdigits rest with
      | String "." tl => nonempty tl && negb (contains (ascii_of_nat 10) tl)
      | _ => false
      end
  | _ => false
  end.

(** [_check_bracketed_host(hostname)] returns: an IPvFuture address, or
    what [ipaddress.ip_address] reads as an address and not as an IPv4
    address. *)
Definition check_bracketed_host (hostname : string) : bool :=
  if has_prefix1 "v" hostname then ipvfuture_ok hostname
  else if ipv4_ok hostname then false
  else ipv6_address_ok hostname.

(** [_check_bracketed_netloc(netloc)] returns *)
Definition check_bracketed_netloc (netloc : string) : bool :=
  let hostname_and_port := after_last "@" netloc in
  match partition "[" hostname_and_port with
  | Some (before_bracket, bracketed) =>
      negb (nonempty before_bracket) &&
      match partition "]" bracketed with
      | Some (hostname, port) =>
          (negb (nonempty port) || has_prefix1 ":" port) && check_bracketed_host hostname
      | None => check_bracketed_host bracketed
      end
  | None =>
      match partition ":" hostname_and_port with
      | Some (hostname, _) => check_bracketed_host hostname
      | None => check_bracketed_host hostname_and_port
      end
  end.

(** *** [urlsplit], [urlparse] and [geturl] *)

Record SplitResult : Type := {
  sr_scheme : string;
  sr_netloc : string;
  sr_path : string;
  sr_query : string;
  sr_fragment : string
}.

Definition urlsplit (url0 : string) : res SplitResult :=
  let url := remove_unsafe (lstrip_c0 url0) in
  let '(scheme, url) := split_scheme url in
  netloc_url <~~
    match url with
    | String "/" (String "/" rest) =>
        let '(netloc, url') := splitnetloc rest in
        if xorb (contains "[" netloc) (contains "]" netloc)
        then Raise ValueError
        else if contains "[" netloc && contains "]" netloc
        then (if check_bracketed_netloc netloc then Ok (netloc, url') else Raise ValueError)
        else Ok (netloc, url')
    | _ => Ok (EmptyString, url)
    end;
  let '(netloc, url) := netloc_url in
  let '(url, fragment) :=
    match partition "#" url with
    | Some (a, b) => (a, b)
    | None => (url, EmptyString)
    end in
  let '(url, query) :=
    match partition "?" url with
    | Some (a, b) => (a, b)
    | None => (url, EmptyString)
    end in
  Ok {| sr_scheme := scheme; sr_netloc := netloc; sr_path := url;
        sr_query := query; sr_fragment := fragment |}.

(** [url.rfind('/')] as the text up to and including the last [/], and the
    text after it. *)
Fixpoint rsplit_slash (s : string) : option (string * string) :=
  match s with
  | EmptyString => None
  | String c s' =>
      match rsplit_slash s' with
      | Some (a, b) => Some (String c a, b)
      | None => if Ascii.eqb c "/" then Some (String c EmptyString, s') else None
      end
  end.

Definition splitparams (url : string) : string * string :=
  match rsplit_slash url with
  | Some (dir, last) =>
      match partition ";" last with
      | Some (a, b) => (dir +:+ a, b)
      | None => (url, EmptyString)
      end
  | None =>
      match partition ";" url with
      | Some (a, b) => (a, b)
      | None => (url, EmptyString)   (* not reached: [';' in url] holds *)
      end
  end.

Record ParseResult : Type := {
  scheme : string;
  netloc : string;
  path : string;
  params : string;
  query : string;
  fragment : string
}.

Definition urlparse (url : string) : res ParseResult :=
  sp <~~ urlsplit url;
  let '(url', params') :=
    if str_in (sr_scheme sp) uses_params && contains ";" (sr_path sp)
    then splitparams (sr_path sp)
    else (sr_path sp, EmptyString) in
  Ok {| scheme := sr_scheme sp; netloc := sr_netloc sp; path := url';
        params := params'; query := sr_query sp; fragment := sr_fragment sp |}.

Definition urlunsplit (scheme netloc url query fragment : string) : string :=
  let url :=
    if nonempty netloc
       || (nonempty scheme && str_in scheme uses_netloc && negb (has_prefix2 "/" "/" url))
    then
      let url := if nonempty url && negb (has_prefix1 "/" url) then "/" +:+ url else url in
      "//" +:+ netloc +:+ url
    else url in
  let url := if nonempty scheme then scheme +:+ ":" +:+ url else url in
  let url := if nonempty query then url +:+ "?" +:+ query else url in
  let url := if nonempty fragment then url +:+ "#" +:+ fragment else url in
  url.

(** [ParseResult.geturl()], that is [urlunparse(self)] *)
Definition geturl (r : ParseResult) : string :=
  let url := if nonempty (params r) then path r +:+ ";" +:+ params r else path r in
  urlunsplit (scheme r) (netloc r) url (query r) (fragment r).

(** [s.replace('+', ' ')] *)
Fixpoint plus_to_space (s : string) : string :=
  match s with
  | EmptyString => EmptyString
  | String c s' => String (if Ascii.eqb c "+" then " "%char else c) (plus_to_space s')
  end.

(** [parse_qsl(qs)] with its defaults: fields separated by [&], a field
    without [=] or with an empty value is dropped. *)
Definition parse_field (name_value : string) : option (string * string) :=
  match partition "=" name_value with
  | Some (n, v) =>
      if nonempty v then Some (unquote (plus_to_space n), unquote (plus_to_space v))
      else None
  | None => None
  end.

Definition parse_qsl (qs : string) : list (string * string) :=
  if nonempty qs then omap parse_field (split_on "&" qs) else [].

(** A [dict] of strings, in insertion order. [dict_set] is [d[k] = v]. *)
Definition pydict : Type := list (string * string).

Fixpoint dict_set (k v : string) (d : pydict) : pydict :=
  match d with
  | [] => [(k, v)]
  | (k', v') :: d' => if String.eqb k' k then (k', v) :: d' else (k', v') :: dict_set k v d'
  end.

(** [dict(pairs)] *)
Definition dict_of (pairs : list (string * string)) : pydict :=
  fold_left (fun d kv => dict_set (fst kv) (snd kv) d) pairs [].

Fixpoint dict_get (k : string) (d : pydict) : option string :=
  match d with
  | [] => None
  | (k', v') :: d' => if String.eqb k' k then Some v' else dict_get k d'
  end.

Fixpoint dict_del (k : string) (d : pydict) : pydict :=
  match d with
  | [] => []
  | (k', v') :: d' => if String.eqb k' k then d' else (k', v') :: dict_del k d'
  end.

Definition hexdigit (n : nat) : ascii :=
  if (n <? 10)%nat then ascii_of_nat (48 + n) else ascii_of_nat (55 + n).

(** [c in _ALWAYS_SAFE] *)
Definition always_safe (c : ascii) : bool :=
  is_alpha c || is_digit c || Ascii.eqb c "_" || Ascii.eqb c "." || Ascii.eqb c "-" || Ascii.eqb c "~".

(** [quote_plus(s)]: a space becomes [+], a safe byte stays, any other
    byte [b] becomes [%XX] in upper-case hex. *)
Fixpoint quote_plus (s : string) : string :=
  match s with
  | EmptyString => EmptyString
  | String c s' =>
      if Ascii.eqb c " " then String "+" (quote_plus s')
      else if always_safe c then String c (quote_plus s')
      else String "%" (String (hexdigit (nat_of_ascii c / 16))
                     (String (hexdigit (nat_of_ascii c mod 16)) (quote_plus s')))
  end.

Fixpoint join (sep : string) (l : list string) : string :=
  match l with
  | [] => EmptyString
  | [x] => x
  | x :: l' => x +:+ sep +:+ join sep l'
  end.

(** [urlencode(d, doseq=True)] for a dict of strings *)
Definition urlencode (d : pydict) : string :=
  join "&" (map (fun kv => quote_plus (fst kv) +:+ "=" +:+ quote_plus (snd kv)) d).

(** ** utils.py *)

Definition get_cleaned_url_params (url : string)
  : res (string * option string * string * option string) :=
  let url := unquote url in
  parsed_url <~~ urlparse url;
  let get_args := query parsed_url in
  let parsed_get_args := dict_of (parse_qsl get_args) in
  let '(_version, parsed_get_args) :=
    match dict_get "version" parsed_get_args with
    | Some v => (v, dict_del "version" parsed_get_args)
    | None => ("2.0.1"%string, parsed_get_args)
    end in
  let '(_service, parsed_get_args) :=
    match dict_get "service" parsed_get_args with
    | Some v => (Some v, dict_del "service" parsed_get_args)
    | None => (None, parsed_get_args)
    end in
  let '(_request, parsed_get_args) :=
    match dict_get "request" parsed_get_args with
    | Some v => (Some v, dict_del "request" parsed_get_args)
    | None => (None, parsed_get_args)
    end in
  let encoded_get_args := urlencode parsed_get_args in
  let new_url :=
    geturl {| scheme := scheme parsed_url; netloc := netloc parsed_url;
              path := path parsed_url; params := params parsed_url;
              query := encoded_get_args; fragment := fragment parsed_url |} in
  Ok (new_url, _service, _version, _request).

(** ** The objects of owslib and of the host platform *)

(** A [gml:Envelope] element: its attributes and the text of its
    [lowerCorner] and [upperCorner] children. The outer [None] is a child
    that is not there ([find] returns [None]); the inner one is an element
    without text. *)
Record Envelope : Type := {
  attrib : gmap string string;
  lowerCorner : option (option string);
  upperCorner : option (option string)
}.

(** One entry of a list of native bounding boxes: a dict with the keys
    ['nativeSrs'] and ['bbox'], and ['temporal_extent'] when
    [entry_temporal_extent] is not [None]. *)
Record BBoxEntry : Type := {
  nativeSrs : string;
  entry_bbox : list float;
  entry_temporal_extent : option (string * string)
}.

(** [owslib.coverage.wcsXXX.ContentMetadata]. Reading [id], [boundingBox]
    or [boundingBoxWGS84] may raise; a bounding box is [None] or a sequence
    of floats. [boundingboxes] is a property: for WCS 2.0 owslib computes it
    from the describe-coverage document, which it requests from the
    endpoint the first time the property is read and then keeps on the
    object. [boundingboxes] is what a read returns or raises, and
    [boundingboxes_requests] are the requests that the first read sends
    (none for an object that holds the list as a plain attribute); a read
    that follows a read that returned sends nothing and returns the same
    list. *)
Record ContentMetadata : Type := {
  cm_id : res (option string);
  cm_title : option string;
  cm_abstract : option string;
  cm_keywords : list string;
  boundingBox : res (option (list float));
  boundingBoxWGS84 : res (option (list float));
  boundingboxes : res (list BBoxEntry);
  boundingboxes_requests : list event
}.

(** [owslib.wcs.WebCoverageService]: the capabilities that were read when
    it was built, and the answer of the endpoint to [DescribeCoverage],
    given as the [Envelope] elements found at
    [CoverageDescription/boundedBy/Envelope]. *)
Record WCS : Type := {
  wcs_url : string;
  contents : list (string * ContentMetadata);
  describeCoverage : option string -> res (list Envelope)
}.

Record TopicCategory : Type := {
  identifier : string;
  gn_description : string
}.

(** What the code reads from outside: the Django settings, the remote
    endpoint behind the owslib constructor, the built-ins [int] and
    [float] on strings ([None] is [ValueError]) and the rows of the
    [TopicCategory] table (or the exception of the query). *)
Record Env : Type := {
  OGC_SERVER : gmap string (gmap string Z);
  WebCoverageService : string -> string -> Z -> res WCS;
  py_int : string -> option Z;
  py_float : string -> option float;
  TopicCategory_objects : res (list TopicCategory)
}.

Definition Polygon : Type := list (float * float).

(** [django.contrib.gis.geos.Polygon.from_bbox] (Django, not among the
    sources) on a 4-tuple of numbers [(x0, y0, x1, y1)]: the linear ring
    [((x0, y0), (x0, y1), (x1, y1), (x1, y0), (x0, y0))]. *)
Definition from_bbox (b : float * float * float * float) : Polygon :=
  let '(x0, y0, x1, y1) := b in
  [(x0, y0); (x0, y1); (x1, y1); (x1, y0); (x0, y0)].

(** The ring that section 4.3 of the spec gives for a rectangle:
    [(min_x, min_y), (max_x, min_y), (max_x, max_y), (min_x, max_y)], closed
    back to the start. *)
Definition ring_of_spec (b : float * float * float * float) : Polygon :=
  let '(min_x, min_y, max_x, max_y) := b in
  [(min_x, min_y); (max_x, min_y); (max_x, max_y); (min_x, max_y); (min_x, min_y)].

(** The dict built by [_get_bbox]: a field is [None] while its key is not
    set; the value of ['temporal_extent'] is itself [None] or a pair. *)
Record BBox : Type := {
  crs : option string;
  temporal_extent : option (option (string * string));
  spatial_extent : option Polygon
}.

Definition empty_bbox : BBox :=
  {| crs := None; temporal_extent := None; spatial_extent := None |}.

Definition set_crs (v : string) (b : BBox) : BBox :=
  {| crs := Some v; temporal_extent := temporal_extent b; spatial_extent := spatial_extent b |}.

Definition set_temporal_extent (v : option (string * string)) (b : BBox) : BBox :=
  {| crs := crs b; temporal_extent := Some v; spatial_extent := spatial_extent b |}.

Definition set_spatial_extent (v : Polygon) (b : BBox) : BBox :=
  {| crs := crs b; temporal_extent := temporal_extent b; spatial_extent := Some v |}.

(** The dict built by [_get_wcs_content_metadata]; ['category'] is added
    by [_get_metadata] and is [None] until then. *)
Record Metadata : Type := {
  md_name : string;
  md_title : option string;
  md_keywords : list string;
  md_abstract : option string;
  md_wcs_url : string;
  md_spatial_extent : Polygon;
  md_crs : string;
  md_temporal_extent : option (string * string);
  md_category : option TopicCategory
}.

Record BriefRemoteResource : Type := {
  unique_identifier : string;
  title : string;
  abstract : string;
  resource_type : string
}.

Record WCSHarvester : Type := {
  remote_url : string;
  dataset_title_filter : option string
}.

Record WCSServiceHandler : Type := {
  url : string;
  geonode_service_id : option Z
}.

(** ** utils.py, continued, and the two classes *)

Section Program.

Variable env : Env.

Definition get_wcs_service (url : string) : M WCS :=
  cleaned <-- lift (get_cleaned_url_params url);
  let '(cleaned_url, service, version, request_) := cleaned in
  ogc_server_settings <-- lift (or_raise (KeyError "default") (OGC_SERVER env !! "default"));
  let timeout := default 60 (ogc_server_settings !! "TIMEOUT") in
  _ <-- request (GetCapabilities cleaned_url version timeout);
  lift (WebCoverageService env cleaned_url version timeout).

(** [wcs.getDescribeCoverage(coverage_id)] followed by [findall] *)
Definition getDescribeCoverage (wcs : WCS) (coverage_id : option string) : M (list Envelope) :=
  _ <-- request (DescribeCoverage (wcs_url wcs) coverage_id);
  lift (describeCoverage wcs coverage_id).

Definition _get_wcs (self : WCSHarvester) : M WCS :=
  get_wcs_service (remote_url self).

(** [True if len(x.contents) > 0 else False] *)
Definition has_contents (wcs : WCS) : bool :=
  (0 <? length (contents wcs))%nat.

Definition list_resources (self : WCSHarvester) (offset : option Z)
  : M (list BriefRemoteResource) :=
  if negb (bool_decide (offset = Some 0)) then ret []
  else
    wcs <-- _get_wcs self;
    ret (map (fun item : string * ContentMetadata =>
                let '(coverage_name, coverage) := item in
                let title :=
                  match cm_title coverage with
                  | None => coverage_name
                  | Some t => t
                  end in
                let abstract :=
                  match cm_abstract coverage with
                  | None => "Not provided"%string
                  | Some a => a
                  end in
                {| unique_identifier := coverage_name; title := title;
                   abstract := abstract; resource_type := "layers" |})
             (contents wcs)).

Definition check_availability (self : WCSHarvester) (timeout_seconds : option Z) : M bool :=
  try_except
    (wcs <-- _get_wcs self; ret (has_contents wcs))
    (fun _ => ret false).

Definition wcs (self : WCSServiceHandler) : M WCS :=
  get_wcs_service (url self).

Definition probe (self : WCSServiceHandler) : M bool :=
  try_except
    (w <-- wcs self; ret (has_contents w))
    (fun _ => ret false).

Definition x_labels : list string := ["longitude"; "lon"; "long"; "e"; "w"; "x"]%string.
Definition y_labels : list string := ["latitude"; "lat"; "n"; "s"; "y"]%string.

(** [float(l[i])] *)
Definition float_at (l : list string) (i : nat) : res float :=
  s <~~ getitem l i;
  or_raise ValueError (py_float env s).

Definition float4 (l1 : list string) (i1 : nat) (l2 : list string) (i2 : nat)
    (l3 : list string) (i3 : nat) (l4 : list string) (i4 : nat) : res (list float) :=
  a <~~ float_at l1 i1;
  b <~~ float_at l2 i2;
  c <~~ float_at l3 i3;
  d <~~ float_at l4 i4;
  Ok [a; b; c; d].

(** [labels[i] in y_labels and labels[j] in x_labels], left to right *)
Definition lat_then_lon (labels : list string) (i j : nat) : res bool :=
  a <~~ getitem labels i;
  if str_in a y_labels
  then (b <~~ getitem labels j; Ok (str_in b x_labels))
  else Ok false.

(** [envelope.find(child).text.split()] *)
Definition corner (child : option (option string)) : res (list string) :=
  match child with
  | None => Raise (AttributeError "text")
  | Some None => Raise (AttributeError "split")
  | Some (Some text) => Ok (split_ws text)
  end.

(** The body of the loop of [_getOtherBoundingBoxes] for one envelope. *)
Definition envelope_bbox (envelope : Envelope) : res BBoxEntry :=
  srsName <~~ or_raise (KeyError "srsName") (attrib envelope !! "srsName");
  srsDimension <~~ or_raise (KeyError "srsDimension") (attrib envelope !! "srsDimension");
  dims <~~ or_raise ValueError (py_int env srsDimension);
  axisLabels <~~ or_raise (KeyError "axisLabels") (attrib envelope !! "axisLabels");
  let axis_labels := split_ws (lower axisLabels) in
  lc <~~ corner (lowerCorner envelope);
  uc <~~ corner (upperCorner envelope);
  if dims =? 2 then
    swap <~~ lat_then_lon axis_labels 0 1;
    b <~~ (if swap then float4 lc 1 lc 0 uc 1 uc 0 else float4 lc 0 lc 1 uc 0 uc 1);
    Ok {| nativeSrs := srsName; entry_bbox := b; entry_temporal_extent := None |}
  else if dims =? 3 then
    swap <~~ lat_then_lon axis_labels 1 2;
    b <~~ (if swap then float4 lc 2 lc 1 uc 2 uc 1 else float4 lc 1 lc 2 uc 1 uc 2);
    lc0 <~~ getitem lc 0;
    uc0 <~~ getitem uc 0;
    Ok {| nativeSrs := srsName; entry_bbox := b;
          entry_temporal_extent := Some (remove_char dquote lc0, remove_char dquote uc0) |}
  else
    b <~~ float4 lc 0 lc 1 uc 0 uc 1;
    Ok {| nativeSrs := srsName; entry_bbox := b; entry_temporal_extent := None |}.

(** The loop: the entries in document order; the first exception ends it. *)
Fixpoint envelope_bboxes (envelopes : list Envelope) : res (list BBoxEntry) :=
  match envelopes with
  | [] => Ok []
  | envelope :: rest =>
      b <~~ envelope_bbox envelope;
      bs <~~ envelope_bboxes rest;
      Ok (b :: bs)
  end.

Definition _getOtherBoundingBoxes (self : WCSHarvester) (coverage_id : option string)
  : M (list BBoxEntry) :=
  describe_coverage <--
    try_except
      (w <-- _get_wcs self; d <-- getDescribeCoverage w coverage_id; ret (Some d))
      (fun _ => ret None);
  match describe_coverage with
  | None => ret []
  | Some envelopes => lift (envelope_bboxes envelopes)
  end.

(** [if x:] for [None] or a sequence *)
Definition truthy {A} (x : option (list A)) : bool :=
  match x with
  | Some (_ :: _) => true
  | _ => false
  end.

(** [x[i]] for [None] or a sequence *)
Definition subscript {A} (x : option (list A)) (i : nat) : res A :=
  match x with
  | None => Raise TypeError
  | Some l => getitem l i
  end.

(** ['{}:{}'.format(srid_url.split('/')[-3], srid_url.split('/')[-1])] *)
Definition crs_of_srs (srid_url : string) : res string :=
  a <~~ getitem_neg (split_on "/" srid_url) 3;
  b <~~ getitem_neg (split_on "/" srid_url) 1;
  Ok (a +:+ ":" +:+ b).

Definition rect4 (x : res (option (list float))) : res (float * float * float * float) :=
  v0 <~~ x; left_x <~~ subscript v0 0;
  v1 <~~ x; lower_y <~~ subscript v1 1;
  v2 <~~ x; right_x <~~ subscript v2 2;
  v3 <~~ x; upper_y <~~ subscript v3 3;
  Ok (left_x, lower_y, right_x, upper_y).

(** [boxes[0]['bbox'][0..3]] for a list read by [boxes] *)
Definition first_rect (boxes : res (list BBoxEntry)) : res (float * float * float * float) :=
  rect4 (l <~~ boxes; e <~~ getitem l 0; Ok (Some (entry_bbox e))).

Definition first_srs (boxes : res (list BBoxEntry)) : res string :=
  l <~~ boxes; e <~~ getitem l 0; Ok (nativeSrs e).

(** The first read of [wcs_content.boundingboxes] in a call: its requests
    are sent whether it returns or raises. *)
Definition read_boundingboxes (wcs_content : ContentMetadata) : M (list BBoxEntry) :=
  fun log => (boundingboxes wcs_content, log ++ boundingboxes_requests wcs_content).

(** The first [try] block of [_get_bbox] *)
Definition has_boundingboxes_of (wcs_content : ContentMetadata) : M bool :=
  try_except
    (l <-- read_boundingboxes wcs_content; ret (0 <? length l)%nat)
    (fun _ => ret false).

(** The second [try] block of [_get_bbox]; [None] stands for [False]. *)
Definition other_boundingboxes_of (self : WCSHarvester) (wcs_content : ContentMetadata)
  : M (option (list BBoxEntry)) :=
  try_except
    (i <-- lift (cm_id wcs_content);
     other <-- _getOtherBoundingBoxes self i;
     ret (if (length other =? 0)%nat then None else Some other))
    (fun _ => ret None).

Definition globe : float * float * float * float := (-180, -90, 180, 90)%float.

Definition _get_bbox (self : WCSHarvester) (wcs_content : ContentMetadata) : M BBox :=
  let bbox := empty_bbox in
  has_boundingboxes <-- has_boundingboxes_of wcs_content;
  other_boundingboxes <-- other_boundingboxes_of self wcs_content;
  bb <-- lift (boundingBox wcs_content);
  rect_bbox <--
    (if truthy bb then
       rect <-- lift (rect4 (boundingBox wcs_content));
       ret (rect, set_temporal_extent None bbox)
     else
       wgs <-- lift (boundingBoxWGS84 wcs_content);
       if truthy wgs then
         rect <-- lift (rect4 (boundingBoxWGS84 wcs_content));
         ret (rect, set_temporal_extent None (set_crs "EPSG:4326" bbox))
       else if has_boundingboxes then
         rect <-- lift (first_rect (boundingboxes wcs_content));
         srid_url <-- lift (first_srs (boundingboxes wcs_content));
         c <-- lift (crs_of_srs srid_url);
         ret (rect, set_temporal_extent None (set_crs c bbox))
       else
         match other_boundingboxes with
         | Some other =>
             rect <-- lift (first_rect (Ok other));
             srid_url <-- lift (first_srs (Ok other));
             c <-- lift (crs_of_srs srid_url);
             e <-- lift (getitem other 0);
             te <-- lift (or_raise (KeyError "temporal_extent") (entry_temporal_extent e));
             ret (rect, set_temporal_extent (Some te) (set_crs c bbox))
         | None =>
             ret (globe, set_temporal_extent None (set_crs "EPSG:4326" bbox))
         end);
  let '(rect, bbox) := rect_bbox in
  ret (set_spatial_extent (from_bbox rect) bbox).

(** [try: ... except Exception: ...] for code that sends no request *)
Definition res_try {A} (body : res A) (handler : exn -> res A) : res A :=
  match body with
  | Ok a => Ok a
  | Raise e => handler e
  end.

Definition _get_category (category_string : string) : option TopicCategory :=
  match
    res_try
      (rows <~~ TopicCategory_objects env;
       let category_qs := filter (fun c => identifier c = category_string) rows in
       match category_qs with
       | c :: _ => Ok (Some c)
       | [] => Ok None
       end)
      (fun _ => Ok None)
  with
  | Ok c => c
  | Raise _ => None
  end.

Definition _get_wcs_content_metadata (self : WCSHarvester) (coverage_id : string) : M Metadata :=
  found <--
    try_except
      (w <-- _get_wcs self;
       wcs_content <-- lift (or_raise (KeyError coverage_id)
                               (snd <$> List.find (fun item => String.eqb (fst item) coverage_id)
                                          (contents w)));
       ret (w, wcs_content))
      (fun _ => raise (Exception ("No coverage with id " +:+ coverage_id)));
  let '(w, wcs_content) := found in
  name <-- lift (match cm_id wcs_content with
                 | Raise (AttributeError _) => Ok None
                 | r => r
                 end);
  match name with
  | None => raise (Exception "Coverage has no id")
  | Some name =>
      bbox <-- _get_bbox self wcs_content;
      spatial_extent <-- lift (or_raise (KeyError "spatial_extent") (spatial_extent bbox));
      temporal_extent <--
        try_except
          (lift (or_raise (KeyError "temporal_extent") (temporal_extent bbox)))
          (fun _ => ret None);
      crs <-- lift (or_raise (KeyError "crs") (crs bbox));
      ret {| md_name := name;
             md_title := cm_title wcs_content;
             md_keywords := cm_keywords wcs_content;
             md_abstract := cm_abstract wcs_content;
             md_wcs_url := wcs_url w;
             md_spatial_extent := spatial_extent;
             md_crs := crs;
             md_temporal_extent := temporal_extent;
             md_category := None |}
  end.

(** The loop of [_get_metadata] over the keywords. *)
Fixpoint first_category (keywords : list string) : option TopicCategory :=
  match keywords with
  | [] => None
  | keyword :: rest =>
      match _get_category keyword with
      | Some category => Some category
      | None => first_category rest
      end
  end.

Definition _get_metadata (self : WCSHarvester) (coverage_id : string) : M Metadata :=
  metadata <-- _get_wcs_content_metadata self coverage_id;
  let title :=
    match md_title metadata with
    | None => Some (md_name metadata)
    | t => t
    end in
  let abstract :=
    match md_abstract metadata with
    | None => Some "Not provided"%string
    | a => a
    end in
  ret {| md_name := md_name metadata;
         md_title := title;
         md_keywords := md_keywords metadata;
         md_abstract := abstract;
         md_wcs_url := md_wcs_url metadata;
         md_spatial_extent := md_spatial_extent metadata;
         md_crs := md_crs metadata;
         md_temporal_extent := md_temporal_extent metadata;
         md_category := first_category (md_keywords metadata) |}.

End Program.

(** ** The chain of [_get_bbox] as a function of what it tests *)

Inductive source : Type := Primary | WGS84 | Native | Described | Globe.

Definition priority : list source := [Primary; WGS84; Native; Described; Globe].

(** What [_get_bbox] has in hand when it enters the [if]/[elif] chain. *)
Record probes : Type := {
  p_boundingBox : option (list float);
  p_boundingBoxWGS84 : option (list float);
  p_has_boundingboxes : bool;
  p_other_boundingboxes : option (list BBoxEntry)
}.

(** The tests of the chain, in the order of [priority]. *)
Definition yields (p : probes) (s : source) : bool :=
  match s with
  | Primary => truthy (p_boundingBox p)
  | WGS84 => truthy (p_boundingBoxWGS84 p)
  | Native => p_has_boundingboxes p
  | Described => bool_decide (is_Some (p_other_boundingboxes p))
  | Globe => true
  end.

(** The body of the branch of each test. *)
Definition extent_from (wcs_content : ContentMetadata) (p : probes) (s : source)
  : res (float * float * float * float * BBox) :=
  match s with
  | Primary =>
      rect <~~ rect4 (Ok (p_boundingBox p));
      Ok (rect, set_temporal_extent None empty_bbox)
  | WGS84 =>
      rect <~~ rect4 (Ok (p_boundingBoxWGS84 p));
      Ok (rect, set_temporal_extent None (set_crs "EPSG:4326" empty_bbox))
  | Native =>
      rect <~~ first_rect (boundingboxes wcs_content);
      srid_url <~~ first_srs (boundingboxes wcs_content);
      c <~~ crs_of_srs srid_url;
      Ok (rect, set_temporal_extent None (set_crs c empty_bbox))
  | Described =>
      let other := default [] (p_other_boundingboxes p) in
      rect <~~ first_rect (Ok other);
      srid_url <~~ first_srs (Ok other);
      c <~~ crs_of_srs srid_url;
      e <~~ getitem other 0;
      te <~~ or_raise (KeyError "temporal_extent") (entry_temporal_extent e);
      Ok (rect, set_temporal_extent (Some te) (set_crs c empty_bbox))
  | Globe =>
      Ok (globe, set_temporal_extent None (set_crs "EPSG:4326" empty_bbox))
  end.

(** The chain: the branch of the first test that holds. *)
Definition resolve_by_priority (wcs_content : ContentMetadata) (p : probes) : res BBox :=
  match List.find (yields p) priority with
  | Some s =>
      rb <~~ extent_from wcs_content p s;
      Ok (set_spatial_extent (from_bbox (fst rb)) (snd rb))
  | None => Raise (Exception "no source")
  end.

(** ** The resolver as section 4.3 of the spec words it *)

(** A resolved extent: a rectangle, a CRS identifier unless it is left
    unspecified, and a temporal extent if there is one. *)
Record ResolvedExtent : Type := {
  re_rect : float * float * float * float;
  re_crs : option string;
  re_temporal : option (string * string)
}.

(** What the four sources hold for a coverage: the primary box, the WGS84
    box, the list of native boxes, the boxes of the describe-coverage
    document. A field or a list that is not there holds nothing. *)
Record sources : Type := {
  s_primary : option (list float);
  s_wgs84 : option (list float);
  s_native : list BBoxEntry;
  s_described : list BBoxEntry
}.

Definition holds (src : sources) (s : source) : bool :=
  match s with
  | Primary => truthy (s_primary src)
  | WGS84 => truthy (s_wgs84 src)
  | Native => bool_decide (s_native src <> [])
  | Described => bool_decide (s_described src <> [])
  | Globe => true
  end.

(** The rectangle of a box: its first four coordinates. *)
Definition rect_of (box : list float) : option (float * float * float * float) :=
  match box with
  | left_x :: lower_y :: right_x :: upper_y :: _ => Some (left_x, lower_y, right_x, upper_y)
  | _ => None
  end.

(** The third-from-last and the last of the segments between the [/] of a
    native SRS, joined by a colon. *)
Definition crs_of_segments (srs : string) : option string :=
  match rev (split_on "/" srs) with
  | last :: _ :: third :: _ => Some (third +:+ ":" +:+ last)
  | _ => None
  end.

(** What one source resolves to, if it does. *)
Definition extent_of_source (src : sources) (s : source) : option ResolvedExtent :=
  match s with
  | Primary =>
      box ← s_primary src; rect ← rect_of box;
      Some {| re_rect := rect; re_crs := None; re_temporal := None |}
  | WGS84 =>
      box ← s_wgs84 src; rect ← rect_of box;
      Some {| re_rect := rect; re_crs := Some "EPSG:4326"%string; re_temporal := None |}
  | Native =>
      e ← head (s_native src); rect ← rect_of (entry_bbox e);
      c ← crs_of_segments (nativeSrs e);
      Some {| re_rect := rect; re_crs := Some c; re_temporal := None |}
  | Described =>
      e ← head (s_described src); rect ← rect_of (entry_bbox e);
      c ← crs_of_segments (nativeSrs e);
      Some {| re_rect := rect; re_crs := Some c; re_temporal := entry_temporal_extent e |}
  | Globe =>
      Some {| re_rect := globe; re_crs := Some "EPSG:4326"%string; re_temporal := None |}
  end.


(** A resolved extent as the dict that [_get_bbox] returns. *)
Definition bbox_of (x : ResolvedExtent) : BBox :=
  {| crs := re_crs x;
     temporal_extent := Some (re_temporal x);
     spatial_extent := Some (from_bbox (re_rect x)) |}.

(** A resolved extent before the spatial extent is set. *)
Definition without_spatial_extent (x : ResolvedExtent) : BBox :=
  {| crs := re_crs x; temporal_extent := Some (re_temporal x); spatial_extent := None |}.

(** What the sources of a coverage hold, [other] being what the second
    [try] block of [_get_bbox] was left with. *)
Definition value_of {A} (r : res A) (d : A) : A :=
  match r with
  | Ok a => a
  | Raise _ => d
  end.

Definition sources_found (wcs_content : ContentMetadata) (other : option (list BBoxEntry))
  : sources :=
  {| s_primary := value_of (boundingBox wcs_content) None;
     s_wgs84 := value_of (boundingBoxWGS84 wcs_content) None;
     s_native := value_of (boundingboxes wcs_content) [];
     s_described := default [] other |}.



(** ** Idempotence of the URL normalizer *)

(** The canonical URL of [u], and the one of that canonical URL. *)
Definition canonical_url (u : string) : res string :=
  r <~~ get_cleaned_url_params u;
  Ok (fst (fst (fst r))).



(** URLs [scheme://netloc path ?query #fragment] without percent sign. *)
Definition tail_query (q : option string) : string :=
  match q with
  | Some q => "?" +:+ q
  | None => EmptyString
  end.

Definition tail_fragment (f : option string) : string :=
  match f with
  | Some f => "#" +:+ f
  | None => EmptyString
  end.

Definition url_of (S N P : string) (Q F : option string) : string :=
  S +:+ "://" +:+ N +:+ P +:+ tail_query Q +:+ tail_fragment F.

(** TAB, LF, CR *)
Definition is_unsafe (c : ascii) : bool :=
  let n := nat_of_ascii c in (n =? 9)%nat || (n =? 10)%nat || (n =? 13)%nat.

Definition fragment_char (c : ascii) : bool :=
  negb (Ascii.eqb c "%") && negb (is_unsafe c).

Definition query_char (c : ascii) : bool :=
  fragment_char c && negb (Ascii.eqb c "#").

Definition path_char (c : ascii) : bool :=
  query_char c && negb (Ascii.eqb c "?").

(** printable ASCII other than the delimiters of a netloc *)
Definition netloc_char (c : ascii) : bool :=
  let n := nat_of_ascii c in
  (32 <? n)%nat && (n <? 127)%nat && path_char c
  && negb (Ascii.eqb c "/") && negb (Ascii.eqb c "[") && negb (Ascii.eqb c "]").

Definition plain_scheme (S : string) : bool :=
  match S with
  | String c0 _ => is_alpha c0 && forallb_str is_scheme_char S
  | EmptyString => false
  end.

Definition plain_netloc (N : string) : bool :=
  nonempty N && forallb_str netloc_char N.

Definition plain_path (P : string) : bool :=
  (negb (nonempty P) || has_prefix1 "/" P) && forallb_str path_char P.

Definition opt_forall (p : ascii -> bool) (o : option string) : bool :=
  match o with
  | Some s => forallb_str p s
  | None => true
  end.

(** The path and params [urlparse] makes of the path of [urlsplit], and
    the path [geturl] joins them to. *)
Definition path_params (S P : string) : string * string :=
  if str_in S uses_params && contains ";" P then splitparams P else (P, EmptyString).

Definition joined_path (p_pr : string * string) : string :=
  if nonempty (snd p_pr) then fst p_pr +:+ ";" +:+ snd p_pr else fst p_pr.

Definition norm_path (S P : string) : string := joined_path (path_params S P).

(** [Some s] for a string that is not empty *)
Definition opt_nonempty (s : string) : option string :=
  if nonempty s then Some s else None.

(** [s.replace(' ', '+')] *)
Fixpoint space_to_plus (s : string) : string :=
  match s with
  | EmptyString => EmptyString
  | String c s' => String (if Ascii.eqb c " " then "+"%char else c) (space_to_plus s')
  end.

(** The query that [unquote] makes of [urlencode d] *)
Definition decoded_args (d : pydict) : string :=
  join "&" (map (fun kv => space_to_plus (fst kv) +:+ "=" +:+ space_to_plus (snd kv)) d).

(** Names and values as [parse_qsl] returns them for a query without
    percent sign, and dicts of them without the three popped keys. *)
Definition value_char (c : ascii) : bool :=
  query_char c && negb (Ascii.eqb c "&") && negb (Ascii.eqb c "+").

Definition key_char (c : ascii) : bool :=
  value_char c && negb (Ascii.eqb c "=").

Definition arg_ok (kv : string * string) : bool :=
  forallb_str key_char (fst kv) && forallb_str value_char (snd kv) && nonempty (snd kv).

Definition reserved_keys : list string := ["version"; "service"; "request"]%string.

Definition clean_dict (d : pydict) : Prop :=
  Forall (fun kv => arg_ok kv = true) d /\
  NoDup (map fst d) /\
  Forall (fun k => k ∉ map fst d) reserved_keys.

(** The arguments left after [version], [service] and [request] are
    popped. *)
Definition strip_args (d : pydict) : pydict :=
  dict_del "request" (dict_del "service" (dict_del "version" d)).

(** The entry a native source resolves from: the first of the coverage's
    [boundingboxes] when that list is there and not empty, else the first
    of the boxes read from the describe-coverage document. *)
Definition first_native_entry (wcs_content : ContentMetadata)
    (other : option (list BBoxEntry)) : option (source * BBoxEntry) :=
  match boundingboxes wcs_content with
  | Ok (e :: _) => Some (Native, e)
  | _ =>
      match other with
      | Some (e :: _) => Some (Described, e)
      | _ => None
      end
  end.

(** ** Concrete inputs *)

Fixpoint decimal_value (acc : Z) (s : string) : option Z :=
  match s with
  | EmptyString => Some acc
  | String c s' =>
      if is_digit c then decimal_value (10 * acc + Z.of_nat (nat_of_ascii c - 48)) s'
      else None
  end.

(** [int] and [float] on the unsigned decimal numerals, enough for the
    examples. *)
Definition example_int (s : string) : option Z :=
  if nonempty s then decimal_value 0 s else None.

Definition example_float (s : string) : option float :=
  z ← example_int s; Some (PrimFloat.of_uint63 (Uint63.of_Z z)).

(** A coverage ["cov1"] as owslib builds it for WCS 2.0.1: no primary box,
    and a list of native boxes that costs one describe-coverage request. *)
Definition example_coverage : ContentMetadata :=
  {| cm_id := Ok (Some "cov1"%string); cm_title := None; cm_abstract := None;
     cm_keywords := ["Hydrology"; "OtherTag"]%string;
     boundingBox := Ok None; boundingBoxWGS84 := Ok None; boundingboxes := Ok [];
     boundingboxes_requests :=
       [DescribeCoverage "http://example.org/ows" (Some "cov1"%string)] |}.

Definition with_boundingBox (b : res (option (list float))) (c : ContentMetadata) : ContentMetadata :=
  {| cm_id := cm_id c; cm_title := cm_title c; cm_abstract := cm_abstract c;
     cm_keywords := cm_keywords c; boundingBox := b;
     boundingBoxWGS84 := boundingBoxWGS84 c; boundingboxes := boundingboxes c;
     boundingboxes_requests := boundingboxes_requests c |}.

Definition with_boundingBoxWGS84 (b : res (option (list float))) (c : ContentMetadata) : ContentMetadata :=
  {| cm_id := cm_id c; cm_title := cm_title c; cm_abstract := cm_abstract c;
     cm_keywords := cm_keywords c; boundingBox := boundingBox c;
     boundingBoxWGS84 := b; boundingboxes := boundingboxes c;
     boundingboxes_requests := boundingboxes_requests c |}.

Definition with_boundingboxes (b : res (list BBoxEntry)) (c : ContentMetadata) : ContentMetadata :=
  {| cm_id := cm_id c; cm_title := cm_title c; cm_abstract := cm_abstract c;
     cm_keywords := cm_keywords c; boundingBox := boundingBox c;
     boundingBoxWGS84 := boundingBoxWGS84 c; boundingboxes := b;
     boundingboxes_requests := boundingboxes_requests c |}.

(** The same coverage when owslib cannot compute the native boxes: its
    parser reads the first two values of each corner as numbers and raises
    [ValueError] on a quoted time value. *)
Definition coverage_unparsed : ContentMetadata :=
  with_boundingboxes (Raise ValueError) example_coverage.

Definition box_10_20_30_40 : list float := [10; 20; 30; 40]%float.

Definition coverage_wgs84 : ContentMetadata :=
  with_boundingBoxWGS84 (Ok (Some box_10_20_30_40)) example_coverage.

Definition coverage_primary : ContentMetadata :=
  with_boundingBox (Ok (Some box_10_20_30_40)) example_coverage.

Definition coverage_native : ContentMetadata :=
  with_boundingboxes
    (Ok [{| nativeSrs := "http://www.opengis.net/def/crs/EPSG/0/4326";
            entry_bbox := box_10_20_30_40;
            entry_temporal_extent := None |}])
    example_coverage.

Definition example_url : string := "http://example.org/ows?service=WCS&version=2.0.1&request=GetCapabilities".

Definition example_wcs (coverage : ContentMetadata) (envelopes : list Envelope) : WCS :=
  {| wcs_url := "http://example.org/ows";
     contents := [("cov1"%string, coverage)];
     describeCoverage := fun _ => Ok envelopes |}.

Definition hydrology : TopicCategory :=
  {| identifier := "Hydrology"; gn_description := "Hydrology" |}.

Definition example_env (coverage : ContentMetadata) (envelopes : list Envelope) : Env :=
  {| OGC_SERVER := {[ "default"%string := ∅ ]};
     WebCoverageService := fun _ _ _ => Ok (example_wcs coverage envelopes);
     py_int := example_int;
     py_float := example_float;
     TopicCategory_objects := Ok [hydrology] |}.

(** The same settings with an endpoint that does not answer. *)
Definition silent_env : Env :=
  {| OGC_SERVER := {[ "default"%string := ∅ ]};
     WebCoverageService := fun _ _ _ => Raise (Exception "timed out");
     py_int := example_int;
     py_float := example_float;
     TopicCategory_objects := Ok [hydrology] |}.

Definition example_harvester : WCSHarvester :=
  {| remote_url := example_url; dataset_title_filter := None |}.

Definition envelope_of (dimension labels lower_text upper_text : string) : Envelope :=
  {| attrib := {[ "srsName"%string := "http://www.opengis.net/def/crs/EPSG/0/4326"%string;
                  "srsDimension"%string := dimension;
                  "axisLabels"%string := labels ]};
     lowerCorner := Some (Some lower_text);
     upperCorner := Some (Some upper_text) |}.

(** [<lowerCorner>"2020-01-01" 10 20</lowerCorner>] and its upper corner,
    axis labels [ansi Lat Long] *)
Definition envelope_3d : Envelope :=
  envelope_of "3" "ansi Lat Long"
    (String dquote "2020-01-01" +:+ String dquote " 10 20")
    (String dquote "2020-12-31" +:+ String dquote " 30 40").

Definition envelope_2d : Envelope :=
  envelope_of "2" "Lat Long" "10 20" "30 40".

(** A quoted time value with one more double quote inside, after 2020 *)
Definition envelope_3d_inner_quote : Envelope :=
  envelope_of "3" "ansi Lat Long"
    (String dquote "2020" +:+ String dquote "-01-01" +:+ String dquote " 10 20")
    (String dquote "2020-12-31" +:+ String dquote " 30 40").

(** ** The rest of utils.py and of the harvester *)

(** [owslib]'s [ServiceContact], as read from [wcs.provider.contact]. *)
Record ServiceContact : Type := {
  sc_name : option string;
  sc_organization : option string;
  sc_position : option string;
  sc_phone : option string;
  sc_city : option string;
  sc_region : option string;
  sc_postcode : option string;
  sc_country : option string;
  sc_email : option string
}.

(** What [get_resource] and [get_wms_version] read from outside, besides
    [Env]: the contact of the provider of a service (or the exception of
    reading it), the UUID that [uuid.uuid4()] draws, [uuid.UUID] on strings
    ([None] is [ValueError]), the clock, Django's [slugify], GeoNode's
    [GXP_PTYPES], and the attributes of the root element of the XML
    document behind a URL (or the exception of fetching or parsing it). *)
Record Platform : Type := {
  provider_contact : WCS -> res ServiceContact;
  uuid4 : string;
  py_UUID : string -> option string;
  now : Z;
  slugify : string -> string;
  GXP_PTYPES : gmap string string;
  urlopen_root : string -> res (gmap string string)
}.

(** The dict returned by [_get_contact]. *)
Record ContactInfo : Type := {
  role : string;
  name : option string;
  organization : option string;
  position : option string;
  phone_voice : option string;
  address_delivery_point : string;
  address_city : option string;
  address_administrative_area : option string;
  address_postal_code : option string;
  address_country : option string;
  address_email : option string
}.

(** [resourcedescriptor.RecordDescriptionContact(contact_info)] *)
Record RecordDescriptionContact : Type := {
  contact_argument : ContactInfo
}.

Record RecordIdentification : Type := {
  ri_name : string;
  ri_title : option string;
  ri_date : Z;
  ri_date_type : string;
  ri_originator : RecordDescriptionContact;
  ri_place_keywords : list string;
  ri_other_keywords : list string;
  ri_topic_category : option TopicCategory;
  ri_license : list string;
  ri_abstract : option string;
  ri_spatial_extent : Polygon;
  ri_temporal_extent : option (string * string)
}.

Record RecordDistribution : Type := {
  rdist_wcs_url : string
}.

Record RecordDescription : Type := {
  rd_uuid : string;
  rd_point_of_contact : RecordDescriptionContact;
  rd_author : RecordDescriptionContact;
  rd_date_stamp : Z;
  rd_identification : RecordIdentification;
  rd_distribution : RecordDistribution;
  rd_reference_systems : list string;
  rd_additional_parameters : gmap string string
}.

Record HarvestedResourceInfo : Type := {
  resource_descriptor : RecordDescription;
  additional_information : option unit
}.

(** The GeoNode resource of a harvestable resource, when there is one. *)
Record ResourceBase : Type := {
  rb_uuid : string
}.

Record HarvestableResource : Type := {
  hr_unique_identifier : string;
  geonode_resource : option ResourceBase
}.

(** [s[:n]] *)
Fixpoint take_str (n : nat) (s : string) : string :=
  match n, s with
  | S n', String c s' => String c (take_str n' s')
  | _, _ => EmptyString
  end.

(** The number of occurrences of [c] in [s] *)
Fixpoint count_char (c : ascii) (s : string) : nat :=
  match s with
  | EmptyString => O
  | String d s' => if Ascii.eqb d c then S (count_char c s') else count_char c s'
  end.

(** The value of the last pair of [l] whose key is [k] *)
Fixpoint last_value (k : string) (l : list (string * string)) : option string :=
  match l with
  | [] => None
  | (k', v) :: l' =>
      match last_value k l' with
      | Some v' => Some v'
      | None => if String.eqb k' k then Some v else None
      end
  end.

(** A value of the dict of resource defaults: a string, or a value of
    another kind [O] that the base class put there. *)
Inductive dval (O : Type) : Type :=
| DStr (s : string)
| DOther (o : O).
Arguments DStr {O} s.
Arguments DOther {O} o.

Section Harvesting.

Variable env : Env.
Variable platform : Platform.

Definition get_num_available_resources (self : WCSHarvester) : M nat :=
  w <-- _get_wcs env self;
  ret (length (contents w)).

Definition get_wms_version (url : string) : res string :=
  res_try
    (let query_params := [("service", "WMS"); ("request", "GetCapabilities")]%string in
     parsed <~~ urlparse url;
     let parsed :=
       {| scheme := scheme parsed; netloc := netloc parsed; path := path parsed;
          params := params parsed; query := urlencode query_params;
          fragment := fragment parsed |} in
     let url_wms := geturl parsed in
     root <~~ urlopen_root platform url_wms;
     or_raise (KeyError "version") (root !! "version"%string))
    (fun _ => Ok "1.3.0"%string).

Definition _get_contact (contact : ServiceContact) : ContactInfo :=
  {| role := "";
     name := sc_name contact;
     organization := sc_organization contact;
     position := sc_position contact;
     phone_voice := sc_phone contact;
     address_delivery_point := "";
     address_city := sc_city contact;
     address_administrative_area := sc_region contact;
     address_postal_code := sc_postcode contact;
     address_country := sc_country contact;
     address_email := sc_email contact |}.

(** The [try] block of [get_resource] *)
Definition get_resource_try (self : WCSHarvester) (resource_unique_identifier : string)
  : M (WCS * ContactInfo * Metadata) :=
  w <-- _get_wcs env self;
  contact_info <-- lift (c <~~ provider_contact platform w; Ok (_get_contact c));
  relevant_coverage <--
    lift (getitem (filter (fun coverage_id => coverage_id = resource_unique_identifier)
                     (map fst (contents w))) 0);
  coverage_metadata <-- _get_metadata env self relevant_coverage;
  ret (w, contact_info, coverage_metadata).

(** The [else] block of [get_resource] *)
Definition get_resource_else (self : WCSHarvester) (harvestable_resource : HarvestableResource)
    (contact_info : ContactInfo) (coverage_metadata : Metadata) : M (option HarvestedResourceInfo) :=
  let resource_uuid := uuid4 platform in
  resource_uuid <--
    match geonode_resource harvestable_resource with
    | Some r => lift (or_raise ValueError (py_UUID platform (rb_uuid r)))
    | None => ret resource_uuid
    end;
  let time := now platform in
  let service_name := take_str 255 (slugify platform (remote_url self)) in
  let contact := {| contact_argument := contact_info |} in
  ptype <-- lift (or_raise (KeyError "WCS") (GXP_PTYPES platform !! "WCS"%string));
  ret (Some
         {| resource_descriptor :=
              {| rd_uuid := resource_uuid;
                 rd_point_of_contact := contact;
                 rd_author := contact;
                 rd_date_stamp := time;
                 rd_identification :=
                   {| ri_name := md_name coverage_metadata;
                      ri_title := md_title coverage_metadata;
                      ri_date := time;
                      ri_date_type := "";
                      ri_originator := contact;
                      ri_place_keywords := [];
                      ri_other_keywords := md_keywords coverage_metadata;
                      ri_topic_category := md_category coverage_metadata;
                      ri_license := [];
                      ri_abstract := md_abstract coverage_metadata;
                      ri_spatial_extent := md_spatial_extent coverage_metadata;
                      ri_temporal_extent := md_temporal_extent coverage_metadata |};
                 rd_distribution := {| rdist_wcs_url := md_wcs_url coverage_metadata |};
                 rd_reference_systems := [md_crs coverage_metadata];
                 rd_additional_parameters :=
                   <["alternate"%string := md_name coverage_metadata]>
                     (<["store"%string := service_name]>
                        (<["workspace"%string := "remoteWorkspace"%string]>
                           (<["ows_url"%string := md_wcs_url coverage_metadata]>
                              (<["ptype"%string := ptype]> ∅)))) |};
            additional_information := None |}).

(** [try: ... except IndexError: ... else: ...]: only [IndexError] is
    caught, and what the [else] block raises is not. *)
Definition get_resource (self : WCSHarvester) (harvestable_resource : HarvestableResource)
  : M (option HarvestedResourceInfo) :=
  fun log =>
    match get_resource_try self (hr_unique_identifier harvestable_resource) log with
    | (Ok (_, contact_info, coverage_metadata), log') =>
        get_resource_else self harvestable_resource contact_info coverage_metadata log'
    | (Raise IndexError, log') => (Ok None, log')
    | (Raise e, log') => (Raise e, log')
    end.

(** [get_geonode_resource_defaults], given the dict [defaults] that the
    method of the base class returns. *)
Definition get_geonode_resource_defaults {O : Type} (defaults : gmap string (dval O))
    (harvested_info : HarvestedResourceInfo) : gmap string (dval O) :=
  let identification := rd_identification (resource_descriptor harvested_info) in
  let defaults := <["name"%string := DStr (ri_name identification)]> defaults in
  let defaults :=
    match ri_temporal_extent identification with
    | Some (t0, t1) =>
        <["temporal_extent_end"%string := DStr t1]>
          (<["temporal_extent_start"%string := DStr t0]> defaults)
    | None => defaults
    end in
  (DStr <$> rd_additional_parameters (resource_descriptor harvested_info)) ∪ defaults.

End Harvesting.

(** Whether [srsDimension] is there and reads as 3. *)
Definition dimension_is_3 (env : Env) (envelope : Envelope) : bool :=
  match attrib envelope !! "srsDimension"%string with
  | Some d =>
      match py_int env d with
      | Some n => n =? 3
      | None => false
      end
  | None => false
  end.

(** [wcs.contents[coverage_id]], [None] for [KeyError] *)
Definition coverage_of (w : WCS) (coverage_id : string) : option ContentMetadata :=
  snd <$> List.find (fun item => String.eqb (fst item) coverage_id) (contents w).

(** More concrete inputs *)

Definition example_contact : ServiceContact :=
  {| sc_name := Some "Jane Doe"%string; sc_organization := None; sc_position := None;
     sc_phone := None; sc_city := None; sc_region := None; sc_postcode := None;
     sc_country := None; sc_email := None |}.

Definition example_platform : Platform :=
  {| provider_contact := fun _ => Ok example_contact;
     uuid4 := "00000000-0000-4000-8000-000000000001";
     py_UUID := fun s => Some s;
     now := 0;
     slugify := fun s => s;
     GXP_PTYPES := {[ "WCS"%string := "gxp_wcssource"%string ]};
     urlopen_root := fun _ => Ok {[ "version"%string := "1.1.1"%string ]} |}.

(** Settings without the entry ['default'] of [OGC_SERVER] *)
Definition unconfigured_env : Env :=
  {| OGC_SERVER := ∅;
     WebCoverageService := fun _ _ _ => Ok (example_wcs example_coverage []);
     py_int := example_int;
     py_float := example_float;
     TopicCategory_objects := Ok [hydrology] |}.

Definition coverage_urn : ContentMetadata :=
  with_boundingboxes
    (Ok [{| nativeSrs := "urn:ogc:def:crs:EPSG::4326";
            entry_bbox := box_10_20_30_40;
            entry_temporal_extent := None |}])
    example_coverage.

(** A two-dimensional envelope whose SRS is a URN, as owslib reads it into
    [coverage_urn] *)
Definition envelope_urn : Envelope :=
  {| attrib := {[ "srsName"%string := "urn:ogc:def:crs:EPSG::4326"%string;
                  "srsDimension"%string := "2"%string;
                  "axisLabels"%string := "Lat Long"%string ]};
     lowerCorner := Some (Some "10 20"%string);
     upperCorner := Some (Some "30 40"%string) |}.

Definition example_resource : HarvestableResource :=
  {| hr_unique_identifier := "cov1";
     geonode_resource := Some {| rb_uuid := "11111111-2222-4333-8444-555555555555" |} |}.

Definition envelope_broken : Envelope :=
  {| attrib := {[ "srsDimension"%string := "2"%string ]};
     lowerCorner := Some (Some "10 20"%string);
     upperCorner := Some (Some "30 40"%string) |}.

(** * Properties *)

(** ** Tactics for the monad *)

Ltac unfold_m :=
  unfold bind, ret, lift, raise, request, try_except, res_bind, or_raise in *.

Ltac case_run e :=
  let r := fresh "r" in
  let l := fresh "log" in
  let E := fresh "E" in
  destruct e as [[r | r] l] eqn:E; simpl in *.

(** Case analysis on every result that is inspected in the goal. *)
Ltac res_cases :=
  repeat (match goal with
          | |- context [match ?x with Ok _ => _ | Raise _ => _ end] =>
              let E := fresh "E" in destruct x eqn:E
          | |- context [match ?x with Some _ => _ | None => _ end] =>
              let E := fresh "E" in destruct x eqn:E
          | |- context [let '(_, _) := ?x in _] =>
              let E := fresh "E" in destruct x eqn:E
          end; simpl in *);
  try reflexivity; try discriminate.

(** ** The harvester's listing and availability *)

(** C6: [list_resources] returns the empty list for every offset other
    than 0, without looking at the endpoint; for offset 0 and an endpoint
    that answers, it returns one descriptor per coverage, in the order of
    the capabilities, with the coverage id as identifier, the title or the
    id, the abstract or ['Not provided'], and the tag ["layers"]. *)
Theorem list_resources_brief_descriptors
    (env : Env) (self : WCSHarvester) (offset : option Z) (log : list event) :
  (offset <> Some 0 -> list_resources env self offset log = (Ok [], log)) /\
  (offset = Some 0 ->
   forall w log', _get_wcs env self log = (Ok w, log') ->
   exists rs,
     list_resources env self offset log = (Ok rs, log') /\
     length rs = length (contents w) /\
     forall (i : nat) name coverage,
       contents w !! i = Some (name, coverage) ->
       exists r,
         rs !! i = Some r /\
         unique_identifier r = name /\
         title r = match cm_title coverage with Some t => t | None => name end /\
         abstract r = match cm_abstract coverage with
                      | Some a => a
                      | None => "Not provided"%string
                      end /\
         resource_type r = "layers"%string).
Proof.
  split.
  - intros Hne. unfold list_resources.
    rewrite bool_decide_eq_false_2 by exact Hne. reflexivity.
  - intros -> w log' Hw. unfold list_resources.
    rewrite bool_decide_eq_true_2 by reflexivity. simpl.
    unfold bind. rewrite Hw. unfold ret.
    eexists. split; [reflexivity|]. split.
    + apply length_map.
    + intros i name coverage Hi.
      eexists. split.
      * rewrite list_lookup_fmap, Hi. reflexivity.
      * simpl. destruct (cm_title coverage), (cm_abstract coverage); auto.
Qed.

Lemma list_resources_brief_descriptors_witness :
  list_resources (example_env example_coverage []) example_harvester (Some 7) [] = (Ok [], []) /\
  exists rs,
    list_resources (example_env example_coverage []) example_harvester (Some 0) []
    = (Ok rs, [GetCapabilities "http://example.org/ows" "2.0.1" 60]) /\
    length rs = 1%nat.
Proof.
  split.
  - apply (proj1 (list_resources_brief_descriptors
                    (example_env example_coverage []) example_harvester (Some 7) [])).
    discriminate.
  - destruct (proj2 (list_resources_brief_descriptors
                       (example_env example_coverage []) example_harvester (Some 0) [])
                eq_refl (example_wcs example_coverage [])
                [GetCapabilities "http://example.org/ows" "2.0.1" 60] eq_refl)
      as (rs & H1 & H2 & _).
    exists rs. split; [exact H1 | exact H2].
Defined.

(** C7: [check_availability] and [probe] always return a boolean and
    never raise. For a URL that the normalizer accepts, with the settings
    [OGC_SERVER['default']] in place, the boolean is [True] exactly when
    the endpoint, asked for its capabilities at the cleaned URL with the
    version of the URL and the timeout of the settings, answers and the
    answer lists at least one coverage; an exception of the endpoint, like
    every other, gives [False]. *)
Theorem availability_true_iff_contents
    (env : Env) (self : WCSHarvester) (handler : WCSServiceHandler)
    (timeout_seconds : option Z) (log : list event) :
  (exists b log', check_availability env self timeout_seconds log = (Ok b, log')) /\
  (exists b log', probe env handler log = (Ok b, log')) /\
  (forall u cleaned_url service version request_ (settings : gmap string Z),
      get_cleaned_url_params u = Ok (cleaned_url, service, version, request_) ->
      OGC_SERVER env !! "default"%string = Some settings ->
      let answer :=
        WebCoverageService env cleaned_url version (default 60 (settings !! "TIMEOUT"%string)) in
      (remote_url self = u ->
       (fst (check_availability env self timeout_seconds log) = Ok true
        <-> exists w, answer = Ok w /\ contents w <> []) /\
       (forall e, answer = Raise e ->
                  fst (check_availability env self timeout_seconds log) = Ok false)) /\
      (url handler = u ->
       (fst (probe env handler log) = Ok true
        <-> exists w, answer = Ok w /\ contents w <> []) /\
       (forall e, answer = Raise e -> fst (probe env handler log) = Ok false))).
Proof.
  assert (Hc : forall w : WCS, has_contents w = true <-> contents w <> []).
  { intros w. unfold has_contents. rewrite Nat.ltb_lt.
    destruct (contents w); simpl; split; intros; try lia; congruence. }
  split; [|split].
  - unfold check_availability, try_except.
    destruct (bind _ _ log) as [[b | e] l]; unfold ret; eauto.
  - unfold probe, try_except.
    destruct (bind _ _ log) as [[b | e] l]; unfold ret; eauto.
  - intros u cleaned_url service version request_ settings Hu Hs answer.
    assert (Hrun : forall log0, fst (get_wcs_service env u log0) = answer).
    { intros log0. unfold get_wcs_service. unfold_m. rewrite Hu, Hs. simpl.
      fold answer. destruct answer; reflexivity. }
    assert (Hboth : forall m : M WCS,
               (forall log0, fst (m log0) = answer) ->
               (fst (try_except (w <-- m; ret (has_contents w)) (fun _ => ret false) log)
                = Ok true <-> exists w, answer = Ok w /\ contents w <> []) /\
               (forall e, answer = Raise e ->
                  fst (try_except (w <-- m; ret (has_contents w)) (fun _ => ret false) log)
                  = Ok false)).
    { intros m Hm. specialize (Hm log). unfold try_except, bind, ret.
      destruct (m log) as [[w | e] l]; simpl in *; rewrite <- Hm; split.
      - split.
        + intros [= H]. exists w. split; [reflexivity | apply Hc, H].
        + intros (w' & [= <-] & H). apply Hc in H. rewrite H. reflexivity.
      - discriminate.
      - split; [discriminate | intros (w' & H & _); discriminate].
      - reflexivity. }
    split.
    + intros <-. apply (Hboth (_get_wcs env self)). exact Hrun.
    + intros <-. apply (Hboth (wcs env handler)). exact Hrun.
Qed.

Lemma availability_true_iff_contents_witness :
  fst (check_availability (example_env example_coverage []) example_harvester (Some 5) [])
  = Ok true /\
  fst (probe (example_env example_coverage []) {| url := example_url; geonode_service_id := None |}
         []) = Ok true /\
  fst (check_availability
         silent_env
         example_harvester (Some 5) []) = Ok false.
Proof.
  split; [|split].
  - apply (proj1 (proj2 (proj2 (availability_true_iff_contents
             (example_env example_coverage []) example_harvester
             {| url := example_url; geonode_service_id := None |} (Some 5) []))
           example_url "http://example.org/ows"%string (Some "WCS"%string) "2.0.1"%string
           (Some "GetCapabilities"%string) ∅ eq_refl eq_refl) eq_refl).
    exists (example_wcs example_coverage []). split; [reflexivity | discriminate].
  - apply (proj2 (proj2 (proj2 (availability_true_iff_contents
             (example_env example_coverage []) example_harvester
             {| url := example_url; geonode_service_id := None |} (Some 5) []))
           example_url "http://example.org/ows"%string (Some "WCS"%string) "2.0.1"%string
           (Some "GetCapabilities"%string) ∅ eq_refl eq_refl) eq_refl).
    exists (example_wcs example_coverage []). split; [reflexivity | discriminate].
  - apply (proj1 (proj2 (proj2 (availability_true_iff_contents
             silent_env
             example_harvester
             {| url := example_url; geonode_service_id := None |} (Some 5) []))
           example_url "http://example.org/ows"%string (Some "WCS"%string) "2.0.1"%string
           (Some "GetCapabilities"%string) ∅ eq_refl eq_refl) eq_refl)
      with (e := Exception "timed out").
    reflexivity.
Defined.

(** C10: the result of [check_availability] does not depend on
    [timeout_seconds]; the one request it sends is the capabilities
    request of [get_wcs_service], whose timeout is the [TIMEOUT] entry of
    [OGC_SERVER['default']], or 60 when there is none. *)
Theorem check_availability_timeout_unused
    (env : Env) (self : WCSHarvester) (t1 t2 : option Z) (log : list event) :
  check_availability env self t1 log = check_availability env self t2 log /\
  (forall cleaned_url service version request_ (settings : gmap string Z),
      get_cleaned_url_params (remote_url self) = Ok (cleaned_url, service, version, request_) ->
      OGC_SERVER env !! "default"%string = Some settings ->
      snd (check_availability env self t1 log)
      = log ++ [GetCapabilities cleaned_url version (default 60 (settings !! "TIMEOUT"%string))]).
Proof.
  split; [reflexivity|].
  intros cleaned_url service version request_ settings Hu Hs.
  unfold check_availability, _get_wcs, get_wcs_service.
  unfold_m. rewrite Hu, Hs. simpl.
  destruct (WebCoverageService env _ _ _); reflexivity.
Qed.

Lemma check_availability_timeout_unused_witness :
  snd (check_availability (example_env example_coverage []) example_harvester (Some 5) [])
  = [GetCapabilities "http://example.org/ows" "2.0.1" 60].
Proof.
  exact (proj2 (check_availability_timeout_unused
                  (example_env example_coverage []) example_harvester (Some 5) (Some 1) [])
           "http://example.org/ows"%string (Some "WCS"%string) "2.0.1"%string
           (Some "GetCapabilities"%string) ∅ eq_refl eq_refl).
Defined.

(** ** Topic category *)

Lemma _get_category_Some (env : Env) (vocab : list TopicCategory) (k : string) (c : TopicCategory) :
  TopicCategory_objects env = Ok vocab ->
  _get_category env k = Some c ->
  c ∈ vocab /\ identifier c = k.
Proof.
  intros Hv. unfold _get_category. rewrite Hv. simpl.
  destruct (filter (fun c0 => identifier c0 = k) vocab) as [|c0 l] eqn:E; simpl; [discriminate|].
  intros [= ->].
  assert (H : c ∈ filter (fun c0 => identifier c0 = k) vocab) by (rewrite E; left).
  apply list_elem_of_filter in H. tauto.
Qed.

Lemma _get_category_None (env : Env) (vocab : list TopicCategory) (k : string) :
  TopicCategory_objects env = Ok vocab ->
  _get_category env k = None ->
  forall c, c ∈ vocab -> identifier c <> k.
Proof.
  intros Hv. unfold _get_category. rewrite Hv. simpl.
  destruct (filter (fun c0 => identifier c0 = k) vocab) as [|c0 l] eqn:E; simpl; [|discriminate].
  intros _ c Hc Hk.
  assert (H : c ∈ filter (fun c0 => identifier c0 = k) vocab)
    by (apply list_elem_of_filter; split; assumption).
  rewrite E in H. inversion H.
Qed.

(** C8: the category of the record built by [_get_metadata] is the result
    of the scan of its keywords; with the vocabulary [vocab], the scan
    returns an entry whose identifier is equal to a keyword that no entry
    matched before it, or no category when no keyword is equal to an
    identifier; it never raises. For the vocabulary holding ["Hydrology"],
    the keywords [["Hydrology"; "OtherTag"]] give that entry and
    [["hydrology"]] gives none. *)
Theorem category_is_first_exact_match
    (env : Env) (self : WCSHarvester) (coverage_id : string) (log : list event) :
  (forall m log',
      _get_wcs_content_metadata env self coverage_id log = (Ok m, log') ->
      exists m',
        _get_metadata env self coverage_id log = (Ok m', log') /\
        md_keywords m' = md_keywords m /\
        md_category m' = first_category env (md_keywords m)) /\
  (forall vocab keywords,
      TopicCategory_objects env = Ok vocab ->
      match first_category env keywords with
      | Some c =>
          c ∈ vocab /\
          exists before after,
            keywords = before ++ identifier c :: after /\
            forall k c', k ∈ before -> c' ∈ vocab -> identifier c' <> k
      | None => forall k c', k ∈ keywords -> c' ∈ vocab -> identifier c' <> k
      end) /\
  (forall e keywords, TopicCategory_objects env = Raise e -> first_category env keywords = None) /\
  first_category (example_env example_coverage []) ["Hydrology"; "OtherTag"]%string = Some hydrology /\
  first_category (example_env example_coverage []) ["hydrology"]%string = None.
Proof.
  split; [|split; [|split; [|split; reflexivity]]].
  - intros m log' Hm. unfold _get_metadata, bind. rewrite Hm. unfold ret.
    eexists. split; [reflexivity|]. simpl. split; reflexivity.
  - intros vocab keywords Hv.
    induction keywords as [|k ks IH]; simpl.
    + intros k c' Hk. inversion Hk.
    + destruct (_get_category env k) as [c|] eqn:Hc.
      * destruct (_get_category_Some env vocab k c Hv Hc) as [Hin Hid].
        split; [exact Hin|]. exists [], ks. rewrite Hid. split; [reflexivity|].
        intros k0 c' Hk0. inversion Hk0.
      * pose proof (_get_category_None env vocab k Hv Hc) as Hnone.
        destruct (first_category env ks) as [c|].
        -- destruct IH as (Hin & before & after & Heq & Hbefore).
           split; [exact Hin|]. exists (k :: before), after.
           split; [simpl; congruence|].
           intros k0 c' Hk0 Hc'. apply elem_of_cons in Hk0 as [->|Hk0]; eauto.
        -- intros k0 c' Hk0 Hc'. apply elem_of_cons in Hk0 as [->|Hk0]; eauto.
  - intros e keywords He. induction keywords as [|k ks IH]; simpl; [reflexivity|].
    unfold _get_category at 1. rewrite He. simpl. exact IH.
Qed.

Lemma category_is_first_exact_match_witness :
  match first_category (example_env example_coverage []) ["OtherTag"; "Hydrology"]%string with
  | Some c =>
      c ∈ [hydrology] /\
      exists before after,
        ["OtherTag"; "Hydrology"]%string = before ++ identifier c :: after /\
        forall k c', k ∈ before -> c' ∈ [hydrology] -> identifier c' <> k
  | None => forall k c', k ∈ ["OtherTag"; "Hydrology"]%string -> c' ∈ [hydrology] -> identifier c' <> k
  end.
Proof.
  exact (proj1 (proj2 (category_is_first_exact_match
                         (example_env example_coverage []) example_harvester "cov1" []))
           [hydrology] ["OtherTag"; "Hydrology"]%string eq_refl).
Defined.

(** ** Envelopes of the describe-coverage document *)

Arguments str_in : simpl never.

(** The entry of an envelope of dimension 3 *)
Lemma envelope_bbox_3d
    (env : Env) (envelope : Envelope) (srsName srsDimension axisLabels lower_text upper_text : string)
    (a0 a1 a2 l0 l1 l2 u0 u1 u2 : string) (arest lrest urest : list string)
    (fl1 fl2 fu1 fu2 : float) :
  attrib envelope !! "srsName"%string = Some srsName ->
  attrib envelope !! "srsDimension"%string = Some srsDimension ->
  py_int env srsDimension = Some 3 ->
  attrib envelope !! "axisLabels"%string = Some axisLabels ->
  split_ws (lower axisLabels) = a0 :: a1 :: a2 :: arest ->
  lowerCorner envelope = Some (Some lower_text) ->
  split_ws lower_text = l0 :: l1 :: l2 :: lrest ->
  upperCorner envelope = Some (Some upper_text) ->
  split_ws upper_text = u0 :: u1 :: u2 :: urest ->
  py_float env l1 = Some fl1 -> py_float env l2 = Some fl2 ->
  py_float env u1 = Some fu1 -> py_float env u2 = Some fu2 ->
  envelope_bbox env envelope
  = Ok {| nativeSrs := srsName;
          entry_bbox := if str_in a1 y_labels && str_in a2 x_labels
                        then [fl2; fl1; fu2; fu1] else [fl1; fl2; fu1; fu2];
          entry_temporal_extent := Some (remove_char dquote l0, remove_char dquote u0) |}.
Proof.
  intros Hs Hd Hi Ha Hl Hlc Hlt Huc Hut F1 F2 F3 F4.
  unfold envelope_bbox. rewrite Hs, Hd. simpl. rewrite Hi. simpl.
  rewrite Ha. simpl. rewrite Hl, Hlc, Huc. simpl. rewrite Hlt, Hut.
  unfold lat_then_lon, float4, float_at, getitem. simpl.
  destruct (str_in a1 y_labels); simpl.
  - destruct (str_in a2 x_labels); simpl; rewrite F1, F2, F3, F4; reflexivity.
  - rewrite F1, F2, F3, F4. reflexivity.
Qed.


(** ** The bounding-box resolver *)

Lemma bind_Ok_inv {A B} (m : M A) (k : A -> M B) (log log' : list event) (b : B) :
  bind m k log = (Ok b, log') ->
  exists a log1, m log = (Ok a, log1) /\ k a log1 = (Ok b, log').
Proof.
  unfold bind. destruct (m log) as [[a | e] log1]; [eauto | discriminate].
Qed.

Lemma has_boundingboxes_of_run (c : ContentMetadata) (log : list event) :
  has_boundingboxes_of c log
  = (Ok match boundingboxes c with Ok (_ :: _) => true | _ => false end,
     log ++ boundingboxes_requests c).
Proof.
  unfold has_boundingboxes_of, read_boundingboxes. unfold_m.
  destruct (boundingboxes c) as [[|e l] | e]; reflexivity.
Qed.

Lemma other_boundingboxes_of_total (env : Env) (self : WCSHarvester) (c : ContentMetadata)
    (log : list event) :
  exists other log2, other_boundingboxes_of env self c log = (Ok other, log2).
Proof.
  unfold other_boundingboxes_of, try_except.
  destruct (bind _ _ log) as [[o | e] l]; unfold ret; eauto.
Qed.

Lemma other_boundingboxes_of_not_empty (env : Env) (self : WCSHarvester) (c : ContentMetadata)
    (log log2 : list event) (other : option (list BBoxEntry)) :
  other_boundingboxes_of env self c log = (Ok other, log2) -> other <> Some [].
Proof.
  unfold other_boundingboxes_of, try_except. unfold bind at 1, lift at 1.
  destruct (cm_id c) as [i | e]; [|unfold ret; congruence].
  unfold bind at 1.
  destruct (_getOtherBoundingBoxes env self i log) as [[l | e] l1]; [|unfold ret; congruence].
  unfold ret. destruct l; simpl; congruence.
Qed.

(** [_get_bbox] is its two look-ups followed by the chain. *)
Lemma _get_bbox_by_priority (env : Env) (self : WCSHarvester) (c : ContentMetadata)
    (log log1 log2 : list event) (bb wgs : option (list float)) (has : bool)
    (other : option (list BBoxEntry)) :
  boundingBox c = Ok bb ->
  (truthy bb = false -> boundingBoxWGS84 c = Ok wgs) ->
  has_boundingboxes_of c log = (Ok has, log1) ->
  other_boundingboxes_of env self c log1 = (Ok other, log2) ->
  _get_bbox env self c log
  = (resolve_by_priority c
       {| p_boundingBox := bb; p_boundingBoxWGS84 := wgs;
          p_has_boundingboxes := has; p_other_boundingboxes := other |}, log2).
Proof.
  intros Hbb Hwgs Hhas Hother.
  unfold _get_bbox, resolve_by_priority, bind at 1. rewrite Hhas.
  unfold bind at 1. rewrite Hother.
  unfold bind at 1, lift at 1. rewrite Hbb. simpl.
  destruct (truthy bb) eqn:Tb; simpl.
  - unfold_m. res_cases.
  - specialize (Hwgs eq_refl). unfold bind at 1. unfold bind at 1, lift at 1. rewrite Hwgs.
    destruct (truthy wgs) eqn:Tw; simpl.
    + unfold_m. res_cases.
    + destruct has; simpl.
      * unfold_m. res_cases.
      * destruct other as [other|]; simpl; [|reflexivity].
        unfold_m. res_cases.
Qed.

Lemma describe_always_requested (env : Env) (self : WCSHarvester) (c : ContentMetadata)
    (log logw : list event) (i : option string) (w : WCS) :
  cm_id c = Ok i ->
  _get_wcs env self log = (Ok w, logw) ->
  snd (other_boundingboxes_of env self c log) = logw ++ [DescribeCoverage (wcs_url w) i].
Proof.
  intros Hi Hw.
  unfold other_boundingboxes_of, _getOtherBoundingBoxes, getDescribeCoverage.
  unfold_m. rewrite Hi, Hw. simpl.
  destruct (describeCoverage w i) as [envelopes | e]; simpl; [|reflexivity].
  destruct (envelope_bboxes env envelopes) as [l | e]; simpl; [|reflexivity].
  destruct (length l =? 0)%nat; reflexivity.
Qed.

(** The requests of [_get_bbox] are those of its two look-ups, whatever
    the chain does afterwards. *)
Lemma _get_bbox_log (env : Env) (self : WCSHarvester) (c : ContentMetadata) (log : list event) :
  snd (_get_bbox env self c log)
  = snd (other_boundingboxes_of env self c (log ++ boundingboxes_requests c)).
Proof.
  unfold _get_bbox. unfold bind at 1. rewrite has_boundingboxes_of_run.
  destruct (other_boundingboxes_of_total env self c (log ++ boundingboxes_requests c))
    as (other & log2 & Ho).
  unfold bind at 1. rewrite Ho.
  unfold bind at 1, lift at 1.
  destruct (boundingBox c) as [bb | e]; simpl; [|reflexivity].
  destruct (truthy bb); simpl.
  - unfold_m. res_cases.
  - unfold bind at 1. unfold bind at 1, lift at 1.
    destruct (boundingBoxWGS84 c) as [wgs | e]; simpl; [|reflexivity].
    destruct (truthy wgs); simpl.
    + unfold_m. res_cases.
    + destruct (boundingboxes c) as [[|e0 l0] | e0]; simpl.
      * destruct other as [other|]; simpl; [|reflexivity]. unfold_m. res_cases.
      * unfold_m. res_cases.
      * destruct other as [other|]; simpl; [|reflexivity]. unfold_m. res_cases.
Qed.

Lemma no_native_boxes (c : ContentMetadata) (log : list event) :
  (forall e l, boundingboxes c <> Ok (e :: l)) ->
  has_boundingboxes_of c log = (Ok false, log ++ boundingboxes_requests c).
Proof.
  intros Hnone. rewrite has_boundingboxes_of_run.
  destruct (boundingboxes c) as [[|e l] | e] eqn:E; try reflexivity.
  exfalso. exact (Hnone e l eq_refl).
Qed.

(** *** The chain and the sources of the spec *)

Lemma res_bind_Ok_inv {A B} (r : res A) (k : A -> res B) (b : B) :
  res_bind r k = Ok b -> exists a, r = Ok a /\ k a = Ok b.
Proof. destruct r as [a | e]; simpl; [eauto | discriminate]. Qed.

Arguments crs_of_srs : simpl never.
Arguments rect4 : simpl never.

Lemma rect4_rect_of (box : list float) :
  rect4 (Ok (Some box))
  = match rect_of box with
    | Some rect => Ok rect
    | None => Raise IndexError
    end.
Proof. destruct box as [|x0 [|x1 [|x2 [|x3 box]]]]; reflexivity. Qed.

Lemma crs_of_srs_segments (srs : string) :
  crs_of_srs srs
  = match crs_of_segments srs with
    | Some c => Ok c
    | None => Raise IndexError
    end.
Proof.
  unfold crs_of_srs, crs_of_segments, getitem_neg.
  destruct (rev (split_on "/" srs)) as [|a [|b [|c l]]]; reflexivity.
Qed.


Lemma chain_matches_spec (c : ContentMetadata) (p : probes) (src : sources) (s : source) :
  s_primary src = p_boundingBox p ->
  s_wgs84 src = p_boundingBoxWGS84 p ->
  s_native src = value_of (boundingboxes c) [] ->
  s_described src = default [] (p_other_boundingboxes p) ->
  match extent_of_source src s with
  | Some x =>
      match s, re_temporal x with
      | Described, None => extent_from c p s = Raise (KeyError "temporal_extent")
      | _, _ => extent_from c p s = Ok (re_rect x, without_spatial_extent x)
      end
  | None => exists e, extent_from c p s = Raise e
  end.
Proof.
  intros H1 H2 H3 H4. destruct s; simpl.
  - rewrite H1. destruct (p_boundingBox p) as [box|]; simpl; [|eauto].
    rewrite rect4_rect_of. destruct (rect_of box); simpl; eauto.
  - rewrite H2. destruct (p_boundingBoxWGS84 p) as [box|]; simpl; [|eauto].
    rewrite rect4_rect_of. destruct (rect_of box); simpl; eauto.
  - rewrite H3. unfold first_rect, first_srs.
    destruct (boundingboxes c) as [[|e l] | ex]; simpl; eauto.
    rewrite rect4_rect_of. destruct (rect_of (entry_bbox e)); simpl; [|eauto].
    rewrite crs_of_srs_segments. destruct (crs_of_segments (nativeSrs e)); simpl; eauto.
  - rewrite H4. unfold first_rect, first_srs.
    destruct (default [] (p_other_boundingboxes p)) as [|e l]; simpl; [eauto|].
    rewrite rect4_rect_of. destruct (rect_of (entry_bbox e)); simpl; [|eauto].
    rewrite crs_of_srs_segments. destruct (crs_of_segments (nativeSrs e)); simpl; [|eauto].
    destruct (entry_temporal_extent e); reflexivity.
  - reflexivity.
Qed.

Lemma yields_holds (c : ContentMetadata) (bb wgs : option (list float))
    (other : option (list BBoxEntry)) (s : source) :
  boundingBox c = Ok bb ->
  value_of (boundingBoxWGS84 c) None = wgs ->
  other <> Some [] ->
  yields {| p_boundingBox := bb; p_boundingBoxWGS84 := wgs;
            p_has_boundingboxes := match boundingboxes c with Ok (_ :: _) => true | _ => false end;
            p_other_boundingboxes := other |} s
  = holds (sources_found c other) s.
Proof.
  intros Hbb Hwgs Ho. destruct s; simpl.
  - rewrite Hbb. reflexivity.
  - rewrite Hwgs. reflexivity.
  - destruct (boundingboxes c) as [[|e l] | ex]; reflexivity.
  - destruct other as [[|e l]|]; simpl; [congruence | reflexivity | reflexivity].
  - reflexivity.
Qed.

Lemma find_ext {A} (f g : A -> bool) (l : list A) :
  (forall a, f a = g a) -> List.find f l = List.find g l.
Proof.
  intros H. induction l as [|a l IH]; simpl; [reflexivity|].
  rewrite H, IH. reflexivity.
Qed.

Lemma find_holds_total (src : sources) : exists s, List.find (holds src) priority = Some s.
Proof.
  unfold priority. simpl.
  destruct (truthy (s_primary src)); [eauto|]. destruct (truthy (s_wgs84 src)); [eauto|].
  destruct (bool_decide (s_native src <> [])); [eauto|].
  destruct (bool_decide (s_described src <> [])); eauto.
Qed.




Lemma _get_bbox_unreadable (env : Env) (self : WCSHarvester) (c : ContentMetadata)
    (log : list event) (e : exn) :
  boundingBox c = Raise e \/
  (exists bb, boundingBox c = Ok bb /\ truthy bb = false /\ boundingBoxWGS84 c = Raise e) ->
  fst (_get_bbox env self c log) = Raise e.
Proof.
  intros H. unfold _get_bbox. unfold bind at 1. rewrite has_boundingboxes_of_run.
  destruct (other_boundingboxes_of_total env self c (log ++ boundingboxes_requests c))
    as (other & log2 & Ho).
  unfold bind at 1. rewrite Ho. unfold bind at 1, lift at 1.
  destruct H as [-> | (bb & -> & Tb & Hw)]; [reflexivity|].
  simpl. rewrite Tb. unfold bind at 1. unfold bind at 1, lift at 1. rewrite Hw. reflexivity.
Qed.

(** [_get_bbox] in terms of the sources of the spec: the first source that
    holds something decides, by its extent or by an exception. *)
Lemma _get_bbox_by_sources (env : Env) (self : WCSHarvester) (c : ContentMetadata)
    (log log2 : list event) (bb : option (list float)) (other : option (list BBoxEntry)) :
  boundingBox c = Ok bb ->
  (truthy bb = false -> exists wgs, boundingBoxWGS84 c = Ok wgs) ->
  other_boundingboxes_of env self c (log ++ boundingboxes_requests c) = (Ok other, log2) ->
  exists s,
    List.find (holds (sources_found c other)) priority = Some s /\
    match extent_of_source (sources_found c other) s with
    | Some x =>
        match s, re_temporal x with
        | Described, None =>
            _get_bbox env self c log = (Raise (KeyError "temporal_extent"), log2)
        | _, _ => _get_bbox env self c log = (Ok (bbox_of x), log2)
        end
    | None => exists e, _get_bbox env self c log = (Raise e, log2)
    end.
Proof.
  intros Hbb Hwgs Ho.
  set (wgs := value_of (boundingBoxWGS84 c) None).
  assert (Hwgs' : truthy bb = false -> boundingBoxWGS84 c = Ok wgs).
  { intros Tb. destruct (Hwgs Tb) as [w Hw]. unfold wgs. rewrite Hw. reflexivity. }
  pose proof (_get_bbox_by_priority env self c log _ log2 bb wgs _ other Hbb Hwgs'
                (has_boundingboxes_of_run c log) Ho) as Hrun.
  destruct (find_holds_total (sources_found c other)) as [s Hs].
  exists s. split; [exact Hs|].
  match type of Hrun with context [resolve_by_priority c ?q] => set (p := q) in * end.
  assert (Hf : List.find (yields p) priority = Some s).
  { rewrite <- Hs. apply find_ext. intros t. unfold p.
    apply (yields_holds c bb wgs other t Hbb eq_refl).
    exact (other_boundingboxes_of_not_empty env self c _ log2 other Ho). }
  unfold resolve_by_priority in Hrun. rewrite Hf in Hrun.
  pose proof (chain_matches_spec c p (sources_found c other) s) as Hm.
  specialize (Hm ltac:(simpl; rewrite Hbb; reflexivity) eq_refl eq_refl eq_refl).
  destruct (extent_of_source (sources_found c other) s) as [x|].
  - destruct s; try (rewrite Hm in Hrun; exact Hrun).
    destruct (re_temporal x); rewrite Hm in Hrun; exact Hrun.
  - destruct Hm as [e Hm]. rewrite Hm in Hrun. eauto.
Qed.




(** C4, as the claim states it, fails: the ring that [from_bbox] builds
    for the whole globe lists the corners in another order than the claim
    gives; and there are coverages for which [_get_bbox] returns no extent
    at all, such as one whose document starts with a two-dimensional
    envelope that owslib could not read. *)
Lemma ring_not_as_claimed :
  (exists d log',
      _get_bbox (example_env example_coverage []) example_harvester example_coverage []
      = (Ok d, log') /\
      spatial_extent d <> Some (ring_of_spec globe)) /\
  (exists e,
      fst (_get_bbox (example_env coverage_unparsed [envelope_2d; envelope_3d])
             example_harvester coverage_unparsed []) = Raise e).
Proof.
  split.
  - exists (bbox_of {| re_rect := globe; re_crs := Some "EPSG:4326"%string;
                       re_temporal := None |}).
    eexists. split; [vm_compute; reflexivity|].
    intros H.
    apply (f_equal (fun ring : option Polygon =>
                      match ring with
                      | Some (_ :: (x, _) :: _) => PrimFloat.ltb x 0
                      | _ => false
                      end)) in H.
    vm_compute in H. discriminate H.
  - exists (KeyError "temporal_extent"). vm_compute. reflexivity.
Qed.

(** C4, amended: every dict returned by [_get_bbox] has the key
    ['spatial_extent'], and its value is the ring that [from_bbox] builds,
    [(x0, y0), (x0, y1), (x1, y1), (x1, y0), (x0, y0)], of the rectangle
    [(x0, y0, x1, y1)] of the first source that holds something; when no
    source holds anything the result is the ring of (-180, -90, 180, 90)
    with CRS ["EPSG:4326"] and temporal extent [None]. *)
Theorem spatial_extent_always_present
    (env : Env) (self : WCSHarvester) (c : ContentMetadata) (log : list event) :
  (forall d log',
      _get_bbox env self c log = (Ok d, log') ->
      exists other s x x0 y0 x1 y1,
        other_boundingboxes_of env self c (log ++ boundingboxes_requests c) = (Ok other, log') /\
        List.find (holds (sources_found c other)) priority = Some s /\
        extent_of_source (sources_found c other) s = Some x /\
        re_rect x = (x0, y0, x1, y1) /\
        crs d = re_crs x /\
        temporal_extent d = Some (re_temporal x) /\
        spatial_extent d = Some [(x0, y0); (x0, y1); (x1, y1); (x1, y0); (x0, y0)]) /\
  (forall bb wgs other log2,
      boundingBox c = Ok bb ->
      boundingBoxWGS84 c = Ok wgs ->
      other_boundingboxes_of env self c (log ++ boundingboxes_requests c) = (Ok other, log2) ->
      (forall s, s <> Globe -> holds (sources_found c other) s = false) ->
      _get_bbox env self c log
      = (Ok {| crs := Some "EPSG:4326"%string;
               temporal_extent := Some None;
               spatial_extent :=
                 Some [(-180, -90); (-180, 90); (180, 90); (180, -90); (-180, -90)]%float |},
         log2)).
Proof.
  split.
  - intros d log' H.
    destruct (other_boundingboxes_of_total env self c (log ++ boundingboxes_requests c))
      as (other & log2 & Ho).
    assert (Hlog : log2 = log').
    { pose proof (_get_bbox_log env self c log) as Hl. rewrite H, Ho in Hl.
      symmetry. exact Hl. }
    subst log2.
    destruct (boundingBox c) as [bb | e] eqn:Hbb.
    2:{ pose proof (_get_bbox_unreadable env self c log e (or_introl Hbb)) as Hr.
        rewrite H in Hr. discriminate Hr. }
    assert (Hwgs : truthy bb = false -> exists wgs, boundingBoxWGS84 c = Ok wgs).
    { intros Tb. destruct (boundingBoxWGS84 c) as [wgs | e] eqn:Hw; [eauto|].
      pose proof (_get_bbox_unreadable env self c log e
                    (or_intror (ex_intro _ bb (conj Hbb (conj Tb Hw))))) as Hr.
      rewrite H in Hr. discriminate Hr. }
    destruct (_get_bbox_by_sources env self c log log' bb other Hbb Hwgs Ho)
      as (s & Hs & Hrun).
    destruct (extent_of_source (sources_found c other) s) as [x|] eqn:Hx.
    2:{ destruct Hrun as [e Hrun]. rewrite H in Hrun. discriminate Hrun. }
    assert (Hd : d = bbox_of x).
    { destruct s; try (rewrite H in Hrun; injection Hrun as ->; reflexivity).
      destruct (re_temporal x); rewrite H in Hrun;
        [injection Hrun as ->; reflexivity | discriminate Hrun]. }
    subst d. destruct (re_rect x) as [[[x0 y0] x1] y1] eqn:Hr.
    exists other, s, x, x0, y0, x1, y1.
    repeat split; try assumption. simpl. rewrite Hr. reflexivity.
  - intros bb wgs other log2 Hbb Hwgs Ho Hnone.
    destruct (_get_bbox_by_sources env self c log log2 bb other Hbb
                ltac:(eauto) Ho) as (s & Hs & Hrun).
    assert (s = Globe) as ->.
    { destruct s; try reflexivity; apply List.find_some in Hs as [_ Hs];
        rewrite Hnone in Hs by discriminate; discriminate Hs. }
    exact Hrun.
Qed.

Lemma spatial_extent_always_present_witness :
  _get_bbox (example_env example_coverage []) example_harvester example_coverage []
  = (Ok {| crs := Some "EPSG:4326"%string;
           temporal_extent := Some None;
           spatial_extent :=
             Some [(-180, -90); (-180, 90); (180, 90); (180, -90); (-180, -90)]%float |},
     [DescribeCoverage "http://example.org/ows" (Some "cov1"%string);
      GetCapabilities "http://example.org/ows" "2.0.1" 60;
      DescribeCoverage "http://example.org/ows" (Some "cov1"%string)]).
Proof.
  apply (proj2 (spatial_extent_always_present
                  (example_env example_coverage []) example_harvester example_coverage [])
           None None None); try reflexivity.
  intros s Hs. destruct s; try reflexivity. contradiction.
Defined.

(** ** The CRS of a native box *)

Lemma split_on_not_nil (sep : ascii) (s : string) : split_on sep s <> [].
Proof.
  destruct s as [|c s]; simpl; [discriminate|].
  destruct (Ascii.eqb c sep); [discriminate|].
  destruct (split_on sep s); discriminate.
Qed.

Lemma split_on_app_sep (sep : ascii) (p q : string) :
  split_on sep (p +:+ String sep q) = split_on sep p ++ split_on sep q.
Proof.
  induction p as [|c p IH]; simpl.
  - rewrite Ascii.eqb_refl. reflexivity.
  - destruct (Ascii.eqb c sep); [rewrite IH; reflexivity|].
    rewrite IH. pose proof (split_on_not_nil sep p) as Hp.
    destruct (split_on sep p) as [|h t]; [contradiction|]. reflexivity.
Qed.

Lemma crs_of_epsg_uri (prefix : string) :
  crs_of_srs (prefix +:+ "/EPSG/0/4326") = Ok "EPSG:4326"%string.
Proof.
  unfold crs_of_srs.
  change (prefix +:+ "/EPSG/0/4326")%string with (prefix +:+ String "/" "EPSG/0/4326")%string.
  rewrite split_on_app_sep. simpl split_on at 2 4.
  unfold getitem_neg. rewrite rev_app_distr. reflexivity.
Qed.


(** The source that resolves when the first two yield nothing and there
    is a native entry. *)
Lemma native_source_found (c : ContentMetadata) (bb wgs : option (list float))
    (other : option (list BBoxEntry)) (s : source) (e : BBoxEntry) :
  truthy bb = false -> truthy wgs = false ->
  first_native_entry c other = Some (s, e) ->
  let p := {| p_boundingBox := bb; p_boundingBoxWGS84 := wgs;
              p_has_boundingboxes := match boundingboxes c with Ok (_ :: _) => true | _ => false end;
              p_other_boundingboxes := other |} in
  List.find (yields p) priority = Some s /\
  ((s = Native /\ exists l, boundingboxes c = Ok (e :: l)) \/
   (s = Described /\ exists l, other = Some (e :: l))).
Proof.
  intros Tb Tw Hfirst. unfold first_native_entry in Hfirst. unfold priority. simpl.
  rewrite Tb, Tw.
  destruct (boundingboxes c) as [[|e0 l0] | ex].
  - destruct other as [[|e1 l1]|]; try discriminate. injection Hfirst as <- <-.
    simpl. split; [reflexivity|]. right. eauto.
  - injection Hfirst as <- <-. split; [reflexivity|]. left. eauto.
  - destruct other as [[|e1 l1]|]; try discriminate. injection Hfirst as <- <-.
    simpl. split; [reflexivity|]. right. eauto.
Qed.

Lemma extent_from_native_crs (c : ContentMetadata) (p : probes) (s : source) (e : BBoxEntry)
    (rect : float * float * float * float) (b : BBox) :
  (s = Native /\ exists l, boundingboxes c = Ok (e :: l)) \/
  (s = Described /\ exists l, p_other_boundingboxes p = Some (e :: l)) ->
  extent_from c p s = Ok (rect, b) ->
  exists x y,
    getitem_neg (split_on "/" (nativeSrs e)) 3 = Ok x /\
    getitem_neg (split_on "/" (nativeSrs e)) 1 = Ok y /\
    crs b = Some (x +:+ ":" +:+ y).
Proof.
  intros [[-> [l Hl]] | [-> [l Hl]]] H; simpl in H.
  - apply res_bind_Ok_inv in H as (r & _ & H).
    apply res_bind_Ok_inv in H as (srs & Hsrs & H).
    apply res_bind_Ok_inv in H as (cc & Hcc & H).
    injection H as _ <-.
    unfold first_srs in Hsrs. rewrite Hl in Hsrs. injection Hsrs as <-.
    unfold crs_of_srs in Hcc.
    apply res_bind_Ok_inv in Hcc as (x & Hx & Hcc).
    apply res_bind_Ok_inv in Hcc as (y & Hy & Hcc).
    injection Hcc as <-. exists x, y. auto.
  - rewrite Hl in H. simpl in H.
    apply res_bind_Ok_inv in H as (r & _ & H).
    apply res_bind_Ok_inv in H as (cc & Hcc & H).
    apply res_bind_Ok_inv in H as (te & _ & H).
    injection H as _ <-.
    unfold crs_of_srs in Hcc.
    apply res_bind_Ok_inv in Hcc as (x & Hx & Hcc).
    apply res_bind_Ok_inv in Hcc as (y & Hy & Hcc).
    injection Hcc as <-. exists x, y. auto.
Qed.

Lemma extent_from_native_epsg (c : ContentMetadata) (p : probes) (s : source) (e : BBoxEntry)
    (prefix : string) (x0 y0 x1 y1 : float) (rest : list float) :
  (s = Native /\ exists l, boundingboxes c = Ok (e :: l)) \/
  (s = Described /\ exists l, p_other_boundingboxes p = Some (e :: l)) ->
  nativeSrs e = prefix +:+ "/EPSG/0/4326" ->
  entry_bbox e = x0 :: y0 :: x1 :: y1 :: rest ->
  (s = Described -> is_Some (entry_temporal_extent e)) ->
  exists b, extent_from c p s = Ok ((x0, y0, x1, y1), b) /\ crs b = Some "EPSG:4326"%string.
Proof.
  intros [[-> [l Hl]] | [-> [l Hl]]] Hsrs Hbox Hte; simpl.
  - unfold first_rect, first_srs, rect4. rewrite Hl. simpl. rewrite Hbox, Hsrs. simpl.
    rewrite crs_of_epsg_uri. simpl. eexists. split; reflexivity.
  - destruct (Hte eq_refl) as [te Hte'].
    rewrite Hl. unfold first_rect, first_srs, rect4. simpl. rewrite Hbox, Hsrs. simpl.
    rewrite crs_of_epsg_uri. simpl. rewrite Hte'. simpl. eexists. split; reflexivity.
Qed.

(** C5: when neither the primary nor the WGS84 box yields and the extent
    is resolved from a native box - the first of the coverage's
    [boundingboxes], or else the first box of the describe-coverage
    document - the CRS of the result is the third-from-last segment of the
    box's [nativeSrs], a colon, and its last segment; when the [nativeSrs]
    ends in [/EPSG/0/4326] and the box has four coordinates, the extent is
    resolved and its CRS is ["EPSG:4326"]. *)
Theorem native_crs_from_srs_uri
    (env : Env) (self : WCSHarvester) (c : ContentMetadata) (log log2 : list event)
    (bb wgs : option (list float)) (other : option (list BBoxEntry))
    (s : source) (e : BBoxEntry) :
  boundingBox c = Ok bb -> truthy bb = false ->
  boundingBoxWGS84 c = Ok wgs -> truthy wgs = false ->
  other_boundingboxes_of env self c (log ++ boundingboxes_requests c) = (Ok other, log2) ->
  first_native_entry c other = Some (s, e) ->
  (forall d log',
      _get_bbox env self c log = (Ok d, log') ->
      exists x y,
        getitem_neg (split_on "/" (nativeSrs e)) 3 = Ok x /\
        getitem_neg (split_on "/" (nativeSrs e)) 1 = Ok y /\
        crs d = Some (x +:+ ":" +:+ y)) /\
  (forall prefix x0 y0 x1 y1 rest,
      nativeSrs e = prefix +:+ "/EPSG/0/4326" ->
      entry_bbox e = x0 :: y0 :: x1 :: y1 :: rest ->
      (s = Described -> is_Some (entry_temporal_extent e)) ->
      exists d, _get_bbox env self c log = (Ok d, log2) /\ crs d = Some "EPSG:4326"%string).
Proof.
  intros Hbb Tb Hwgs Tw Ho Hfirst.
  pose proof (_get_bbox_by_priority env self c log _ log2 bb wgs _ other Hbb (fun _ => Hwgs)
                (has_boundingboxes_of_run c log) Ho) as Hrun.
  destruct (native_source_found c bb wgs other s e Tb Tw Hfirst) as [Hfind Hsrc].
  unfold resolve_by_priority in Hrun. rewrite Hfind in Hrun.
  match type of Hrun with context [extent_from c ?q s] => set (p := q) in * end.
  split.
  - intros d log' Hd. rewrite Hrun in Hd. injection Hd as Hd _.
    apply res_bind_Ok_inv in Hd as ([rect b] & Hext & Hd). injection Hd as <-.
    exact (extent_from_native_crs c p s e rect b Hsrc Hext).
  - intros prefix x0 y0 x1 y1 rest Hsrs Hbox Hte.
    destruct (extent_from_native_epsg c p s e prefix x0 y0 x1 y1 rest Hsrc Hsrs Hbox Hte)
      as (b & Hext & Hcrs).
    rewrite Hrun, Hext. simpl. eexists. split; [reflexivity | exact Hcrs].
Qed.

Lemma native_crs_from_srs_uri_witness :
  exists d,
    _get_bbox (example_env coverage_native [envelope_2d]) example_harvester coverage_native []
    = (Ok d, [DescribeCoverage "http://example.org/ows" (Some "cov1"%string);
              GetCapabilities "http://example.org/ows" "2.0.1" 60;
              DescribeCoverage "http://example.org/ows" (Some "cov1"%string)]) /\
    crs d = Some "EPSG:4326"%string.
Proof.
  refine (proj2 (native_crs_from_srs_uri
                   (example_env coverage_native [envelope_2d]) example_harvester
                   coverage_native [] _
                   None None _ Native _ eq_refl eq_refl eq_refl eq_refl eq_refl eq_refl)
            "http://www.opengis.net/def/crs"%string 10%float 20%float 30%float 40%float []
            eq_refl eq_refl _).
  discriminate.
Defined.

(** ** The URL normalizer *)


(** *** Strings without a given character *)

Lemma app_cons (d : ascii) (a b : string) : String d a +:+ b = String d (a +:+ b).
Proof. reflexivity. Qed.

Lemma contains_app (c : ascii) (a b : string) :
  contains c (a +:+ b) = contains c a || contains c b.
Proof.
  induction a as [|d a IH]; simpl; [reflexivity|].
  rewrite IH. apply orb_assoc.
Qed.

Lemma forallb_str_app (p : ascii -> bool) (a b : string) :
  forallb_str p (a +:+ b) = forallb_str p a && forallb_str p b.
Proof.
  induction a as [|d a IH]; simpl; [reflexivity|].
  rewrite IH. apply andb_assoc.
Qed.

Lemma forallb_str_impl (p q : ascii -> bool) (s : string) :
  (forall c, p c = true -> q c = true) ->
  forallb_str p s = true -> forallb_str q s = true.
Proof.
  intros Hpq. induction s as [|d s IH]; simpl; [reflexivity|].
  intros [Hd Hs]%andb_prop. rewrite (Hpq d Hd), (IH Hs). reflexivity.
Qed.

Lemma forallb_not_contains (p : ascii -> bool) (c : ascii) (s : string) :
  p c = false -> forallb_str p s = true -> contains c s = false.
Proof.
  intros Hc. induction s as [|d s IH]; simpl; [reflexivity|].
  intros [Hd Hs]%andb_prop. rewrite (IH Hs), orb_false_r.
  destruct (Ascii.eqb_spec d c) as [->|]; [congruence | reflexivity].
Qed.

Lemma unquote_cons_plain (d : ascii) (s : string) :
  Ascii.eqb d "%" = false -> unquote (String d s) = String d (unquote s).
Proof. intros Hd. simpl. rewrite Hd. reflexivity. Qed.

Lemma unquote_plain (s : string) :
  contains "%" s = false -> unquote s = s.
Proof.
  induction s as [|d s IH]; [reflexivity|].
  cbn [contains]. intros [Hd Hs]%orb_false_elim.
  rewrite (unquote_cons_plain d s Hd), (IH Hs). reflexivity.
Qed.

Lemma unquote_app_plain (a b : string) :
  contains "%" a = false -> unquote (a +:+ b) = a +:+ unquote b.
Proof.
  induction a as [|d a IH]; [reflexivity|].
  cbn [contains]. intros [Hd Hs]%orb_false_elim.
  change (String d a +:+ b) with (String d (a +:+ b)).
  rewrite (unquote_cons_plain d _ Hd), (IH Hs). reflexivity.
Qed.

Lemma remove_char_plain (c : ascii) (s : string) :
  contains c s = false -> remove_char c s = s.
Proof.
  induction s as [|d s IH]; simpl; [reflexivity|].
  intros [Hd Hs]%orb_false_elim. rewrite Hd, (IH Hs). reflexivity.
Qed.

Lemma partition_app_sep (c : ascii) (a b : string) :
  contains c a = false -> partition c (a +:+ String c b) = Some (a, b).
Proof.
  induction a as [|d a IH]; simpl.
  - rewrite Ascii.eqb_refl. reflexivity.
  - intros [Hd Hs]%orb_false_elim. rewrite Hd, (IH Hs). reflexivity.
Qed.

Lemma partition_none (c : ascii) (s : string) :
  contains c s = false -> partition c s = None.
Proof.
  induction s as [|d s IH]; simpl; [reflexivity|].
  intros [Hd Hs]%orb_false_elim. rewrite Hd, (IH Hs). reflexivity.
Qed.

Lemma app_assoc_str (a b c : string) : (a +:+ b) +:+ c = a +:+ (b +:+ c).
Proof. induction a as [|d a IH]; [reflexivity | rewrite !app_cons, IH; reflexivity]. Qed.

Lemma app_empty_r (a : string) : a +:+ "" = a.
Proof. induction a as [|d a IH]; [reflexivity | rewrite app_cons, IH; reflexivity]. Qed.


(** *** [urlsplit] and [geturl] on plain URLs *)

Ltac ascii_cases c :=
  destruct c as [[|] [|] [|] [|] [|] [|] [|] [|]]; vm_compute;
  try reflexivity; try discriminate; intros; try congruence; auto.

Lemma scheme_char_is_fragment_char (c : ascii) :
  is_scheme_char c = true -> fragment_char c = true.
Proof. ascii_cases c. Qed.

Lemma netloc_char_is_path_char (c : ascii) : netloc_char c = true -> path_char c = true.
Proof. ascii_cases c. Qed.

Lemma path_char_is_query_char (c : ascii) : path_char c = true -> query_char c = true.
Proof. ascii_cases c. Qed.

Lemma query_char_is_fragment_char (c : ascii) : query_char c = true -> fragment_char c = true.
Proof. ascii_cases c. Qed.

Lemma netloc_char_not_delimiter (c : ascii) :
  netloc_char c = true ->
  Ascii.eqb c "/" || Ascii.eqb c "?" || Ascii.eqb c "#" = false.
Proof. ascii_cases c. Qed.

Lemma alpha_not_stripped (c : ascii) : is_alpha c = true -> (nat_of_ascii c <=? 32)%nat = false.
Proof. ascii_cases c. Qed.

Lemma remove_unsafe_plain (s : string) :
  forallb_str fragment_char s = true -> remove_unsafe s = s.
Proof.
  intros H. unfold remove_unsafe.
  rewrite (remove_char_plain (ascii_of_nat 9) s)
    by (eapply forallb_not_contains; [|exact H]; reflexivity).
  rewrite (remove_char_plain (ascii_of_nat 13) s)
    by (eapply forallb_not_contains; [|exact H]; reflexivity).
  apply remove_char_plain. eapply forallb_not_contains; [|exact H]. reflexivity.
Qed.

Lemma splitnetloc_app (N rest : string) :
  forallb_str netloc_char N = true ->
  match rest with
  | EmptyString => True
  | String c _ => Ascii.eqb c "/" || Ascii.eqb c "?" || Ascii.eqb c "#" = true
  end ->
  splitnetloc (N +:+ rest) = (N, rest).
Proof.
  intros HN Hrest. induction N as [|d N IH].
  - destruct rest as [|c r]; [reflexivity|]. simpl. change ("" +:+ String c r) with (String c r).
    simpl. rewrite Hrest. reflexivity.
  - simpl in HN. apply andb_prop in HN as [Hd HN].
    rewrite app_cons. simpl. rewrite (netloc_char_not_delimiter d Hd), (IH HN). reflexivity.
Qed.

Lemma split_fragment (P : string) (Q F : option string) :
  forallb_str path_char P = true ->
  opt_forall query_char Q = true ->
  match partition "#" (P +:+ tail_query Q +:+ tail_fragment F) with
  | Some (a, b) => (a, b)
  | None => (P +:+ tail_query Q +:+ tail_fragment F, EmptyString)
  end = (P +:+ tail_query Q, default EmptyString F).
Proof.
  intros HP HQ.
  assert (Hno : contains "#" (P +:+ tail_query Q) = false).
  { rewrite contains_app. apply orb_false_intro.
    - eapply forallb_not_contains; [|exact HP]. reflexivity.
    - destruct Q as [q|]; [|reflexivity]. simpl.
      eapply forallb_not_contains; [|exact HQ]. reflexivity. }
  destruct F as [f|]; simpl.
  - change ("#" +:+ f) with (String "#" f). rewrite <- app_assoc_str.
    rewrite partition_app_sep by exact Hno. reflexivity.
  - rewrite app_empty_r. rewrite partition_none by exact Hno. reflexivity.
Qed.

Lemma split_query (P : string) (Q : option string) :
  forallb_str path_char P = true ->
  match partition "?" (P +:+ tail_query Q) with
  | Some (a, b) => (a, b)
  | None => (P +:+ tail_query Q, EmptyString)
  end = (P, default EmptyString Q).
Proof.
  intros HP.
  assert (Hno : contains "?" P = false).
  { eapply forallb_not_contains; [|exact HP]. reflexivity. }
  destruct Q as [q|]; simpl.
  - change ("?" +:+ q) with (String "?" q).
    rewrite partition_app_sep by exact Hno. reflexivity.
  - rewrite app_empty_r. rewrite partition_none by exact Hno. reflexivity.
Qed.

Lemma url_of_fragment_chars (S N P : string) (Q F : option string) :
  plain_scheme S = true -> plain_netloc N = true -> plain_path P = true ->
  opt_forall query_char Q = true -> opt_forall fragment_char F = true ->
  forallb_str fragment_char (url_of S N P Q F) = true.
Proof.
  intros HS HN HP HQ HF. unfold url_of.
  rewrite !forallb_str_app.
  unfold plain_scheme in HS. destruct S as [|c0 S]; [discriminate|].
  apply andb_prop in HS as [_ HS].
  unfold plain_netloc in HN. apply andb_prop in HN as [_ HN].
  unfold plain_path in HP. apply andb_prop in HP as [_ HP].
  assert (H1 : forallb_str fragment_char (String c0 S) = true).
  { eapply forallb_str_impl; [|exact HS]. apply scheme_char_is_fragment_char. }
  assert (H2 : forallb_str fragment_char N = true).
  { eapply forallb_str_impl; [|exact HN]. intros c Hc.
    auto using netloc_char_is_path_char, path_char_is_query_char, query_char_is_fragment_char. }
  assert (H3 : forallb_str fragment_char P = true).
  { eapply forallb_str_impl; [|exact HP]. intros c Hc.
    auto using path_char_is_query_char, query_char_is_fragment_char. }
  assert (H4 : forallb_str fragment_char (tail_query Q) = true).
  { destruct Q as [q|]; [|reflexivity]. simpl.
    eapply forallb_str_impl; [|exact HQ]. apply query_char_is_fragment_char. }
  assert (H5 : forallb_str fragment_char (tail_fragment F) = true).
  { destruct F as [f|]; [|reflexivity]. exact HF. }
  rewrite H1, H2, H3, H4, H5. reflexivity.
Qed.

Lemma urlsplit_plain (S N P : string) (Q F : option string) :
  plain_scheme S = true -> plain_netloc N = true -> plain_path P = true ->
  opt_forall query_char Q = true -> opt_forall fragment_char F = true ->
  urlsplit (url_of S N P Q F)
  = Ok {| sr_scheme := lower S; sr_netloc := N; sr_path := P;
          sr_query := default EmptyString Q; sr_fragment := default EmptyString F |}.
Proof.
  intros HS HN HP HQ HF.
  pose proof (url_of_fragment_chars S N P Q F HS HN HP HQ HF) as Hall.
  unfold urlsplit.
  assert (Hstrip : lstrip_c0 (url_of S N P Q F) = url_of S N P Q F).
  { unfold url_of, plain_scheme in *. destruct S as [|c0 S]; [discriminate|].
    apply andb_prop in HS as [Ha _]. rewrite app_cons. simpl.
    rewrite (alpha_not_stripped c0 Ha). reflexivity. }
  rewrite Hstrip, (remove_unsafe_plain _ Hall).
  assert (Hscheme : split_scheme (url_of S N P Q F)
                    = (lower S, "//" +:+ N +:+ P +:+ tail_query Q +:+ tail_fragment F)).
  { unfold split_scheme, url_of.
    change ("://" +:+ N +:+ P +:+ tail_query Q +:+ tail_fragment F)
      with (String ":" ("//" +:+ N +:+ P +:+ tail_query Q +:+ tail_fragment F)).
    rewrite partition_app_sep.
    - unfold plain_scheme in HS. destruct S as [|c0 S]; [discriminate|].
      rewrite HS. reflexivity.
    - unfold plain_scheme in HS. destruct S as [|c0 S]; [discriminate|].
      apply andb_prop in HS as [_ HS].
      eapply forallb_not_contains; [|exact HS]. reflexivity. }
  rewrite Hscheme.
  change ("//" +:+ N +:+ P +:+ tail_query Q +:+ tail_fragment F)
    with (String "/" (String "/" (N +:+ P +:+ tail_query Q +:+ tail_fragment F))).
  unfold plain_netloc in HN. apply andb_prop in HN as [HNe HN].
  unfold plain_path in HP. apply andb_prop in HP as [HP0 HP].
  rewrite splitnetloc_app; [|exact HN|].
  - assert (Hb1 : contains "[" N = false)
      by (eapply forallb_not_contains; [|exact HN]; reflexivity).
    assert (Hb2 : contains "]" N = false)
      by (eapply forallb_not_contains; [|exact HN]; reflexivity).
    rewrite Hb1, Hb2. simpl.
    rewrite (split_fragment P Q F HP HQ), (split_query P Q HP). reflexivity.
  - destruct P as [|c P'].
    + change ("" +:+ tail_query Q +:+ tail_fragment F) with (tail_query Q +:+ tail_fragment F).
      destruct Q as [q|]; [reflexivity|]. destruct F as [f|]; [reflexivity | exact I].
    + rewrite app_cons. simpl in HP0. rewrite HP0. reflexivity.
Qed.

Lemma urlparse_plain (S N P : string) (Q F : option string) :
  plain_scheme S = true -> plain_netloc N = true -> plain_path P = true ->
  opt_forall query_char Q = true -> opt_forall fragment_char F = true ->
  urlparse (url_of S N P Q F)
  = Ok {| scheme := lower S; netloc := N;
          path := fst (path_params (lower S) P); params := snd (path_params (lower S) P);
          query := default EmptyString Q; fragment := default EmptyString F |}.
Proof.
  intros HS HN HP HQ HF. unfold urlparse, path_params.
  rewrite (urlsplit_plain S N P Q F HS HN HP HQ HF). simpl.
  destruct (str_in (lower S) uses_params && contains ";" P); [|reflexivity].
  destruct (splitparams P); reflexivity.
Qed.

Lemma geturl_plain (S N q f : string) (p_pr : string * string) :
  nonempty S = true -> nonempty N = true ->
  negb (nonempty (joined_path p_pr)) || has_prefix1 "/" (joined_path p_pr) = true ->
  geturl {| scheme := S; netloc := N; path := fst p_pr; params := snd p_pr;
            query := q; fragment := f |}
  = url_of S N (joined_path p_pr) (opt_nonempty q) (opt_nonempty f).
Proof.
  intros HS HN HP. unfold geturl, urlunsplit, url_of, opt_nonempty.
  cbn [scheme netloc path params query fragment].
  fold (joined_path p_pr). set (P := joined_path p_pr) in *.
  rewrite HN, HS. simpl.
  assert (HP' : nonempty P && negb (has_prefix1 "/" P) = false).
  { destruct (nonempty P); [|reflexivity]. simpl in *. rewrite HP. reflexivity. }
  rewrite HP'.
  destruct (nonempty q), (nonempty f); simpl;
    rewrite ?app_assoc_str, ?app_empty_r; reflexivity.
Qed.

(** *** Path parameters *)

Lemma partition_Some_eq (c : ascii) (s a b : string) :
  partition c s = Some (a, b) -> s = a +:+ String c b /\ contains c a = false.
Proof.
  revert a. induction s as [|d s IH]; intros a; simpl; [discriminate|].
  destruct (Ascii.eqb_spec d c) as [->|Hne].
  - intros [= <- <-]. auto.
  - destruct (partition c s) as [[a' b']|]; [|discriminate].
    intros [= <- <-]. destruct (IH a' eq_refl) as [-> H]. simpl.
    rewrite H. destruct (Ascii.eqb_spec d c); [congruence | auto].
Qed.

Lemma rsplit_slash_None (s : string) :
  rsplit_slash s = None <-> contains "/" s = false.
Proof.
  induction s as [|c s IH]; simpl; [tauto|].
  destruct (rsplit_slash s) as [[a b]|].
  - split; [discriminate|]. intros [_ H]%orb_false_elim. apply IH in H. discriminate.
  - destruct (Ascii.eqb c "/"); simpl; [split; discriminate|]. tauto.
Qed.

Lemma rsplit_slash_Some (s dir last : string) :
  rsplit_slash s = Some (dir, last) -> s = dir +:+ last /\ contains "/" last = false.
Proof.
  revert dir. induction s as [|c s IH]; intros dir; simpl; [discriminate|].
  destruct (rsplit_slash s) as [[a b]|] eqn:E.
  - intros [= <- <-]. destruct (IH a eq_refl) as [-> H]. auto.
  - destruct (Ascii.eqb c "/"); [|discriminate]. intros [= <- <-].
    split; [reflexivity|]. apply rsplit_slash_None. exact E.
Qed.

Lemma rsplit_slash_again (s dir last a : string) :
  rsplit_slash s = Some (dir, last) -> contains "/" a = false ->
  rsplit_slash (dir +:+ a) = Some (dir, a).
Proof.
  intros Hs Ha. revert dir Hs. induction s as [|c s IH]; intros dir; simpl; [discriminate|].
  destruct (rsplit_slash s) as [[d' l']|] eqn:E.
  - intros [= <- <-]. rewrite app_cons. simpl. rewrite (IH d' eq_refl). reflexivity.
  - destruct (Ascii.eqb c "/") eqn:Hc; [|discriminate]. intros [= <- <-].
    change (String c "" +:+ a) with (String c a). simpl.
    apply rsplit_slash_None in Ha. rewrite Ha, Hc. reflexivity.
Qed.

Lemma nonempty_false (b : string) : nonempty b = false -> b = EmptyString.
Proof. destruct b; [reflexivity | discriminate]. Qed.

(** Joining what [splitparams] returns gives the path back, unless the
    last segment ends in its only [;]: then that [;] is dropped and the
    result has no params left. *)
Lemma splitparams_joined (P : string) :
  joined_path (splitparams P) = P \/
  (P = joined_path (splitparams P) +:+ ";" /\
   splitparams (joined_path (splitparams P)) = (joined_path (splitparams P), EmptyString)).
Proof.
  destruct (splitparams P) as [p pr] eqn:E. unfold joined_path. cbn [fst snd].
  unfold splitparams in E.
  destruct (rsplit_slash P) as [[dir last]|] eqn:R.
  - destruct (rsplit_slash_Some P dir last R) as [HP Hlast].
    destruct (partition ";" last) as [[a b]|] eqn:Pt; injection E as <- <-; [|left; reflexivity].
    destruct (partition_Some_eq ";" last a b Pt) as [Hl Ha].
    assert (Hsl : contains "/" a = false).
    { rewrite Hl, contains_app in Hlast. apply orb_false_elim in Hlast as [H _]. exact H. }
    destruct (nonempty b) eqn:Hb.
    + left. rewrite HP, Hl, app_assoc_str. reflexivity.
    + right. apply nonempty_false in Hb. subst b. split.
      * rewrite HP, Hl, app_assoc_str. reflexivity.
      * unfold splitparams. rewrite (rsplit_slash_again P dir last a R Hsl).
        rewrite (partition_none ";" a Ha). reflexivity.
  - destruct (partition ";" P) as [[a b]|] eqn:Pt; injection E as <- <-; [|left; reflexivity].
    destruct (partition_Some_eq ";" P a b Pt) as [HP Ha].
    destruct (nonempty b) eqn:Hb.
    + left. symmetry. exact HP.
    + right. apply nonempty_false in Hb. subst b. split; [exact HP|].
      apply rsplit_slash_None in R. rewrite HP, contains_app in R.
      apply orb_false_elim in R as [R _]. apply rsplit_slash_None in R.
      unfold splitparams. rewrite R, (partition_none ";" a Ha). reflexivity.
Qed.

Lemma norm_path_cases (S P : string) :
  norm_path S P = P \/
  (P = norm_path S P +:+ ";" /\ splitparams (norm_path S P) = (norm_path S P, EmptyString)).
Proof.
  unfold norm_path, path_params.
  destruct (str_in S uses_params && contains ";" P); [|left; reflexivity].
  apply splitparams_joined.
Qed.

Lemma norm_path_idempotent (S P : string) :
  norm_path S (norm_path S P) = norm_path S P.
Proof.
  destruct (norm_path_cases S P) as [H | [_ H]]; [rewrite H; exact H|].
  unfold norm_path at 1. unfold path_params.
  destruct (str_in S uses_params && contains ";" (norm_path S P)); [|reflexivity].
  rewrite H. reflexivity.
Qed.

Lemma norm_path_plain (S P : string) :
  plain_path P = true -> plain_path (norm_path S P) = true.
Proof.
  intros HP. destruct (norm_path_cases S P) as [H | [H _]]; [rewrite H; exact HP|].
  set (J := norm_path S P) in *. unfold plain_path in *.
  apply andb_prop in HP as [HP0 HP]. rewrite H, forallb_str_app in HP.
  apply andb_prop in HP as [HJ _]. rewrite HJ, andb_true_r.
  destruct J as [|c J]; [reflexivity|]. rewrite H in HP0. exact HP0.
Qed.

Lemma dict_del_absent (k : string) (d : pydict) :
  dict_get k d = None -> dict_del k d = d.
Proof.
  induction d as [|[k' v'] d IH]; simpl; [reflexivity|].
  destruct (String.eqb k' k); [discriminate|]. intros H. rewrite (IH H). reflexivity.
Qed.

Lemma pop_pair {A} (k : string) (d : pydict) (f : string -> A) (x : A) :
  match dict_get k d with
  | Some v => (f v, dict_del k d)
  | None => (x, d)
  end
  = (match dict_get k d with Some v => f v | None => x end, dict_del k d).
Proof.
  destruct (dict_get k d) eqn:E; [reflexivity|]. rewrite (dict_del_absent k d E). reflexivity.
Qed.

Lemma canonical_url_unfold (u : string) :
  canonical_url u
  = res_bind (urlparse (unquote u))
      (fun p => Ok (geturl {| scheme := scheme p; netloc := netloc p; path := path p;
                              params := params p;
                              query := urlencode (strip_args (dict_of (parse_qsl (query p))));
                              fragment := fragment p |})).
Proof.
  unfold canonical_url, get_cleaned_url_params.
  destruct (urlparse (unquote u)) as [p | e]; [|reflexivity]. simpl.
  rewrite (pop_pair "version" _ (fun v => v)).
  rewrite (pop_pair "service" _ Some).
  rewrite (pop_pair "request" _ Some).
  reflexivity.
Qed.

(** *** Percent-encoding and decoding of the arguments *)

Lemma hex_roundtrip (c : ascii) :
  match hexval (hexdigit (nat_of_ascii c / 16)), hexval (hexdigit (nat_of_ascii c mod 16)) with
  | Some a, Some b => ascii_of_nat (16 * a + b) = c
  | _, _ => False
  end.
Proof. ascii_cases c. Qed.

Lemma always_safe_not_percent (c : ascii) : always_safe c = true -> Ascii.eqb c "%" = false.
Proof. ascii_cases c. Qed.

Lemma unquote_escape (h l : ascii) (rest : string) (a b : nat) :
  hexval h = Some a -> hexval l = Some b ->
  unquote (String "%" (String h (String l rest)))
  = String (ascii_of_nat (16 * a + b)) (unquote rest).
Proof.
  intros Ha Hb.
  change (unquote (String "%" (String h (String l rest))))
    with (match hexval h, hexval l with
          | Some a, Some b => String (ascii_of_nat (16 * a + b)) (unquote rest)
          | _, _ => String "%" (unquote (String h (String l rest)))
          end).
  rewrite Ha, Hb. reflexivity.
Qed.

Lemma unquote_quote_plus (x r : string) :
  unquote (quote_plus x +:+ r) = space_to_plus x +:+ unquote r.
Proof.
  induction x as [|c x IH]; [reflexivity|].
  cbn [quote_plus space_to_plus].
  destruct (Ascii.eqb c " ") eqn:Hsp.
  - rewrite !app_cons, unquote_cons_plain by reflexivity. rewrite IH. reflexivity.
  - destruct (always_safe c) eqn:Hsafe.
    + rewrite !app_cons, unquote_cons_plain by (apply always_safe_not_percent; exact Hsafe).
      rewrite IH. reflexivity.
    + rewrite !app_cons. pose proof (hex_roundtrip c) as Hc.
      destruct (hexval (hexdigit (nat_of_ascii c / 16))) as [a|] eqn:Ha; [|contradiction].
      destruct (hexval (hexdigit (nat_of_ascii c mod 16))) as [b|] eqn:Hb; [|contradiction].
      rewrite (unquote_escape _ _ _ a b Ha Hb), Hc, IH. reflexivity.
Qed.

Lemma join_cons_nonempty (sep x : string) (l : list string) :
  l <> [] -> join sep (x :: l) = x +:+ sep +:+ join sep l.
Proof. destruct l; [congruence | reflexivity]. Qed.

Lemma map_not_nil {A B} (f : A -> B) (l : list A) : l <> [] -> map f l <> [].
Proof. destruct l; [congruence | discriminate]. Qed.

Lemma unquote_sep (c : ascii) (x r : string) :
  Ascii.eqb c "%" = false ->
  unquote (String c "" +:+ quote_plus x +:+ r) = String c "" +:+ space_to_plus x +:+ unquote r.
Proof.
  intros Hc. change (String c "" +:+ quote_plus x +:+ r) with (String c (quote_plus x +:+ r)).
  rewrite (unquote_cons_plain c _ Hc), unquote_quote_plus. reflexivity.
Qed.

Lemma unquote_urlencode (d : pydict) (r : string) :
  unquote (urlencode d +:+ r) = decoded_args d +:+ unquote r.
Proof.
  unfold urlencode, decoded_args.
  induction d as [|[k v] d IH]; [reflexivity|].
  destruct (decide (d = [])) as [->|Hne].
  - cbn [map join fst snd].
    rewrite !app_assoc_str, unquote_quote_plus, unquote_sep by reflexivity. reflexivity.
  - rewrite !map_cons, !join_cons_nonempty by (apply map_not_nil; exact Hne).
    cbn [fst snd].
    rewrite !app_assoc_str, unquote_quote_plus, unquote_sep by reflexivity.
    change ("&" +:+ ?z) with (String "&" z).
    rewrite unquote_cons_plain by reflexivity. rewrite IH. reflexivity.
Qed.

Lemma forallb_space_to_plus (p q : ascii -> bool) (x : string) :
  (forall c, p c = true -> q (if Ascii.eqb c " " then "+"%char else c) = true) ->
  forallb_str p x = true -> forallb_str q (space_to_plus x) = true.
Proof.
  intros Hpq. induction x as [|c x IH]; simpl; [reflexivity|].
  intros [Hc Hx]%andb_prop. rewrite (Hpq c Hc), (IH Hx). reflexivity.
Qed.

Lemma value_char_encoded (c : ascii) :
  value_char c = true ->
  negb (Ascii.eqb (if Ascii.eqb c " " then "+"%char else c) "&") = true.
Proof. ascii_cases c. Qed.

Lemma key_char_encoded (c : ascii) :
  key_char c = true ->
  negb (Ascii.eqb (if Ascii.eqb c " " then "+"%char else c) "=") = true.
Proof. ascii_cases c. Qed.

Lemma value_char_encoded_query (c : ascii) :
  value_char c = true -> query_char (if Ascii.eqb c " " then "+"%char else c) = true.
Proof. ascii_cases c. Qed.

Lemma key_char_is_value_char (c : ascii) : key_char c = true -> value_char c = true.
Proof. ascii_cases c. Qed.

Lemma value_char_roundtrip (c : ascii) :
  value_char c = true ->
  (let e := if Ascii.eqb c " " then "+"%char else c in
   if Ascii.eqb e "+" then " "%char else e) = c.
Proof. ascii_cases c. Qed.

Lemma plus_to_space_space_to_plus (x : string) :
  forallb_str value_char x = true -> plus_to_space (space_to_plus x) = x.
Proof.
  induction x as [|c x IH]; simpl; [reflexivity|].
  intros [Hc Hx]%andb_prop. rewrite (IH Hx).
  pose proof (value_char_roundtrip c Hc) as H. simpl in H. rewrite H. reflexivity.
Qed.

Lemma value_chars_plain (x : string) :
  forallb_str value_char x = true -> unquote x = x.
Proof.
  intros H. apply unquote_plain. eapply forallb_not_contains; [|exact H]. reflexivity.
Qed.

Lemma nonempty_space_to_plus (x : string) : nonempty (space_to_plus x) = nonempty x.
Proof. destruct x; reflexivity. Qed.

Lemma split_on_plain (sep : ascii) (x : string) :
  contains sep x = false -> split_on sep x = [x].
Proof.
  induction x as [|c x IH]; simpl; [reflexivity|].
  intros [Hc Hx]%orb_false_elim. rewrite Hc, (IH Hx). reflexivity.
Qed.

Lemma split_on_join (sep : ascii) (l : list string) :
  l <> [] ->
  Forall (fun x => contains sep x = false) l ->
  split_on sep (join (String sep "") l) = l.
Proof.
  intros Hne Hall. induction Hall as [|x l Hx Hl IH]; [congruence|].
  destruct (decide (l = [])) as [->|Hl'].
  - simpl. apply split_on_plain. exact Hx.
  - rewrite join_cons_nonempty by exact Hl'.
    change (String sep "" +:+ join (String sep "") l) with (String sep (join (String sep "") l)).
    rewrite split_on_app_sep, (split_on_plain sep x Hx), (IH Hl'). reflexivity.
Qed.

Lemma parse_field_encoded (k v : string) :
  arg_ok (k, v) = true ->
  parse_field (space_to_plus k +:+ "=" +:+ space_to_plus v) = Some (k, v).
Proof.
  unfold arg_ok. simpl. intros [[Hk Hv]%andb_prop Hne]%andb_prop.
  unfold parse_field.
  change ("=" +:+ space_to_plus v) with (String "=" (space_to_plus v)).
  rewrite partition_app_sep.
  - rewrite nonempty_space_to_plus, Hne.
    assert (Hk' : forallb_str value_char k = true)
      by (eapply forallb_str_impl; [|exact Hk]; apply key_char_is_value_char).
    rewrite !plus_to_space_space_to_plus by assumption.
    rewrite !value_chars_plain by assumption. reflexivity.
  - eapply (forallb_not_contains (fun c => negb (Ascii.eqb c "="))); [reflexivity|].
    eapply forallb_space_to_plus; [|exact Hk]. apply key_char_encoded.
Qed.

Lemma decoded_args_nonempty (d : pydict) :
  d <> [] -> nonempty (decoded_args d) = true.
Proof.
  unfold decoded_args. destruct d as [|[k v] d]; [congruence|]. intros _.
  destruct d as [|kv2 d]; cbn [map join fst snd].
  - destruct (space_to_plus k); reflexivity.
  - destruct (space_to_plus k); reflexivity.
Qed.

Lemma urlencode_nonempty (d : pydict) :
  d <> [] -> nonempty (urlencode d) = true.
Proof.
  unfold urlencode. destruct d as [|[k v] d]; [congruence|]. intros _.
  destruct d as [|kv2 d]; cbn [map join fst snd].
  - destruct (quote_plus k); reflexivity.
  - destruct (quote_plus k); reflexivity.
Qed.

Lemma parse_qsl_decoded_args (d : pydict) :
  Forall (fun kv => arg_ok kv = true) d ->
  parse_qsl (decoded_args d) = d.
Proof.
  intros Hall. unfold parse_qsl.
  destruct (decide (d = [])) as [->|Hne]; [reflexivity|].
  rewrite (decoded_args_nonempty d Hne). unfold decoded_args.
  rewrite split_on_join.
  - clear Hne. induction Hall as [|[k v] d Hkv Hd IH]; [reflexivity|].
    cbn [map omap list_omap fst snd]. rewrite (parse_field_encoded k v Hkv).
    f_equal. exact IH.
  - apply map_not_nil. exact Hne.
  - clear Hne. induction Hall as [|[k v] d Hkv Hd IH]; constructor; [|exact IH].
    cbn [fst snd]. unfold arg_ok in Hkv. simpl in Hkv.
    apply andb_prop in Hkv as [[Hk Hv]%andb_prop _].
    rewrite !contains_app. simpl.
    rewrite (forallb_not_contains (fun c => negb (Ascii.eqb c "&")) "&" (space_to_plus k) eq_refl).
    + rewrite (forallb_not_contains (fun c => negb (Ascii.eqb c "&")) "&" (space_to_plus v) eq_refl);
        [reflexivity|].
      eapply forallb_space_to_plus; [|exact Hv]. apply value_char_encoded.
    + eapply forallb_space_to_plus; [|exact Hk]. intros c Hc.
      apply value_char_encoded, key_char_is_value_char, Hc.
Qed.

(** *** Dicts *)

Lemma dict_set_fresh (k v : string) (d : pydict) :
  k ∉ map fst d -> dict_set k v d = d ++ [(k, v)].
Proof.
  induction d as [|[k' v'] d IH]; simpl; [reflexivity|].
  intros H. apply not_elem_of_cons in H as [Hne H].
  destruct (String.eqb_spec k' k) as [->|_]; [congruence|].
  rewrite (IH H). reflexivity.
Qed.

Lemma dict_of_unique_from (l acc : pydict) :
  NoDup (map fst (acc ++ l)) ->
  fold_left (fun d kv => dict_set (fst kv) (snd kv) d) l acc = acc ++ l.
Proof.
  revert acc. induction l as [|[k v] l IH]; intros acc H; simpl.
  - rewrite app_nil_r. reflexivity.
  - assert (Hk : k ∉ map fst acc).
    { rewrite map_app in H. apply NoDup_app in H as (_ & H & _).
      intros Hin. apply (H k Hin). simpl. left. }
    rewrite (dict_set_fresh k v acc Hk), IH.
    + rewrite <- app_assoc. reflexivity.
    + rewrite <- app_assoc. exact H.
Qed.

Lemma dict_of_unique (d : pydict) : NoDup (map fst d) -> dict_of d = d.
Proof. intros H. unfold dict_of. rewrite dict_of_unique_from; [reflexivity | exact H]. Qed.

Lemma dict_del_fresh (k : string) (d : pydict) :
  k ∉ map fst d -> dict_del k d = d.
Proof.
  induction d as [|[k' v'] d IH]; simpl; [reflexivity|].
  intros H. apply not_elem_of_cons in H as [Hne H].
  destruct (String.eqb_spec k' k) as [->|_]; [congruence|].
  rewrite (IH H). reflexivity.
Qed.

Lemma dict_set_keys (k v : string) (d : pydict) :
  map fst (dict_set k v d) = if bool_decide (k ∈ map fst d) then map fst d else map fst d ++ [k].
Proof.
  induction d as [|[k' v'] d IH]; simpl; [reflexivity|].
  destruct (String.eqb_spec k' k) as [->|Hne]; simpl.
  - rewrite bool_decide_eq_true_2 by left. reflexivity.
  - rewrite IH. destruct (bool_decide (k ∈ map fst d)) eqn:E.
    + apply bool_decide_eq_true_1 in E. rewrite bool_decide_eq_true_2 by (right; exact E).
      reflexivity.
    + apply bool_decide_eq_false_1 in E.
      rewrite bool_decide_eq_false_2; [reflexivity|].
      intros [?|?]%elem_of_cons; congruence.
Qed.

Lemma dict_set_ok (P : string * string -> Prop) (k v : string) (d : pydict) :
  P (k, v) -> Forall P d -> Forall P (dict_set k v d).
Proof.
  intros Hkv Hd. induction Hd as [|[k' v'] d Hx Hd IH]; simpl.
  - constructor; [exact Hkv | constructor].
  - destruct (String.eqb_spec k' k) as [->|Hne]; constructor; assumption.
Qed.

Lemma dict_of_ok_from (P : string * string -> Prop) (l acc : pydict) :
  Forall P l -> Forall P acc -> NoDup (map fst acc) ->
  let d := fold_left (fun d kv => dict_set (fst kv) (snd kv) d) l acc in
  Forall P d /\ NoDup (map fst d).
Proof.
  intros Hl. revert acc. induction Hl as [|[k v] l Hkv Hl IH]; intros acc Hacc Hnd; simpl.
  - split; assumption.
  - apply IH.
    + apply dict_set_ok; assumption.
    + rewrite dict_set_keys. destruct (bool_decide (k ∈ map fst acc)) eqn:E; [exact Hnd|].
      apply bool_decide_eq_false_1 in E.
      apply NoDup_app. split; [exact Hnd|]. split.
      * intros x Hx [->|Hin]%elem_of_cons; [contradiction | inversion Hin].
      * apply NoDup_singleton.
Qed.

Lemma dict_del_ok (P : string * string -> Prop) (k : string) (d : pydict) :
  Forall P d -> Forall P (dict_del k d).
Proof.
  intros Hd. induction Hd as [|[k' v'] d Hx Hd IH]; simpl; [constructor|].
  destruct (String.eqb k' k); [exact Hd | constructor; assumption].
Qed.

Lemma dict_del_keys_subset (k k0 : string) (d : pydict) :
  k0 ∈ map fst (dict_del k d) -> k0 ∈ map fst d.
Proof.
  induction d as [|[k' v'] d IH]; simpl; [auto|].
  destruct (String.eqb k' k); simpl.
  - intros H. right. exact H.
  - intros [->|H]%elem_of_cons; [left | right; auto].
Qed.

Lemma dict_del_nodup (k : string) (d : pydict) :
  NoDup (map fst d) -> NoDup (map fst (dict_del k d)) /\ k ∉ map fst (dict_del k d).
Proof.
  induction d as [|[k' v'] d IH]; simpl.
  - intros _. split; [constructor | apply not_elem_of_nil].
  - intros [Hk' Hd]%NoDup_cons. destruct (IH Hd) as [IH1 IH2].
    destruct (String.eqb_spec k' k) as [->|Hne]; simpl.
    + split; assumption.
    + split.
      * apply NoDup_cons. split; [|exact IH1].
        intros Hin. apply Hk'. eapply dict_del_keys_subset. exact Hin.
      * intros [?|?]%elem_of_cons; [congruence | contradiction].
Qed.

Lemma strip_args_clean (d : pydict) :
  Forall (fun kv => arg_ok kv = true) d -> NoDup (map fst d) ->
  clean_dict (strip_args d).
Proof.
  intros Hok Hnd. unfold strip_args, clean_dict.
  destruct (dict_del_nodup "version" d Hnd) as [N1 V1].
  destruct (dict_del_nodup "service" _ N1) as [N2 V2].
  destruct (dict_del_nodup "request" _ N2) as [N3 V3].
  split; [|split].
  - auto using dict_del_ok.
  - exact N3.
  - unfold reserved_keys. repeat constructor.
    + intros H. apply V1. eauto using dict_del_keys_subset.
    + intros H. apply V2. eauto using dict_del_keys_subset.
    + exact V3.
Qed.

Lemma clean_dict_fixed (d : pydict) :
  clean_dict d -> strip_args (dict_of (parse_qsl (decoded_args d))) = d.
Proof.
  intros (Hok & Hnd & Hres). rewrite (parse_qsl_decoded_args d Hok), (dict_of_unique d Hnd).
  unfold reserved_keys in Hres.
  inversion Hres as [|? ? Hv Hres1]; subst. inversion Hres1 as [|? ? Hs Hres2]; subst.
  inversion Hres2 as [|? ? Hr _]; subst.
  unfold strip_args. rewrite (dict_del_fresh "version" d Hv), (dict_del_fresh "service" d Hs).
  apply dict_del_fresh. exact Hr.
Qed.

(** *** The arguments parsed from a plain query *)

Lemma split_on_forall (p : ascii -> bool) (sep : ascii) (s : string) :
  forallb_str p s = true ->
  Forall (fun x => forallb_str p x = true /\ contains sep x = false) (split_on sep s).
Proof.
  induction s as [|c s IH]; simpl.
  - intros _. repeat constructor.
  - intros [Hc Hs]%andb_prop. specialize (IH Hs).
    destruct (Ascii.eqb c sep) eqn:E.
    + constructor; [split; reflexivity | exact IH].
    + destruct (split_on sep s) as [|h t]; [repeat constructor; simpl; rewrite ?Hc, ?E; reflexivity|].
      inversion IH as [|? ? [Hh1 Hh2] Ht]; subst.
      constructor; [|exact Ht]. simpl. rewrite Hc, Hh1, E, Hh2. split; reflexivity.
Qed.

Lemma partition_Some_forall (p : ascii -> bool) (c : ascii) (s a b : string) :
  partition c s = Some (a, b) ->
  forallb_str p s = true ->
  forallb_str p a = true /\ forallb_str p b = true /\ contains c a = false.
Proof.
  revert a. induction s as [|d s IH]; intros a; simpl; [discriminate|].
  destruct (Ascii.eqb d c) eqn:E.
  - intros [= <- <-] [_ Hs]%andb_prop. auto.
  - destruct (partition c s) as [[a' b']|]; [|discriminate].
    intros [= <- <-] [Hd Hs]%andb_prop.
    destruct (IH a' eq_refl Hs) as (H1 & H2 & H3).
    simpl. rewrite Hd, H1, E, H3. auto.
Qed.

Lemma name_char_decoded (c : ascii) :
  query_char c = true -> Ascii.eqb c "&" = false -> Ascii.eqb c "=" = false ->
  key_char (if Ascii.eqb c "+" then " "%char else c) = true.
Proof. ascii_cases c. Qed.

Lemma value_char_decoded (c : ascii) :
  query_char c = true -> Ascii.eqb c "&" = false ->
  value_char (if Ascii.eqb c "+" then " "%char else c) = true.
Proof. ascii_cases c. Qed.

Lemma plus_to_space_key (n : string) :
  forallb_str query_char n = true -> contains "&" n = false -> contains "=" n = false ->
  forallb_str key_char (plus_to_space n) = true.
Proof.
  induction n as [|c n IH]; simpl; [reflexivity|].
  intros [Hc Hn]%andb_prop [Ha Ha']%orb_false_elim [He He']%orb_false_elim.
  rewrite (name_char_decoded c Hc Ha He), (IH Hn Ha' He'). reflexivity.
Qed.

Lemma plus_to_space_value (v : string) :
  forallb_str query_char v = true -> contains "&" v = false ->
  forallb_str value_char (plus_to_space v) = true.
Proof.
  induction v as [|c v IH]; simpl; [reflexivity|].
  intros [Hc Hv]%andb_prop [Ha Ha']%orb_false_elim.
  rewrite (value_char_decoded c Hc Ha), (IH Hv Ha'). reflexivity.
Qed.

Lemma nonempty_plus_to_space (x : string) : nonempty (plus_to_space x) = nonempty x.
Proof. destruct x; reflexivity. Qed.

Lemma contains_false_forallb (c : ascii) (x : string) :
  contains c x = false -> forallb_str (fun d => negb (Ascii.eqb d c)) x = true.
Proof.
  induction x as [|d x IH]; simpl; [reflexivity|].
  intros [Hd Hx]%orb_false_elim. rewrite Hd, (IH Hx). reflexivity.
Qed.

Lemma parse_field_ok (x : string) (kv : string * string) :
  forallb_str query_char x = true -> contains "&" x = false ->
  parse_field x = Some kv -> arg_ok kv = true.
Proof.
  intros Hx Ha. unfold parse_field.
  destruct (partition "=" x) as [[n v]|] eqn:E; [|discriminate].
  destruct (nonempty v) eqn:Hne; [|discriminate]. intros [= <-].
  destruct (partition_Some_forall query_char "=" x n v E Hx) as (Hn & Hv & Hn').
  destruct (partition_Some_forall _ "=" x n v E (contains_false_forallb "&" x Ha))
    as (Hn2 & Hv2 & _).
  assert (Hna : contains "&" n = false)
    by (eapply forallb_not_contains; [|exact Hn2]; reflexivity).
  assert (Hva : contains "&" v = false)
    by (eapply forallb_not_contains; [|exact Hv2]; reflexivity).
  pose proof (plus_to_space_key n Hn Hna Hn') as Hk.
  pose proof (plus_to_space_value v Hv Hva) as Hval.
  assert (Hk' : forallb_str value_char (plus_to_space n) = true)
    by (eapply forallb_str_impl; [|exact Hk]; apply key_char_is_value_char).
  unfold arg_ok. cbn [fst snd].
  rewrite !value_chars_plain by assumption.
  rewrite Hk, Hval, nonempty_plus_to_space, Hne. reflexivity.
Qed.

Lemma parse_qsl_ok (q : string) :
  forallb_str query_char q = true ->
  Forall (fun kv => arg_ok kv = true) (parse_qsl q).
Proof.
  intros Hq. unfold parse_qsl. destruct (nonempty q); [|constructor].
  pose proof (split_on_forall query_char "&" q Hq) as Hall.
  induction Hall as [|x l [Hx1 Hx2] Hl IH]; [constructor|].
  cbn [omap list_omap]. destruct (parse_field x) as [kv|] eqn:E; [|exact IH].
  constructor; [|exact IH]. exact (parse_field_ok x kv Hx1 Hx2 E).
Qed.

Lemma cleaned_args_clean (q : string) :
  forallb_str query_char q = true ->
  clean_dict (strip_args (dict_of (parse_qsl q))).
Proof.
  intros Hq.
  destruct (dict_of_ok_from (fun kv => arg_ok kv = true) (parse_qsl q) [])
    as [Hok Hnd]; [apply parse_qsl_ok; exact Hq | constructor | constructor |].
  apply strip_args_clean; assumption.
Qed.

(** *** Normalizing twice *)

Lemma lower_char_idempotent (c : ascii) : lower_char (lower_char c) = lower_char c.
Proof. ascii_cases c. Qed.

Lemma lower_char_alpha (c : ascii) : is_alpha c = true -> is_alpha (lower_char c) = true.
Proof. ascii_cases c. Qed.

Lemma lower_char_scheme (c : ascii) :
  is_scheme_char c = true -> is_scheme_char (lower_char c) = true.
Proof. ascii_cases c. Qed.

Lemma lower_idempotent (s : string) : lower (lower s) = lower s.
Proof.
  induction s as [|c s IH]; simpl; [reflexivity|].
  rewrite lower_char_idempotent, IH. reflexivity.
Qed.

Lemma lower_scheme_chars (s : string) :
  forallb_str is_scheme_char s = true -> forallb_str is_scheme_char (lower s) = true.
Proof.
  induction s as [|c s IH]; simpl; [reflexivity|].
  intros [Hc Hs]%andb_prop. rewrite (lower_char_scheme c Hc), (IH Hs). reflexivity.
Qed.

Lemma plain_scheme_lower (S : string) : plain_scheme S = true -> plain_scheme (lower S) = true.
Proof.
  unfold plain_scheme. destruct S as [|c S]; [discriminate|].
  intros [Ha Hs]%andb_prop. simpl in Hs. apply andb_prop in Hs as [Hc Hs].
  simpl. rewrite (lower_char_alpha c Ha), (lower_char_scheme c Hc), (lower_scheme_chars S Hs).
  reflexivity.
Qed.

Lemma plain_scheme_nonempty (S : string) : plain_scheme S = true -> nonempty S = true.
Proof. destruct S; [discriminate | reflexivity]. Qed.

Lemma opt_nonempty_default (x : string) :
  opt_nonempty (default EmptyString (opt_nonempty x)) = opt_nonempty x.
Proof. unfold opt_nonempty. destruct x; reflexivity. Qed.

Lemma default_opt_nonempty (x : string) : default EmptyString (opt_nonempty x) = x.
Proof. unfold opt_nonempty. destruct x; reflexivity. Qed.

Lemma opt_nonempty_chars (p : ascii -> bool) (F : option string) :
  opt_forall p F = true -> opt_forall p (opt_nonempty (default EmptyString F)) = true.
Proof.
  destruct F as [f|]; simpl; [|reflexivity].
  unfold opt_nonempty. destruct (nonempty f); [auto | reflexivity].
Qed.

(** The canonical URL of a URL that decodes to a plain one. *)
Lemma canonical_of_decoded (S N P : string) (Qt Qd F : option string) :
  plain_scheme S = true -> plain_netloc N = true -> plain_path P = true ->
  opt_forall query_char Qd = true -> opt_forall fragment_char F = true ->
  unquote (url_of S N P Qt F) = url_of S N P Qd F ->
  canonical_url (url_of S N P Qt F)
  = Ok (url_of (lower S) N (norm_path (lower S) P)
          (opt_nonempty (urlencode (strip_args (dict_of (parse_qsl (default EmptyString Qd))))))
          (opt_nonempty (default EmptyString F))).
Proof.
  intros HS HN HP HQ HF Hunq.
  rewrite canonical_url_unfold, Hunq, (urlparse_plain S N P Qd F HS HN HP HQ HF).
  cbn [res_bind scheme netloc path params query fragment].
  rewrite geturl_plain; [reflexivity | | |].
  - apply plain_scheme_nonempty, plain_scheme_lower, HS.
  - unfold plain_netloc in HN. apply andb_prop in HN as [HN _]. exact HN.
  - pose proof (norm_path_plain (lower S) P HP) as HP'. unfold plain_path, norm_path in HP'.
    apply andb_prop in HP' as [HP' _]. exact HP'.
Qed.

Lemma decoded_args_query_chars (d : pydict) :
  Forall (fun kv => arg_ok kv = true) d ->
  forallb_str query_char (decoded_args d) = true.
Proof.
  unfold decoded_args. intros Hall.
  induction Hall as [|[k v] d Hkv Hd IH]; [reflexivity|].
  assert (Hone : forallb_str query_char (space_to_plus k +:+ "=" +:+ space_to_plus v) = true).
  { unfold arg_ok in Hkv. cbn [fst snd] in Hkv.
    apply andb_prop in Hkv as [[Hk Hv]%andb_prop _].
    rewrite !forallb_str_app.
    rewrite (forallb_space_to_plus value_char query_char v value_char_encoded_query Hv).
    rewrite (forallb_space_to_plus key_char query_char k); [reflexivity | | exact Hk].
    intros c Hc. apply value_char_encoded_query, key_char_is_value_char, Hc. }
  destruct (decide (d = [])) as [->|Hne].
  - exact Hone.
  - rewrite map_cons, join_cons_nonempty by (apply map_not_nil; exact Hne).
    cbn [fst snd]. rewrite !forallb_str_app.
    rewrite !forallb_str_app in Hone. rewrite Hone, IH. reflexivity.
Qed.

Lemma unquote_canonical (S N P : string) (d : pydict) (F : option string) :
  plain_scheme S = true -> plain_netloc N = true -> plain_path P = true ->
  opt_forall fragment_char F = true ->
  unquote (url_of S N P (opt_nonempty (urlencode d)) F)
  = url_of S N P (opt_nonempty (decoded_args d)) F.
Proof.
  intros HS HN HP HF.
  pose proof (url_of_fragment_chars S N P None F HS HN HP eq_refl HF) as Hall.
  unfold url_of in *. rewrite !forallb_str_app in Hall.
  apply andb_prop in Hall as [H1 Hall]. apply andb_prop in Hall as [_ Hall].
  apply andb_prop in Hall as [H2 Hall]. apply andb_prop in Hall as [H3 Hall].
  apply andb_prop in Hall as [_ H4].
  assert (Hp : forall s, forallb_str fragment_char s = true -> contains "%" s = false).
  { intros s Hs. eapply forallb_not_contains; [|exact Hs]. reflexivity. }
  rewrite (unquote_app_plain S) by auto.
  rewrite (unquote_app_plain "://") by reflexivity.
  rewrite (unquote_app_plain N) by auto.
  rewrite (unquote_app_plain P) by auto.
  do 4 f_equal.
  destruct (decide (d = [])) as [->|Hne].
  - simpl. apply unquote_plain. auto.
  - unfold opt_nonempty. rewrite (urlencode_nonempty d Hne), (decoded_args_nonempty d Hne).
    cbn [tail_query].
    change ("?" +:+ urlencode d) with (String "?" (urlencode d)).
    rewrite app_cons, unquote_cons_plain by reflexivity.
    rewrite unquote_urlencode, (unquote_plain (tail_fragment F)) by auto. reflexivity.
Qed.



(** * Further properties of the code *)

(** ** Counting, listing and availability *)

(** X1: the three operations of the harvester on the capabilities agree:
    when [get_num_available_resources] returns [n], [list_resources(0)]
    returns [n] descriptors and [check_availability] returns whether
    [n > 0], after the same single request; when it raises,
    [list_resources(0)] raises the same exception and
    [check_availability] returns [False]. *)
Theorem count_listing_availability_agree
    (env : Env) (self : WCSHarvester) (log : list event) :
  match get_num_available_resources env self log with
  | (Ok n, log1) =>
      (exists rs, list_resources env self (Some 0) log = (Ok rs, log1) /\ length rs = n) /\
      (forall t, check_availability env self t log = (Ok (0 <? n)%nat, log1))
  | (Raise e, log1) =>
      list_resources env self (Some 0) log = (Raise e, log1) /\
      (forall t, check_availability env self t log = (Ok false, log1))
  end.
Proof.
  unfold get_num_available_resources, list_resources, check_availability, has_contents.
  rewrite bool_decide_eq_true_2 by reflexivity. simpl.
  unfold try_except, bind, ret.
  destruct (_get_wcs env self log) as [[w | e] log1].
  - split; [|reflexivity]. eexists. split; [reflexivity|]. apply length_map.
  - split; reflexivity.
Qed.

(** X2: when the settings have no [OGC_SERVER['default']], or the URL
    cannot be parsed, [get_wcs_service] raises before anything is sent to
    the endpoint; [check_availability] and [probe] then answer [False]
    without a request. *)
Theorem no_request_when_misconfigured
    (env : Env) (self : WCSHarvester) (handler : WCSServiceHandler) (log : list event) :
  url handler = remote_url self ->
  OGC_SERVER env !! "default"%string = None \/
  (exists e, get_cleaned_url_params (remote_url self) = Raise e) ->
  (exists e, get_wcs_service env (remote_url self) log = (Raise e, log)) /\
  (forall t, check_availability env self t log = (Ok false, log)) /\
  probe env handler log = (Ok false, log).
Proof.
  intros Hu H.
  assert (Hw : exists e, get_wcs_service env (remote_url self) log = (Raise e, log)).
  { unfold get_wcs_service. unfold_m.
    destruct (get_cleaned_url_params (remote_url self)) as [[[[c s] v] r] | e] eqn:E.
    - destruct H as [H | [e H]]; [|discriminate]. rewrite H. eauto.
    - eauto. }
  destruct Hw as [e Hw]. split; [eauto|]. split.
  - intros t. unfold check_availability, _get_wcs, try_except, bind. rewrite Hw. reflexivity.
  - unfold probe, wcs, try_except, bind. rewrite Hu, Hw. reflexivity.
Qed.

Lemma no_request_when_misconfigured_witness :
  check_availability unconfigured_env example_harvester (Some 5) [] = (Ok false, []).
Proof.
  exact (proj1 (proj2 (no_request_when_misconfigured unconfigured_env example_harvester
                         {| url := example_url; geonode_service_id := None |} []
                         eq_refl (or_introl eq_refl))) (Some 5)).
Defined.

(** ** What the normalizer returns besides the URL *)

Lemma dict_get_set (k k' v : string) (d : pydict) :
  dict_get k (dict_set k' v d) = if String.eqb k' k then Some v else dict_get k d.
Proof.
  induction d as [|[k0 v0] d IH]; simpl.
  - destruct (String.eqb k' k); reflexivity.
  - destruct (String.eqb_spec k0 k') as [->|Hne]; simpl.
    + destruct (String.eqb k' k); reflexivity.
    + rewrite IH. destruct (String.eqb_spec k0 k) as [->|Hne2]; [|reflexivity].
      destruct (String.eqb_spec k' k) as [->|]; [congruence | reflexivity].
Qed.

Lemma dict_get_dict_of_from (k : string) (l acc : pydict) :
  dict_get k (fold_left (fun d kv => dict_set (fst kv) (snd kv) d) l acc)
  = match last_value k l with
    | Some v => Some v
    | None => dict_get k acc
    end.
Proof.
  revert acc. induction l as [|[k' v] l IH]; intros acc; simpl; [reflexivity|].
  rewrite IH, dict_get_set.
  destruct (last_value k l); [reflexivity|]. destruct (String.eqb k' k); reflexivity.
Qed.

Lemma dict_get_dict_of (k : string) (l : pydict) :
  dict_get k (dict_of l) = last_value k l.
Proof.
  unfold dict_of. rewrite dict_get_dict_of_from. destruct (last_value k l); reflexivity.
Qed.

Lemma dict_get_del_ne (k k' : string) (d : pydict) :
  k <> k' -> dict_get k (dict_del k' d) = dict_get k d.
Proof.
  intros Hne. induction d as [|[k0 v0] d IH]; simpl; [reflexivity|].
  destruct (String.eqb_spec k0 k') as [->|H0]; simpl.
  - destruct (String.eqb_spec k' k); [congruence | reflexivity].
  - rewrite IH. reflexivity.
Qed.

Lemma dict_get_fresh (k : string) (d : pydict) :
  k ∉ map fst d -> dict_get k d = None.
Proof.
  induction d as [|[k0 v0] d IH]; simpl; [reflexivity|].
  intros H. apply not_elem_of_cons in H as [Hne H].
  destruct (String.eqb_spec k0 k); [congruence | auto].
Qed.

Lemma option_match_id {A} (o : option A) :
  match o with Some v => Some v | None => None end = o.
Proof. destruct o; reflexivity. Qed.

(** All four results of the normalizer, from the parsed URL. *)
Lemma get_cleaned_url_params_unfold (u : string) :
  get_cleaned_url_params u
  = res_bind (urlparse (unquote u))
      (fun p =>
         let d := dict_of (parse_qsl (query p)) in
         Ok (geturl {| scheme := scheme p; netloc := netloc p; path := path p;
                       params := params p; query := urlencode (strip_args d);
                       fragment := fragment p |},
             dict_get "service" d,
             default "2.0.1"%string (dict_get "version" d),
             dict_get "request" d)).
Proof.
  unfold get_cleaned_url_params.
  destruct (urlparse (unquote u)) as [p | e]; [|reflexivity]. simpl.
  rewrite (pop_pair "version" _ (fun v => v)).
  rewrite (pop_pair "service" _ Some).
  rewrite (pop_pair "request" _ Some).
  rewrite !option_match_id.
  rewrite (dict_get_del_ne "request" "service") by discriminate.
  rewrite (dict_get_del_ne "request" "version") by discriminate.
  rewrite (dict_get_del_ne "service" "version") by discriminate.
  destruct (dict_get "version" _); reflexivity.
Qed.

(** X3: for a URL that parses, the service, version and request returned
    by [get_cleaned_url_params] are the values of the last fields of those
    names among the fields of the query that have a value; the version is
    ["2.0.1"] when there is none. *)
Theorem cleaned_params_last_field_wins (u : string) (p : ParseResult) :
  urlparse (unquote u) = Ok p ->
  exists c,
    get_cleaned_url_params u
    = Ok (c,
          last_value "service" (parse_qsl (query p)),
          default "2.0.1"%string (last_value "version" (parse_qsl (query p))),
          last_value "request" (parse_qsl (query p))).
Proof.
  intros Hp. rewrite get_cleaned_url_params_unfold, Hp. simpl.
  rewrite !dict_get_dict_of. eexists. reflexivity.
Qed.

Lemma cleaned_params_last_field_wins_witness :
  exists c,
    get_cleaned_url_params "http://example.org/ows?version=1.0.0&service=&version=2.0.0"
    = Ok (c, None, "2.0.0"%string, None).
Proof.
  exact (cleaned_params_last_field_wins
           "http://example.org/ows?version=1.0.0&service=&version=2.0.0"
           {| scheme := "http"; netloc := "example.org"; path := "/ows"; params := "";
              query := "version=1.0.0&service=&version=2.0.0"; fragment := "" |}
           eq_refl).
Defined.

(** X4: the canonical URL of a plain URL no longer names a version: the
    normalizer maps it to itself with service [None], version ["2.0.1"]
    and request [None], whatever version the URL first asked for. *)
Theorem renormalizing_returns_defaults (S N P : string) (Q F : option string) :
  plain_scheme S = true -> plain_netloc N = true -> plain_path P = true ->
  opt_forall query_char Q = true -> opt_forall fragment_char F = true ->
  exists c,
    canonical_url (url_of S N P Q F) = Ok c /\
    get_cleaned_url_params c = Ok (c, None, "2.0.1"%string, None).
Proof.
  intros HS HN HP HQ HF.
  pose proof (url_of_fragment_chars S N P Q F HS HN HP HQ HF) as Hall.
  assert (Hunq : unquote (url_of S N P Q F) = url_of S N P Q F).
  { apply unquote_plain. eapply forallb_not_contains; [|exact Hall]. reflexivity. }
  pose proof (canonical_of_decoded S N P Q Q F HS HN HP HQ HF Hunq) as H1.
  set (d := strip_args (dict_of (parse_qsl (default EmptyString Q)))) in *.
  assert (Hd : clean_dict d).
  { apply cleaned_args_clean. destruct Q as [q|]; [exact HQ | reflexivity]. }
  set (F' := opt_nonempty (default EmptyString F)) in *.
  assert (HF' : opt_forall fragment_char F' = true) by (apply opt_nonempty_chars; exact HF).
  pose proof (plain_scheme_lower S HS) as HS'.
  pose proof (norm_path_plain (lower S) P HP) as HP'.
  assert (HQd : opt_forall query_char (opt_nonempty (decoded_args d)) = true).
  { unfold opt_nonempty. destruct (nonempty (decoded_args d)); [|reflexivity].
    apply decoded_args_query_chars. apply Hd. }
  pose proof (unquote_canonical (lower S) N _ d F' HS' HN HP' HF') as Hunq2.
  pose proof (canonical_of_decoded (lower S) N (norm_path (lower S) P)
                (opt_nonempty (urlencode d)) (opt_nonempty (decoded_args d)) F'
                HS' HN HP' HQd HF' Hunq2) as H2.
  rewrite default_opt_nonempty, (clean_dict_fixed d Hd), lower_idempotent,
    norm_path_idempotent in H2.
  unfold F' in H2 at 2. rewrite opt_nonempty_default in H2. fold F' in H2.
  set (c := url_of (lower S) N (norm_path (lower S) P) (opt_nonempty (urlencode d)) F') in *.
  exists c. split; [exact H1|].
  pose proof (get_cleaned_url_params_unfold c) as HU.
  rewrite Hunq2, (urlparse_plain _ _ _ _ _ HS' HN HP' HQd HF') in HU.
  cbn [res_bind scheme netloc path params query fragment] in HU.
  destruct Hd as (Hok & Hnd & Hres).
  rewrite default_opt_nonempty, (parse_qsl_decoded_args d Hok), (dict_of_unique d Hnd) in HU.
  unfold reserved_keys in Hres.
  inversion Hres as [|? ? Hv Hres1]; subst. inversion Hres1 as [|? ? Hs Hres2]; subst.
  inversion Hres2 as [|? ? Hr _]; subst.
  cbv zeta in HU.
  rewrite (dict_get_fresh "service" d Hs), (dict_get_fresh "version" d Hv),
    (dict_get_fresh "request" d Hr) in HU.
  unfold canonical_url in H2. rewrite HU in H2. simpl in H2. injection H2 as H2.
  rewrite H2 in HU. exact HU.
Qed.

Lemma renormalizing_returns_defaults_witness :
  exists c,
    canonical_url "http://example.org/ows?service=WCS&version=1.0.0&coverage=a" = Ok c /\
    get_cleaned_url_params c = Ok (c, None, "2.0.1"%string, None).
Proof.
  exact (renormalizing_returns_defaults "http" "example.org" "/ows"
           (Some "service=WCS&version=1.0.0&coverage=a"%string) None
           eq_refl eq_refl eq_refl eq_refl eq_refl).
Defined.

(** X5: [get_wms_version] never raises. For a plain URL it fetches the URL
    whose query is replaced by [service=WMS&request=GetCapabilities] (scheme
    lowered, fragment kept) and returns the [version] attribute of the root
    of the answer, or ["1.3.0"] when the fetch fails or the attribute is
    not there. *)
Theorem wms_version_of_replaced_query (platform : Platform) :
  (forall url, exists v, get_wms_version platform url = Ok v) /\
  (forall (S N P : string) (Q F : option string),
      plain_scheme S = true -> plain_netloc N = true -> plain_path P = true ->
      opt_forall query_char Q = true -> opt_forall fragment_char F = true ->
      get_wms_version platform (url_of S N P Q F)
      = Ok match urlopen_root platform
                   (url_of (lower S) N (norm_path (lower S) P)
                      (Some "service=WMS&request=GetCapabilities"%string)
                      (opt_nonempty (default EmptyString F))) with
           | Ok root => default "1.3.0"%string (root !! "version"%string)
           | Raise _ => "1.3.0"%string
           end).
Proof.
  split.
  - intros url. unfold get_wms_version, res_try.
    destruct (res_bind _ _); eauto.
  - intros S N P Q F HS HN HP HQ HF. unfold get_wms_version.
    rewrite (urlparse_plain S N P Q F HS HN HP HQ HF).
    cbn [res_bind scheme netloc path params query fragment].
    rewrite geturl_plain.
    + change (opt_nonempty (urlencode _)) with (Some "service=WMS&request=GetCapabilities"%string).
      destruct (urlopen_root platform _) as [root | e]; [|reflexivity].
      simpl. destruct (root !! "version"%string); reflexivity.
    + apply plain_scheme_nonempty, plain_scheme_lower, HS.
    + unfold plain_netloc in HN. apply andb_prop in HN as [HN _]. exact HN.
    + pose proof (norm_path_plain (lower S) P HP) as HP'. unfold plain_path, norm_path in HP'.
      apply andb_prop in HP' as [HP' _]. exact HP'.
Qed.

Lemma wms_version_of_replaced_query_witness :
  get_wms_version example_platform example_url = Ok "1.1.1"%string.
Proof.
  exact (proj2 (wms_version_of_replaced_query example_platform) "http" "example.org" "/ows"
           (Some "service=WCS&version=2.0.1&request=GetCapabilities"%string) None
           eq_refl eq_refl eq_refl eq_refl eq_refl).
Defined.

(** ** Envelopes of other dimensions *)



(** ** The CRS identifier *)

Lemma length_split_on (sep : ascii) (s : string) :
  length (split_on sep s) = S (count_char sep s).
Proof.
  induction s as [|c s IH]; simpl; [reflexivity|].
  destruct (Ascii.eqb c sep); simpl; [rewrite IH; reflexivity|].
  destruct (split_on sep s) as [|h t]; simpl in *; [discriminate | exact IH].
Qed.

(** X7: the CRS identifier of a native SRS is computed exactly when the
    SRS has at least two [/]; an SRS with fewer (a URN such as
    [urn:ogc:def:crs:EPSG::4326]) raises [IndexError]. *)
Theorem crs_needs_two_slashes (srid_url : string) :
  match crs_of_srs srid_url with
  | Ok _ => (2 <= count_char "/" srid_url)%nat
  | Raise e => e = IndexError /\ (count_char "/" srid_url < 2)%nat
  end.
Proof.
  unfold crs_of_srs, getitem_neg.
  pose proof (length_split_on "/" srid_url) as Hlen.
  rewrite <- length_rev in Hlen.
  destruct (rev (split_on "/" srid_url)) as [|a [|b [|c l]]]; simpl in *; try lia.
  - split; [reflexivity | lia].
  - split; [reflexivity | lia].
Qed.

(** ** The boxes read from the describe-coverage document *)

Lemma or_raise_Ok_inv {A} (e : exn) (o : option A) (a : A) :
  or_raise e o = Ok a -> o = Some a.
Proof. destruct o; simpl; congruence. Qed.

Lemma float4_length (env : Env) (l1 l2 l3 l4 : list string) (i1 i2 i3 i4 : nat) (b : list float) :
  float4 env l1 i1 l2 i2 l3 i3 l4 i4 = Ok b -> length b = 4%nat.
Proof.
  unfold float4. intros H.
  apply res_bind_Ok_inv in H as (x1 & _ & H). apply res_bind_Ok_inv in H as (x2 & _ & H).
  apply res_bind_Ok_inv in H as (x3 & _ & H). apply res_bind_Ok_inv in H as (x4 & _ & H).
  injection H as <-. reflexivity.
Qed.

Lemma envelope_bbox_entry (env : Env) (envelope : Envelope) (entry : BBoxEntry) :
  envelope_bbox env envelope = Ok entry ->
  length (entry_bbox entry) = 4%nat /\
  attrib envelope !! "srsName"%string = Some (nativeSrs entry) /\
  (is_Some (entry_temporal_extent entry) <-> dimension_is_3 env envelope = true).
Proof.
  unfold envelope_bbox, dimension_is_3. intros H.
  apply res_bind_Ok_inv in H as (srs & Hsrs & H). apply or_raise_Ok_inv in Hsrs.
  apply res_bind_Ok_inv in H as (sd & Hsd & H). apply or_raise_Ok_inv in Hsd.
  apply res_bind_Ok_inv in H as (dims & Hdims & H). apply or_raise_Ok_inv in Hdims.
  apply res_bind_Ok_inv in H as (labels & _ & H).
  apply res_bind_Ok_inv in H as (lc & _ & H).
  apply res_bind_Ok_inv in H as (uc & _ & H).
  rewrite Hsd, Hdims.
  destruct (dims =? 2) eqn:E2.
  - apply Z.eqb_eq in E2. subst dims.
    apply res_bind_Ok_inv in H as (swap & _ & H).
    apply res_bind_Ok_inv in H as (b & Hb & H). injection H as <-. simpl.
    split; [|split; [exact Hsrs|]].
    + destruct swap; eapply float4_length; exact Hb.
    + split; [intros [? ?]; discriminate | discriminate].
  - destruct (dims =? 3) eqn:E3.
    + apply res_bind_Ok_inv in H as (swap & _ & H).
      apply res_bind_Ok_inv in H as (b & Hb & H).
      apply res_bind_Ok_inv in H as (lc0 & _ & H).
      apply res_bind_Ok_inv in H as (uc0 & _ & H). injection H as <-. simpl.
      split; [|split; [exact Hsrs|]].
      * destruct swap; eapply float4_length; exact Hb.
      * split; [reflexivity | eauto].
    + apply res_bind_Ok_inv in H as (b & Hb & H). injection H as <-. simpl.
      split; [|split; [exact Hsrs|]].
      * eapply float4_length; exact Hb.
      * split; [intros [? ?]; discriminate | discriminate].
Qed.

Lemma envelope_bboxes_Forall2 (env : Env) (envelopes : list Envelope) (l : list BBoxEntry) :
  envelope_bboxes env envelopes = Ok l ->
  Forall2 (fun envelope entry => envelope_bbox env envelope = Ok entry) envelopes l.
Proof.
  revert l. induction envelopes as [|e es IH]; intros l; simpl.
  - intros [= <-]. constructor.
  - intros H. apply res_bind_Ok_inv in H as (b & Hb & H).
    apply res_bind_Ok_inv in H as (bs & Hbs & H). injection H as <-.
    constructor; [exact Hb | apply IH; exact Hbs].
Qed.

Lemma envelope_bboxes_raise (env : Env) (envelopes : list Envelope) (e : Envelope) (ex : exn) :
  e ∈ envelopes -> envelope_bbox env e = Raise ex ->
  exists ex', envelope_bboxes env envelopes = Raise ex'.
Proof.
  intros Hin He. induction envelopes as [|e0 es IH]; [inversion Hin|].
  simpl. apply elem_of_cons in Hin as [<- | Hin].
  - rewrite He. simpl. eauto.
  - destruct (envelope_bbox env e0); simpl; [|eauto].
    destruct (IH Hin) as [ex' ->]. simpl. eauto.
Qed.

Lemma _getOtherBoundingBoxes_run (env : Env) (self : WCSHarvester) (i : option string)
    (log logw : list event) (w : WCS) (envelopes : list Envelope) :
  _get_wcs env self log = (Ok w, logw) ->
  describeCoverage w i = Ok envelopes ->
  _getOtherBoundingBoxes env self i log
  = (envelope_bboxes env envelopes, logw ++ [DescribeCoverage (wcs_url w) i]).
Proof.
  intros Hw Hd. unfold _getOtherBoundingBoxes, getDescribeCoverage. unfold_m.
  rewrite Hw. simpl. rewrite Hd. reflexivity.
Qed.

(** X8: [_getOtherBoundingBoxes] returns the empty list, and does not
    raise, when the service cannot be built or the describe-coverage
    request fails; a list it returns otherwise has one entry per envelope
    of the document, in order, each with the [srsName] of its envelope as
    [nativeSrs], exactly four coordinates, and a temporal extent exactly
    when the dimension of the envelope is 3. *)
Theorem other_boxes_follow_the_envelopes
    (env : Env) (self : WCSHarvester) (i : option string) (log : list event) :
  (forall e logw,
      _get_wcs env self log = (Raise e, logw) ->
      _getOtherBoundingBoxes env self i log = (Ok [], logw)) /\
  (forall w logw e,
      _get_wcs env self log = (Ok w, logw) ->
      describeCoverage w i = Raise e ->
      _getOtherBoundingBoxes env self i log
      = (Ok [], logw ++ [DescribeCoverage (wcs_url w) i])) /\
  (forall w logw envelopes l log',
      _get_wcs env self log = (Ok w, logw) ->
      describeCoverage w i = Ok envelopes ->
      _getOtherBoundingBoxes env self i log = (Ok l, log') ->
      Forall2 (fun envelope entry =>
                 attrib envelope !! "srsName"%string = Some (nativeSrs entry) /\
                 length (entry_bbox entry) = 4%nat /\
                 (is_Some (entry_temporal_extent entry) <-> dimension_is_3 env envelope = true))
        envelopes l).
Proof.
  split; [|split].
  - intros e logw Hw. unfold _getOtherBoundingBoxes. unfold_m. rewrite Hw. reflexivity.
  - intros w logw e Hw Hd. unfold _getOtherBoundingBoxes, getDescribeCoverage. unfold_m.
    rewrite Hw. simpl. rewrite Hd. reflexivity.
  - intros w logw envelopes l log' Hw Hd H.
    rewrite (_getOtherBoundingBoxes_run env self i log logw w envelopes Hw Hd) in H.
    injection H as H _. apply envelope_bboxes_Forall2 in H.
    clear Hd. induction H as [|envelope entry es l He _ IH]; [constructor|].
    constructor; [|exact IH].
    destruct (envelope_bbox_entry env envelope entry He) as (H1 & H2 & H3). auto.
Qed.

Lemma other_boxes_follow_the_envelopes_witness :
  _getOtherBoundingBoxes unconfigured_env example_harvester (Some "cov1"%string) [] = (Ok [], []) /\
  exists l,
    fst (_getOtherBoundingBoxes (example_env coverage_unparsed [envelope_3d; envelope_2d])
           example_harvester (Some "cov1"%string) []) = Ok l /\
    Forall2 (fun envelope entry =>
               attrib envelope !! "srsName"%string = Some (nativeSrs entry) /\
               length (entry_bbox entry) = 4%nat /\
               (is_Some (entry_temporal_extent entry)
                <-> dimension_is_3 (example_env coverage_unparsed [envelope_3d; envelope_2d])
                      envelope = true))
      [envelope_3d; envelope_2d] l.
Proof.
  split.
  - exact (proj1 (other_boxes_follow_the_envelopes unconfigured_env example_harvester
                    (Some "cov1"%string) []) (KeyError "default") [] eq_refl).
  - eexists. split; [vm_compute; reflexivity|].
    eapply (proj2 (proj2 (other_boxes_follow_the_envelopes
                            (example_env coverage_unparsed [envelope_3d; envelope_2d])
                            example_harvester (Some "cov1"%string) []))
              (example_wcs coverage_unparsed [envelope_3d; envelope_2d])
              [GetCapabilities "http://example.org/ows" "2.0.1" 60]
              [envelope_3d; envelope_2d]);
      [reflexivity | reflexivity | vm_compute; reflexivity].
Defined.

Lemma envelope_bboxes_lookup (env : Env) (envelopes : list Envelope) (l : list BBoxEntry)
    (k : nat) (envelope : Envelope) :
  envelope_bboxes env envelopes = Ok l ->
  envelopes !! k = Some envelope ->
  exists entry, envelope_bbox env envelope = Ok entry /\ l !! k = Some entry.
Proof.
  intros H. apply envelope_bboxes_Forall2 in H.
  revert k. induction H as [|e entry es l He _ IH]; intros k Hk; [discriminate Hk|].
  destruct k as [|k]; simpl in *.
  - injection Hk as <-. eauto.
  - exact (IH k Hk).
Qed.

Lemma remove_char_lstrip (c : ascii) (s : string) :
  remove_char c (lstrip_char c s) = remove_char c s.
Proof.
  induction s as [|d s IH]; simpl; [reflexivity|].
  destruct (Ascii.eqb d c) eqn:E; [exact IH|]. simpl. rewrite E. reflexivity.
Qed.

Lemma remove_char_rstrip (c : ascii) (s : string) :
  remove_char c (rstrip_char c s) = remove_char c s.
Proof.
  induction s as [|d s IH]; simpl; [reflexivity|].
  destruct (rstrip_char c s) as [|d' r] eqn:E.
  - simpl in IH. destruct (Ascii.eqb d c) eqn:Ed; simpl; rewrite ?Ed, <- IH; reflexivity.
  - cbn [remove_char]. cbn [remove_char] in IH. rewrite IH. reflexivity.
Qed.

Lemma quotes_only_around (s : string) :
  contains dquote (strip_char dquote s) = false ->
  remove_char dquote s = strip_char dquote s.
Proof.
  intros H. rewrite <- (remove_char_lstrip dquote s).
  rewrite <- (remove_char_rstrip dquote (lstrip_char dquote s)).
  apply remove_char_plain. exact H.
Qed.

(** C2, as the claim states it, fails: the time values lose every double
    quote, not the surrounding ones only. *)
Lemma inner_quotes_removed :
  exists entry,
    fst (_getOtherBoundingBoxes (example_env coverage_unparsed [envelope_3d_inner_quote])
           example_harvester (Some "cov1"%string) []) = Ok [entry] /\
    entry_temporal_extent entry
    <> Some (strip_char dquote (String dquote "2020" +:+ String dquote "-01-01" +:+ String dquote ""),
             strip_char dquote (String dquote "2020-12-31" +:+ String dquote "")).
Proof.
  eexists. split; [vm_compute; reflexivity|].
  vm_compute. discriminate.
Qed.

(** C2, amended: for the envelopes of the describe-coverage document that
    [_getOtherBoundingBoxes] reads, an envelope whose [srsDimension] reads
    as 3, with three axis labels and three values in each corner, gives, at
    its place in the list, an entry with the first values of the corners,
    without any double quote, as temporal extent - for a value that has
    double quotes at its ends only, the value without them - and the
    rectangle of the second and third values, in the order (third, second)
    when the second label is in [y_labels] and the third in [x_labels].
    With the labels [ansi lat long] and the corners ["2020-01-01" 10 20]
    and ["2020-12-31" 30 40] the rectangle is (20, 10, 40, 30) and the
    temporal extent is (2020-01-01, 2020-12-31). *)
Theorem envelope_3d_time_first
    (env : Env) (self : WCSHarvester) (i : option string) (log logw : list event) (w : WCS)
    (envelopes : list Envelope) (k : nat) (envelope : Envelope)
    (srsName srsDimension axisLabels lower_text upper_text : string)
    (a0 a1 a2 l0 l1 l2 u0 u1 u2 : string) (arest lrest urest : list string)
    (fl1 fl2 fu1 fu2 : float) :
  _get_wcs env self log = (Ok w, logw) ->
  describeCoverage w i = Ok envelopes ->
  envelopes !! k = Some envelope ->
  attrib envelope !! "srsName"%string = Some srsName ->
  attrib envelope !! "srsDimension"%string = Some srsDimension ->
  py_int env srsDimension = Some 3 ->
  attrib envelope !! "axisLabels"%string = Some axisLabels ->
  split_ws (lower axisLabels) = a0 :: a1 :: a2 :: arest ->
  lowerCorner envelope = Some (Some lower_text) ->
  split_ws lower_text = l0 :: l1 :: l2 :: lrest ->
  upperCorner envelope = Some (Some upper_text) ->
  split_ws upper_text = u0 :: u1 :: u2 :: urest ->
  py_float env l1 = Some fl1 -> py_float env l2 = Some fl2 ->
  py_float env u1 = Some fu1 -> py_float env u2 = Some fu2 ->
  let entry :=
    {| nativeSrs := srsName;
       entry_bbox := if str_in a1 y_labels && str_in a2 x_labels
                     then [fl2; fl1; fu2; fu1] else [fl1; fl2; fu1; fu2];
       entry_temporal_extent := Some (remove_char dquote l0, remove_char dquote u0) |} in
  (forall l log',
      _getOtherBoundingBoxes env self i log = (Ok l, log') -> l !! k = Some entry) /\
  (envelopes = [envelope] ->
   _getOtherBoundingBoxes env self i log
   = (Ok [entry], logw ++ [DescribeCoverage (wcs_url w) i])) /\
  (contains dquote (strip_char dquote l0) = false ->
   contains dquote (strip_char dquote u0) = false ->
   entry_temporal_extent entry = Some (strip_char dquote l0, strip_char dquote u0)).
Proof.
  intros Hw Hd Hk Hs Hdim Hi Ha Hl Hlc Hlt Huc Hut F1 F2 F3 F4 entry.
  pose proof (envelope_bbox_3d env envelope srsName srsDimension axisLabels lower_text
                upper_text a0 a1 a2 l0 l1 l2 u0 u1 u2 arest lrest urest fl1 fl2 fu1 fu2
                Hs Hdim Hi Ha Hl Hlc Hlt Huc Hut F1 F2 F3 F4) as He.
  fold entry in He.
  pose proof (_getOtherBoundingBoxes_run env self i log logw w envelopes Hw Hd) as Hrun.
  split; [|split].
  - intros l log' H. rewrite Hrun in H. injection H as H _.
    destruct (envelope_bboxes_lookup env envelopes l k envelope H Hk) as (entry' & He' & Hk').
    rewrite He in He'. injection He' as <-. exact Hk'.
  - intros ->. rewrite Hrun. simpl. rewrite He. reflexivity.
  - intros Q1 Q2. unfold entry. simpl.
    rewrite (quotes_only_around l0 Q1), (quotes_only_around u0 Q2). reflexivity.
Qed.

Lemma envelope_3d_time_first_witness :
  _getOtherBoundingBoxes (example_env coverage_unparsed [envelope_3d]) example_harvester
    (Some "cov1"%string) []
  = (Ok [{| nativeSrs := "http://www.opengis.net/def/crs/EPSG/0/4326";
            entry_bbox := [20; 10; 40; 30]%float;
            entry_temporal_extent := Some ("2020-01-01", "2020-12-31")%string |}],
     [GetCapabilities "http://example.org/ows" "2.0.1" 60]
     ++ [DescribeCoverage "http://example.org/ows" (Some "cov1"%string)]).
Proof.
  exact (proj1 (proj2 (envelope_3d_time_first
           (example_env coverage_unparsed [envelope_3d]) example_harvester
           (Some "cov1"%string) [] [GetCapabilities "http://example.org/ows" "2.0.1" 60]
           (example_wcs coverage_unparsed [envelope_3d]) [envelope_3d] 0 envelope_3d
           "http://www.opengis.net/def/crs/EPSG/0/4326" "3" "ansi Lat Long"
           (String dquote "2020-01-01" +:+ String dquote " 10 20")
           (String dquote "2020-12-31" +:+ String dquote " 30 40")
           "ansi" "lat" "long"
           (String dquote "2020-01-01" +:+ String dquote "") "10" "20"
           (String dquote "2020-12-31" +:+ String dquote "") "30" "40"
           [] [] [] 10%float 20%float 30%float 40%float
           eq_refl eq_refl eq_refl eq_refl eq_refl eq_refl eq_refl eq_refl eq_refl eq_refl
           eq_refl eq_refl eq_refl eq_refl eq_refl eq_refl)) eq_refl).
Defined.

Lemma other_boundingboxes_of_run (env : Env) (self : WCSHarvester) (c : ContentMetadata)
    (i : option string) (log logw : list event) (w : WCS) (envelopes : list Envelope) :
  cm_id c = Ok i ->
  _get_wcs env self log = (Ok w, logw) ->
  describeCoverage w i = Ok envelopes ->
  other_boundingboxes_of env self c log
  = (Ok match envelope_bboxes env envelopes with
        | Ok (x :: l) => Some (x :: l)
        | _ => None
        end, logw ++ [DescribeCoverage (wcs_url w) i]).
Proof.
  intros Hi Hw Hd. unfold other_boundingboxes_of.
  unfold try_except, bind at 1, lift at 1. rewrite Hi.
  unfold bind at 1.
  rewrite (_getOtherBoundingBoxes_run env self i log logw w envelopes Hw Hd).
  destruct (envelope_bboxes env envelopes) as [[|x l] | e]; reflexivity.
Qed.

(** X9: the envelopes of a document stand or fall together: when one
    envelope of the document cannot be read, the document gives no box at
    all, also when the first envelope is well formed; with no box from
    the other sources the extent is the whole globe. *)
Theorem one_bad_envelope_discards_all
    (env : Env) (self : WCSHarvester) (c : ContentMetadata) (i : option string)
    (log logw : list event) (w : WCS) (envelopes : list Envelope) (e : Envelope) (ex : exn)
    (bb wgs : option (list float)) :
  cm_id c = Ok i ->
  _get_wcs env self (log ++ boundingboxes_requests c) = (Ok w, logw) ->
  describeCoverage w i = Ok envelopes ->
  e ∈ envelopes -> envelope_bbox env e = Raise ex ->
  boundingBox c = Ok bb -> truthy bb = false ->
  boundingBoxWGS84 c = Ok wgs -> truthy wgs = false ->
  (forall e0 l, boundingboxes c <> Ok (e0 :: l)) ->
  other_boundingboxes_of env self c (log ++ boundingboxes_requests c)
  = (Ok None, logw ++ [DescribeCoverage (wcs_url w) i]) /\
  _get_bbox env self c log
  = (Ok {| crs := Some "EPSG:4326"%string;
           temporal_extent := Some None;
           spatial_extent := Some (from_bbox globe) |},
     logw ++ [DescribeCoverage (wcs_url w) i]).
Proof.
  intros Hi Hw Hd Hin He Hbb Tb Hwgs Tw Hnone.
  assert (Ho : other_boundingboxes_of env self c (log ++ boundingboxes_requests c)
               = (Ok None, logw ++ [DescribeCoverage (wcs_url w) i])).
  { rewrite (other_boundingboxes_of_run env self c i _ logw w envelopes Hi Hw Hd).
    destruct (envelope_bboxes_raise env envelopes e ex Hin He) as [ex' ->]. reflexivity. }
  split; [exact Ho|].
  rewrite (_get_bbox_by_priority env self c log _ _ bb wgs false None Hbb (fun _ => Hwgs)
             (no_native_boxes c log Hnone) Ho).
  unfold resolve_by_priority, priority. simpl. rewrite Tb, Tw. reflexivity.
Qed.

Lemma one_bad_envelope_discards_all_witness :
  _get_bbox (example_env coverage_unparsed [envelope_3d; envelope_broken])
    example_harvester coverage_unparsed []
  = (Ok {| crs := Some "EPSG:4326"%string;
           temporal_extent := Some None;
           spatial_extent := Some (from_bbox globe) |},
     [DescribeCoverage "http://example.org/ows" (Some "cov1"%string);
      GetCapabilities "http://example.org/ows" "2.0.1" 60;
      DescribeCoverage "http://example.org/ows" (Some "cov1"%string)]).
Proof.
  refine (proj2 (one_bad_envelope_discards_all
                   (example_env coverage_unparsed [envelope_3d; envelope_broken])
                   example_harvester coverage_unparsed (Some "cov1"%string) []
                   [DescribeCoverage "http://example.org/ows" (Some "cov1"%string);
                    GetCapabilities "http://example.org/ows" "2.0.1" 60]
                   (example_wcs coverage_unparsed [envelope_3d; envelope_broken])
                   [envelope_3d; envelope_broken] envelope_broken (KeyError "srsName")
                   None None eq_refl eq_refl eq_refl _ eq_refl eq_refl eq_refl eq_refl eq_refl _)).
  - right. left.
  - intros e0 l. discriminate.
Defined.

Lemma crs_of_srs_count (srid_url : string) :
  if (2 <=? count_char "/" srid_url)%nat
  then exists c, crs_of_srs srid_url = Ok c
  else crs_of_srs srid_url = Raise IndexError.
Proof.
  unfold crs_of_srs, getitem_neg.
  pose proof (length_split_on "/" srid_url) as Hlen.
  rewrite <- length_rev in Hlen.
  destruct (2 <=? count_char "/" srid_url)%nat eqn:E;
    [apply Nat.leb_le in E | apply Nat.leb_gt in E];
    destruct (rev (split_on "/" srid_url)) as [|a [|b [|c l]]]; simpl in *;
    try lia; eauto.
Qed.

Lemma rect4_of_four (b : list float) :
  length b = 4%nat -> exists r, rect4 (Ok (Some b)) = Ok r.
Proof.
  destruct b as [|x0 [|x1 [|x2 [|x3 [|x4 b]]]]]; simpl; try discriminate.
  intros _. eexists. reflexivity.
Qed.

(** X10: when the extent comes from the describe-coverage document and the
    first envelope of the document is not of dimension 3, the resolver
    returns no extent: it raises [KeyError] for the temporal extent that
    such an entry does not carry, or [IndexError] before that when the
    [srsName] has fewer than two [/]. *)
Theorem flat_envelope_gives_no_extent
    (env : Env) (self : WCSHarvester) (c : ContentMetadata) (i : option string)
    (log logw : list event) (w : WCS) (e0 : Envelope) (es : list Envelope)
    (l : list BBoxEntry) (bb wgs : option (list float)) :
  cm_id c = Ok i ->
  _get_wcs env self (log ++ boundingboxes_requests c) = (Ok w, logw) ->
  describeCoverage w i = Ok (e0 :: es) ->
  envelope_bboxes env (e0 :: es) = Ok l ->
  dimension_is_3 env e0 = false ->
  boundingBox c = Ok bb -> truthy bb = false ->
  boundingBoxWGS84 c = Ok wgs -> truthy wgs = false ->
  (forall e l', boundingboxes c <> Ok (e :: l')) ->
  exists srs,
    attrib e0 !! "srsName"%string = Some srs /\
    _get_bbox env self c log
    = (Raise (if (2 <=? count_char "/" srs)%nat then KeyError "temporal_extent" else IndexError),
       logw ++ [DescribeCoverage (wcs_url w) i]).
Proof.
  intros Hi Hw Hd Hl H3 Hbb Tb Hwgs Tw Hnone.
  assert (Ho := other_boundingboxes_of_run env self c i _ logw w (e0 :: es) Hi Hw Hd).
  rewrite Hl in Ho.
  simpl in Hl. apply res_bind_Ok_inv in Hl as (entry & He & Hl).
  apply res_bind_Ok_inv in Hl as (l' & _ & Hl). injection Hl as <-.
  destruct (envelope_bbox_entry env e0 entry He) as (Hlen & Hsrs & Ht).
  exists (nativeSrs entry). split; [exact Hsrs|].
  assert (Hte : entry_temporal_extent entry = None).
  { destruct (entry_temporal_extent entry) eqn:E; [|reflexivity].
    assert (is_Some (Some p)) as Hs by eauto. apply Ht in Hs. congruence. }
  rewrite (_get_bbox_by_priority env self c log _ _ bb wgs false (Some (entry :: l'))
             Hbb (fun _ => Hwgs) (no_native_boxes c log Hnone) Ho).
  f_equal. unfold resolve_by_priority, priority.
  pose proof (crs_of_srs_count (nativeSrs entry)) as Hc.
  remember (2 <=? count_char "/" (nativeSrs entry))%nat as two eqn:E. clear E.
  simpl. rewrite Tb, Tw. simpl.
  unfold first_rect, first_srs. simpl.
  destruct (rect4_of_four (entry_bbox entry) Hlen) as [r ->]. simpl.
  destruct two.
  - destruct Hc as [c0 ->]. simpl. rewrite Hte. reflexivity.
  - rewrite Hc. reflexivity.
Qed.

Lemma flat_envelope_gives_no_extent_witness :
  exists srs,
    attrib envelope_2d !! "srsName"%string = Some srs /\
    _get_bbox (example_env coverage_unparsed [envelope_2d; envelope_3d]) example_harvester
      coverage_unparsed []
    = (Raise (if (2 <=? count_char "/" srs)%nat then KeyError "temporal_extent" else IndexError),
       [DescribeCoverage "http://example.org/ows" (Some "cov1"%string);
        GetCapabilities "http://example.org/ows" "2.0.1" 60]
       ++ [DescribeCoverage "http://example.org/ows" (Some "cov1"%string)]).
Proof.
  eapply (flat_envelope_gives_no_extent
            (example_env coverage_unparsed [envelope_2d; envelope_3d]) example_harvester
            coverage_unparsed (Some "cov1"%string) []
            [DescribeCoverage "http://example.org/ows" (Some "cov1"%string);
             GetCapabilities "http://example.org/ows" "2.0.1" 60]
            (example_wcs coverage_unparsed [envelope_2d; envelope_3d]) envelope_2d [envelope_3d]
            _ None None);
    try reflexivity.
  intros e l'. discriminate.
Defined.

(** ** The metadata of one coverage *)

(** A service is built the same way whatever was requested before. *)
Lemma get_wcs_service_frame (env : Env) (u : string) (log : list event) :
  get_wcs_service env u log
  = (fst (get_wcs_service env u []), log ++ snd (get_wcs_service env u [])).
Proof.
  unfold get_wcs_service. unfold_m.
  destruct (get_cleaned_url_params u) as [[[[c s] v] r] | e]; simpl;
    [|rewrite app_nil_r; reflexivity].
  destruct (OGC_SERVER env !! "default"%string) as [o|]; simpl;
    [|rewrite app_nil_r; reflexivity].
  destruct (WebCoverageService env c v _); reflexivity.
Qed.

Lemma _get_wcs_again (env : Env) (self : WCSHarvester) (w : WCS) (evs log : list event) :
  _get_wcs env self [] = (Ok w, evs) -> _get_wcs env self log = (Ok w, log ++ evs).
Proof.
  intros H. unfold _get_wcs in *. rewrite get_wcs_service_frame, H. reflexivity.
Qed.

(** X11: [_get_metadata] raises a plain [Exception], never a [KeyError] or
    the exception of the endpoint, when the coverage cannot be looked up:
    "No coverage with id ..." when the service cannot be built or has no
    coverage under the identifier, "Coverage has no id" when the coverage
    has no attribute [id] or its [id] is [None]; in each case nothing is
    requested after the capabilities. *)
Theorem metadata_lookup_errors
    (env : Env) (self : WCSHarvester) (coverage_id : string) (log : list event) :
  (forall e logw,
      _get_wcs env self log = (Raise e, logw) ->
      _get_metadata env self coverage_id log
      = (Raise (Exception ("No coverage with id " +:+ coverage_id)), logw)) /\
  (forall w logw,
      _get_wcs env self log = (Ok w, logw) ->
      coverage_of w coverage_id = None ->
      _get_metadata env self coverage_id log
      = (Raise (Exception ("No coverage with id " +:+ coverage_id)), logw)) /\
  (forall w logw c,
      _get_wcs env self log = (Ok w, logw) ->
      coverage_of w coverage_id = Some c ->
      (cm_id c = Ok None \/ exists a, cm_id c = Raise (AttributeError a)) ->
      _get_metadata env self coverage_id log
      = (Raise (Exception "Coverage has no id"), logw)).
Proof.
  unfold coverage_of. split; [|split].
  - intros e logw Hw. unfold _get_metadata, _get_wcs_content_metadata. unfold_m.
    rewrite Hw. reflexivity.
  - intros w logw Hw Hc. unfold _get_metadata, _get_wcs_content_metadata. unfold_m.
    rewrite Hw. simpl. rewrite Hc. reflexivity.
  - intros w logw c Hw Hc Hid. unfold _get_metadata, _get_wcs_content_metadata. unfold_m.
    rewrite Hw. simpl.
    destruct (List.find _ (contents w)) as [[k c']|]; [|discriminate].
    injection Hc as ->. simpl.
    destruct Hid as [-> | [a ->]]; reflexivity.
Qed.

Lemma metadata_lookup_errors_witness :
  _get_metadata (example_env example_coverage []) example_harvester "cov2" []
  = (Raise (Exception ("No coverage with id " +:+ "cov2")),
     [GetCapabilities "http://example.org/ows" "2.0.1" 60]).
Proof.
  exact (proj1 (proj2 (metadata_lookup_errors (example_env example_coverage [])
                         example_harvester "cov2" []))
           (example_wcs example_coverage [])
           [GetCapabilities "http://example.org/ows" "2.0.1" 60] eq_refl eq_refl).
Defined.

Lemma _get_bbox_requests (env : Env) (self : WCSHarvester) (c : ContentMetadata)
    (i : option string) (w : WCS) (evs log : list event) :
  _get_wcs env self [] = (Ok w, evs) ->
  cm_id c = Ok i ->
  snd (_get_bbox env self c log)
  = log ++ boundingboxes_requests c ++ evs ++ [DescribeCoverage (wcs_url w) i].
Proof.
  intros Hw Hi. rewrite _get_bbox_log.
  rewrite (describe_always_requested env self c _ _ i w Hi
             (_get_wcs_again env self w evs _ Hw)).
  rewrite <- !app_assoc. reflexivity.
Qed.

Lemma _get_wcs_content_metadata_run (env : Env) (self : WCSHarvester) (coverage_id name : string)
    (w : WCS) (c : ContentMetadata) (evs log : list event) :
  _get_wcs env self [] = (Ok w, evs) ->
  coverage_of w coverage_id = Some c ->
  cm_id c = Ok (Some name) ->
  _get_wcs_content_metadata env self coverage_id log
  = (bbox <~~ fst (_get_bbox env self c (log ++ evs));
     spatial_extent <~~ or_raise (KeyError "spatial_extent") (spatial_extent bbox);
     crs <~~ or_raise (KeyError "crs") (crs bbox);
     Ok {| md_name := name;
           md_title := cm_title c;
           md_keywords := cm_keywords c;
           md_abstract := cm_abstract c;
           md_wcs_url := wcs_url w;
           md_spatial_extent := spatial_extent;
           md_crs := crs;
           md_temporal_extent := default None (temporal_extent bbox);
           md_category := None |},
     log ++ evs ++ boundingboxes_requests c ++ evs
         ++ [DescribeCoverage (wcs_url w) (Some name)]).
Proof.
  intros Hw Hc Hid. unfold coverage_of in Hc.
  pose proof (_get_bbox_requests env self c (Some name) w evs (log ++ evs) Hw Hid) as Hlog.
  rewrite <- app_assoc in Hlog.
  unfold _get_wcs_content_metadata.
  unfold bind at 1, try_except, bind at 1.
  rewrite (_get_wcs_again env self w evs log Hw).
  unfold bind at 1, lift at 1.
  destruct (List.find _ (contents w)) as [[k c']|]; [|discriminate].
  injection Hc as ->. simpl.
  unfold bind at 1, lift at 1. rewrite Hid.
  unfold bind at 1.
  destruct (_get_bbox env self c (log ++ evs)) as [[bbox | e] log2]; simpl in *; subst log2;
    [|reflexivity].
  unfold_m.
  destruct (spatial_extent bbox); [|reflexivity].
  destruct (temporal_extent bbox); destruct (crs bbox); reflexivity.
Qed.

(** What becomes of a coverage whose extent has to come from a document
    that starts with an envelope of another dimension than 3. *)
Lemma _get_metadata_flat_envelope
    (env : Env) (self : WCSHarvester) (coverage_id name : string) (log evs : list event)
    (w : WCS) (c : ContentMetadata) (e0 : Envelope) (es : list Envelope) (l : list BBoxEntry)
    (bb wgs : option (list float)) (srs : string) :
  _get_wcs env self [] = (Ok w, evs) ->
  coverage_of w coverage_id = Some c ->
  cm_id c = Ok (Some name) ->
  boundingBox c = Ok bb -> truthy bb = false ->
  boundingBoxWGS84 c = Ok wgs -> truthy wgs = false ->
  (forall e l', boundingboxes c <> Ok (e :: l')) ->
  describeCoverage w (Some name) = Ok (e0 :: es) ->
  envelope_bboxes env (e0 :: es) = Ok l ->
  dimension_is_3 env e0 = false ->
  attrib e0 !! "srsName"%string = Some srs ->
  (2 <= count_char "/" srs)%nat ->
  fst (_get_bbox env self c (log ++ evs)) = Raise (KeyError "temporal_extent") /\
  _get_wcs_content_metadata env self coverage_id log
  = (Raise (KeyError "temporal_extent"),
     log ++ evs ++ boundingboxes_requests c ++ evs
         ++ [DescribeCoverage (wcs_url w) (Some name)]) /\
  _get_metadata env self coverage_id log
  = (Raise (KeyError "temporal_extent"),
     log ++ evs ++ boundingboxes_requests c ++ evs
         ++ [DescribeCoverage (wcs_url w) (Some name)]).
Proof.
  intros Hw Hc Hid Hbb Tb Hwgs Tw Hnone Hd Hl H3 Hsrs Hcount.
  assert (Hbox : fst (_get_bbox env self c (log ++ evs)) = Raise (KeyError "temporal_extent")).
  { pose proof (_get_wcs_again env self w evs ((log ++ evs) ++ boundingboxes_requests c) Hw)
      as Hw'.
    assert (Ho := other_boundingboxes_of_run env self c (Some name) _ _ w (e0 :: es)
                    Hid Hw' Hd).
    rewrite Hl in Ho.
    simpl in Hl. apply res_bind_Ok_inv in Hl as (entry & He & Hl).
    apply res_bind_Ok_inv in Hl as (l' & _ & Hl). injection Hl as <-.
    destruct (envelope_bbox_entry env e0 entry He) as (Hlen & Hsrs' & Ht).
    assert (nativeSrs entry = srs) as Hn by congruence.
    assert (Hte : entry_temporal_extent entry = None).
    { destruct (entry_temporal_extent entry) eqn:E; [|reflexivity].
      assert (is_Some (Some p)) as Hs by eauto. apply Ht in Hs. congruence. }
    rewrite (_get_bbox_by_priority env self c _ _ _ bb wgs false (Some (entry :: l'))
               Hbb (fun _ => Hwgs) (no_native_boxes c _ Hnone) Ho).
    unfold resolve_by_priority, priority.
    pose proof (crs_of_srs_count (nativeSrs entry)) as Hcrs. rewrite Hn in Hcrs.
    destruct (Nat.leb_spec 2 (count_char "/" srs)) as [_ | Hlt]; [|lia].
    destruct Hcrs as [c0 Hcrs].
    simpl. rewrite Tb, Tw. simpl.
    unfold first_rect, first_srs. simpl.
    destruct (rect4_of_four (entry_bbox entry) Hlen) as [rect ->]. simpl.
    rewrite Hn, Hcrs. simpl. rewrite Hte. reflexivity. }
  assert (Hcm : _get_wcs_content_metadata env self coverage_id log
                = (Raise (KeyError "temporal_extent"),
                   log ++ evs ++ boundingboxes_requests c ++ evs
                       ++ [DescribeCoverage (wcs_url w) (Some name)])).
  { rewrite (_get_wcs_content_metadata_run env self _ name w c evs log Hw Hc Hid), Hbox.
    reflexivity. }
  split; [exact Hbox|]. split; [exact Hcm|].
  unfold _get_metadata. unfold bind at 1. rewrite Hcm. reflexivity.
Qed.

(** C3: the record of a coverage is not built, and [KeyError] reaches the
    caller of [_get_metadata], when the extent has to come from the
    describe-coverage document and the first envelope of the document is
    not three-dimensional: [_getOtherBoundingBoxes] sets
    ['temporal_extent'] for dimension 3 only and [_get_bbox] subscripts it
    for every entry. That is the state of a coverage of a WCS 2.0 endpoint
    whose [boundingboxes] owslib could not compute (its request failed, or
    a later envelope of the document has time as first axis), with a
    document that starts with a two-dimensional envelope. *)
Theorem metadata_raises_for_flat_envelope
    (env : Env) (self : WCSHarvester) (coverage_id name : string) (log evs : list event)
    (w : WCS) (c : ContentMetadata) (e0 : Envelope) (es : list Envelope) (l : list BBoxEntry)
    (bb wgs : option (list float)) (srs : string) :
  _get_wcs env self [] = (Ok w, evs) ->
  coverage_of w coverage_id = Some c ->
  cm_id c = Ok (Some name) ->
  boundingBox c = Ok bb -> truthy bb = false ->
  boundingBoxWGS84 c = Ok wgs -> truthy wgs = false ->
  (forall e l', boundingboxes c <> Ok (e :: l')) ->
  describeCoverage w (Some name) = Ok (e0 :: es) ->
  envelope_bboxes env (e0 :: es) = Ok l ->
  dimension_is_3 env e0 = false ->
  attrib e0 !! "srsName"%string = Some srs ->
  (2 <= count_char "/" srs)%nat ->
  fst (_get_bbox env self c (log ++ evs)) = Raise (KeyError "temporal_extent") /\
  fst (_get_wcs_content_metadata env self coverage_id log) = Raise (KeyError "temporal_extent") /\
  fst (_get_metadata env self coverage_id log) = Raise (KeyError "temporal_extent").
Proof.
  intros Hw Hc Hid Hbb Tb Hwgs Tw Hnone Hd Hl H3 Hsrs Hcount.
  destruct (_get_metadata_flat_envelope env self coverage_id name log evs w c e0 es l bb wgs srs
              Hw Hc Hid Hbb Tb Hwgs Tw Hnone Hd Hl H3 Hsrs Hcount) as (H1 & H2 & H4).
  rewrite H2, H4. auto.
Qed.

Lemma metadata_raises_for_flat_envelope_witness :
  fst (_get_metadata (example_env coverage_unparsed [envelope_2d; envelope_3d])
         example_harvester "cov1" [])
  = Raise (KeyError "temporal_extent").
Proof.
  refine (proj2 (proj2 (metadata_raises_for_flat_envelope
                          (example_env coverage_unparsed [envelope_2d; envelope_3d])
                          example_harvester "cov1" "cov1" []
                          [GetCapabilities "http://example.org/ows" "2.0.1" 60]
                          (example_wcs coverage_unparsed [envelope_2d; envelope_3d])
                          coverage_unparsed envelope_2d [envelope_3d] _ None None
                          "http://www.opengis.net/def/crs/EPSG/0/4326"
                          eq_refl eq_refl eq_refl eq_refl eq_refl eq_refl eq_refl _
                          eq_refl eq_refl eq_refl eq_refl _))).
  - intros e l'. discriminate.
  - vm_compute. lia.
Defined.

Lemma filter_eq_head (rid : string) (l : list string) :
  rid ∈ l -> exists rest, filter (fun x => x = rid) l = rid :: rest.
Proof.
  induction l as [|a t IH]; intros Hin; [inversion Hin|].
  rewrite filter_cons. destruct (decide (a = rid)) as [-> | Hne]; [eauto|].
  apply elem_of_cons in Hin as [-> | Hin]; [congruence | exact (IH Hin)].
Qed.

Lemma filter_eq_nil (rid : string) (l : list string) :
  rid ∉ l -> filter (fun x => x = rid) l = [].
Proof.
  induction l as [|a t IH]; intros Hin; [reflexivity|].
  rewrite filter_cons. apply not_elem_of_cons in Hin as [Hne Hin].
  destruct (decide (a = rid)) as [-> | _]; [congruence | exact (IH Hin)].
Qed.

Lemma coverage_of_key (w : WCS) (rid : string) (c : ContentMetadata) :
  coverage_of w rid = Some c -> rid ∈ map fst (contents w).
Proof.
  unfold coverage_of. induction (contents w) as [|[k c'] t IH]; simpl; [discriminate|].
  destruct (String.eqb_spec k rid) as [-> | Hne]; simpl.
  - intros _. left.
  - intros H. right. exact (IH H).
Qed.

Lemma coverage_of_None (w : WCS) (rid : string) :
  coverage_of w rid = None -> rid ∉ map fst (contents w).
Proof.
  unfold coverage_of. induction (contents w) as [|[k c'] t IH]; simpl.
  - intros _ H. inversion H.
  - destruct (String.eqb_spec k rid) as [-> | Hne]; simpl; [discriminate|].
    intros H Hin. apply elem_of_cons in Hin as [-> | Hin]; [congruence | exact (IH H Hin)].
Qed.

(** What [get_resource] does once the coverage has been found among the
    contents. *)
Lemma get_resource_found (env : Env) (platform : Platform) (self : WCSHarvester)
    (r : HarvestableResource) (w : WCS) (evs : list event) (sc : ServiceContact)
    (c : ContentMetadata) (log : list event) :
  _get_wcs env self [] = (Ok w, evs) ->
  provider_contact platform w = Ok sc ->
  coverage_of w (hr_unique_identifier r) = Some c ->
  get_resource env platform self r log
  = match _get_metadata env self (hr_unique_identifier r) (log ++ evs) with
    | (Ok coverage_metadata, log') =>
        get_resource_else platform self r (_get_contact sc) coverage_metadata log'
    | (Raise IndexError, log') => (Ok None, log')
    | (Raise e, log') => (Raise e, log')
    end.
Proof.
  intros Hw Hsc Hc. unfold get_resource, get_resource_try.
  unfold bind at 1. rewrite (_get_wcs_again env self w evs log Hw).
  unfold bind at 1, lift at 1. rewrite Hsc. simpl.
  unfold bind at 1, lift at 1.
  destruct (filter_eq_head _ _ (coverage_of_key w _ c Hc)) as [rest ->]. simpl.
  unfold bind at 1.
  destruct (_get_metadata env self (hr_unique_identifier r) (log ++ evs)) as [[md | e] log'];
    reflexivity.
Qed.

(** ** Harvesting one resource *)

(** X12: for an identifier that is not among the coverages of the service,
    [get_resource] returns [None] after the one capabilities request; the
    contact of the provider is read before the identifier is looked up, so
    an exception of reading it, other than [IndexError], is raised
    instead. *)
Theorem unknown_identifier_gives_none
    (env : Env) (platform : Platform) (self : WCSHarvester) (r : HarvestableResource)
    (w : WCS) (log logw : list event) :
  _get_wcs env self log = (Ok w, logw) ->
  coverage_of w (hr_unique_identifier r) = None ->
  get_resource env platform self r log
  = (match provider_contact platform w with
     | Ok _ => Ok None
     | Raise IndexError => Ok None
     | Raise e => Raise e
     end, logw).
Proof.
  intros Hw Hc. unfold get_resource, get_resource_try.
  unfold bind at 1. rewrite Hw.
  unfold bind at 1, lift at 1.
  destruct (provider_contact platform w) as [sc | e]; simpl.
  - unfold bind at 1, lift at 1.
    rewrite (filter_eq_nil _ _ (coverage_of_None w _ Hc)). reflexivity.
  - destruct e; reflexivity.
Qed.

Lemma unknown_identifier_gives_none_witness :
  get_resource (example_env example_coverage []) example_platform example_harvester
    {| hr_unique_identifier := "cov2"; geonode_resource := None |} []
  = (Ok None, [GetCapabilities "http://example.org/ows" "2.0.1" 60]).
Proof.
  exact (unknown_identifier_gives_none (example_env example_coverage []) example_platform
           example_harvester {| hr_unique_identifier := "cov2"; geonode_resource := None |}
           (example_wcs example_coverage []) []
           [GetCapabilities "http://example.org/ows" "2.0.1" 60] eq_refl eq_refl).
Defined.

Lemma rect4_cases (b : list float) :
  (exists r, rect4 (Ok (Some b)) = Ok r) \/ rect4 (Ok (Some b)) = Raise IndexError.
Proof.
  destruct b as [|x0 [|x1 [|x2 [|x3 b]]]]; try (right; reflexivity).
  left. eexists. reflexivity.
Qed.

(** X13: a coverage that is among the contents is still reported as not
    found when its extent comes from a native box whose SRS has fewer
    than two [/], such as a URN: the [IndexError] of the CRS identifier
    is caught by [get_resource], which returns [None]. By then the
    capabilities were requested three times, and the describe-coverage
    document by the read of [boundingboxes] and by
    [_getOtherBoundingBoxes]. *)
Theorem urn_srs_reported_as_not_found
    (env : Env) (platform : Platform) (self : WCSHarvester) (r : HarvestableResource)
    (w : WCS) (evs log : list event) (sc : ServiceContact) (c : ContentMetadata)
    (name : string) (bb wgs : option (list float)) (e : BBoxEntry) (l : list BBoxEntry) :
  _get_wcs env self [] = (Ok w, evs) ->
  provider_contact platform w = Ok sc ->
  coverage_of w (hr_unique_identifier r) = Some c ->
  cm_id c = Ok (Some name) ->
  boundingBox c = Ok bb -> truthy bb = false ->
  boundingBoxWGS84 c = Ok wgs -> truthy wgs = false ->
  boundingboxes c = Ok (e :: l) ->
  (count_char "/" (nativeSrs e) < 2)%nat ->
  get_resource env platform self r log
  = (Ok None,
     log ++ evs ++ evs ++ boundingboxes_requests c ++ evs
         ++ [DescribeCoverage (wcs_url w) (Some name)]).
Proof.
  intros Hw Hsc Hc Hid Hbb Tb Hwgs Tw Hboxes Hcount.
  rewrite (get_resource_found env platform self r w evs sc c log Hw Hsc Hc).
  unfold _get_metadata. unfold bind at 1.
  rewrite (_get_wcs_content_metadata_run env self _ name w c evs (log ++ evs) Hw Hc Hid).
  assert (Hraise : fst (_get_bbox env self c ((log ++ evs) ++ evs)) = Raise IndexError).
  { destruct (other_boundingboxes_of_total env self c
                (((log ++ evs) ++ evs) ++ boundingboxes_requests c))
      as (other & log2 & Ho).
    assert (Hhas : has_boundingboxes_of c ((log ++ evs) ++ evs)
                   = (Ok true, ((log ++ evs) ++ evs) ++ boundingboxes_requests c)).
    { rewrite has_boundingboxes_of_run, Hboxes. reflexivity. }
    rewrite (_get_bbox_by_priority env self c _ _ log2 bb wgs true other
               Hbb (fun _ => Hwgs) Hhas Ho).
    unfold resolve_by_priority, priority. simpl. rewrite Tb, Tw. simpl.
    rewrite Hboxes. unfold first_rect, first_srs. simpl.
    pose proof (crs_of_srs_count (nativeSrs e)) as Hcrs.
    destruct (Nat.leb_spec 2 (count_char "/" (nativeSrs e))) as [Hle | _]; [lia|].
    destruct (rect4_cases (entry_bbox e)) as [[rect ->] | ->]; simpl; [|reflexivity].
    rewrite Hcrs. reflexivity. }
  rewrite Hraise. simpl. rewrite <- !app_assoc. reflexivity.
Qed.

Lemma urn_srs_reported_as_not_found_witness :
  get_resource (example_env coverage_urn [envelope_urn]) example_platform example_harvester
    example_resource []
  = (Ok None,
     [] ++ [GetCapabilities "http://example.org/ows" "2.0.1" 60]
        ++ [GetCapabilities "http://example.org/ows" "2.0.1" 60]
        ++ [DescribeCoverage "http://example.org/ows" (Some "cov1"%string)]
        ++ [GetCapabilities "http://example.org/ows" "2.0.1" 60]
        ++ [DescribeCoverage "http://example.org/ows" (Some "cov1"%string)]).
Proof.
  refine (urn_srs_reported_as_not_found (example_env coverage_urn [envelope_urn])
            example_platform
            example_harvester example_resource (example_wcs coverage_urn [envelope_urn])
            [GetCapabilities "http://example.org/ows" "2.0.1" 60] [] example_contact
            coverage_urn "cov1" None None _ [] eq_refl eq_refl eq_refl eq_refl
            eq_refl eq_refl eq_refl eq_refl eq_refl _).
  vm_compute. lia.
Defined.

Lemma _get_wcs_content_metadata_Ok_inv (env : Env) (self : WCSHarvester) (coverage_id : string)
    (w : WCS) (evs log log' : list event) (md : Metadata) :
  _get_wcs env self [] = (Ok w, evs) ->
  _get_wcs_content_metadata env self coverage_id log = (Ok md, log') ->
  exists c name, coverage_of w coverage_id = Some c /\ cm_id c = Ok (Some name).
Proof.
  intros Hw. unfold _get_wcs_content_metadata, coverage_of.
  unfold bind at 1, try_except, bind at 1.
  rewrite (_get_wcs_again env self w evs log Hw).
  unfold bind at 1, lift at 1.
  destruct (List.find _ (contents w)) as [[k c]|]; simpl; [|discriminate].
  unfold bind at 1, lift at 1.
  destruct (cm_id c) as [[name|] | []] eqn:Hid; simpl; try discriminate.
  intros _. eauto.
Qed.


Lemma length_take_str (n : nat) (s : string) : (String.length (take_str n s) <= n)%nat.
Proof.
  revert s. induction n as [|n IH]; intros [|c s]; simpl; try lia.
  specialize (IH s). lia.
Qed.

Arguments take_str : simpl never.

(** X14: a record returned by [get_resource] describes the coverage that
    the contents hold under the requested identifier: its name, and the
    parameter [alternate], is the attribute [id] of that coverage, which
    is not the identifier itself; title and abstract are never [None],
    the name and "Not provided" standing in for missing ones; the category
    is the first keyword that names one; the URL is the URL of the
    service. Producing it took three capabilities requests, the requests
    of the read of [boundingboxes] (before the third) and one
    describe-coverage request by [_getOtherBoundingBoxes], wherever the
    extent came from. *)
Theorem harvested_record_of_coverage
    (env : Env) (platform : Platform) (self : WCSHarvester) (r : HarvestableResource)
    (w : WCS) (evs log log' : list event) (info : HarvestedResourceInfo) :
  _get_wcs env self [] = (Ok w, evs) ->
  get_resource env platform self r log = (Ok (Some info), log') ->
  exists c name,
    coverage_of w (hr_unique_identifier r) = Some c /\
    cm_id c = Ok (Some name) /\
    ri_name (rd_identification (resource_descriptor info)) = name /\
    ri_title (rd_identification (resource_descriptor info)) = Some (default name (cm_title c)) /\
    ri_abstract (rd_identification (resource_descriptor info))
    = Some (default "Not provided"%string (cm_abstract c)) /\
    ri_other_keywords (rd_identification (resource_descriptor info)) = cm_keywords c /\
    ri_topic_category (rd_identification (resource_descriptor info))
    = first_category env (cm_keywords c) /\
    rdist_wcs_url (rd_distribution (resource_descriptor info)) = wcs_url w /\
    rd_additional_parameters (resource_descriptor info) !! "alternate"%string = Some name /\
    rd_additional_parameters (resource_descriptor info) !! "ows_url"%string = Some (wcs_url w) /\
    log' = log ++ evs ++ evs ++ boundingboxes_requests c ++ evs
               ++ [DescribeCoverage (wcs_url w) (Some name)].
Proof.
  intros Hw H.
  assert (Hstart : forall sc_or, provider_contact platform w = sc_or ->
            (exists sc, sc_or = Ok sc) /\ exists c, coverage_of w (hr_unique_identifier r) = Some c).
  { intros sc_or Hsc. revert H. unfold get_resource, get_resource_try.
    unfold bind at 1. rewrite (_get_wcs_again env self w evs log Hw).
    unfold bind at 1, lift at 1. rewrite Hsc.
    destruct sc_or as [sc | e]; simpl; [|destruct e; discriminate].
    intros H. split; [eauto|].
    destruct (coverage_of w (hr_unique_identifier r)) as [c|] eqn:Hc; [eauto|].
    revert H. unfold bind at 1, lift at 1.
    rewrite (filter_eq_nil _ _ (coverage_of_None w _ Hc)). discriminate. }
  destruct (Hstart _ eq_refl) as [[sc Hsc] [c Hc]]. clear Hstart.
  rewrite (get_resource_found env platform self r w evs sc c log Hw Hsc Hc) in H.
  destruct (_get_metadata env self (hr_unique_identifier r) (log ++ evs))
    as [[md | e] log1] eqn:Hmd; [|destruct e; discriminate].
  unfold _get_metadata in Hmd. apply bind_Ok_inv in Hmd as (md0 & l0 & Hcm & Hret).
  destruct (_get_wcs_content_metadata_Ok_inv env self _ w evs _ _ _ Hw Hcm)
    as (c' & name & Hc' & Hid).
  rewrite Hc in Hc'. injection Hc' as <-.
  rewrite (_get_wcs_content_metadata_run env self _ name w c evs (log ++ evs) Hw Hc Hid) in Hcm.
  injection Hcm as Hres Hlog.
  apply res_bind_Ok_inv in Hres as (bbox & _ & Hres).
  apply res_bind_Ok_inv in Hres as (sp & _ & Hres).
  apply res_bind_Ok_inv in Hres as (cr & _ & Hres).
  injection Hres as <-. injection Hret as <- <-. subst l0.
  exists c, name. split; [exact Hc|]. split; [exact Hid|].
  revert H. unfold get_resource_else. unfold_m.
  destruct (geonode_resource r) as [g|];
    [destruct (py_UUID platform (rb_uuid g)) as [u|]; [|discriminate]|];
    (destruct (GXP_PTYPES platform !! "WCS"%string) as [ptype|]; [|discriminate]);
    intros [= <- <-]; simpl.
  all: repeat split;
    [ destruct (cm_title c); reflexivity
    | destruct (cm_abstract c); reflexivity
    | rewrite <- !app_assoc; reflexivity ].
Qed.

Lemma harvested_record_of_coverage_witness :
  match get_resource (example_env coverage_native [envelope_2d]) example_platform example_harvester
          example_resource [] with
  | (Ok (Some info), log') =>
      exists c name,
        coverage_of (example_wcs coverage_native [envelope_2d]) "cov1" = Some c /\
        cm_id c = Ok (Some name) /\
        ri_name (rd_identification (resource_descriptor info)) = name /\
        ri_title (rd_identification (resource_descriptor info))
        = Some (default name (cm_title c)) /\
        ri_abstract (rd_identification (resource_descriptor info))
        = Some (default "Not provided"%string (cm_abstract c)) /\
        ri_other_keywords (rd_identification (resource_descriptor info)) = cm_keywords c /\
        ri_topic_category (rd_identification (resource_descriptor info))
        = first_category (example_env coverage_native [envelope_2d]) (cm_keywords c) /\
        rdist_wcs_url (rd_distribution (resource_descriptor info)) = "http://example.org/ows"%string /\
        rd_additional_parameters (resource_descriptor info) !! "alternate"%string = Some name /\
        rd_additional_parameters (resource_descriptor info) !! "ows_url"%string
        = Some "http://example.org/ows"%string /\
        log' = [] ++ [GetCapabilities "http://example.org/ows" "2.0.1" 60]
                  ++ [GetCapabilities "http://example.org/ows" "2.0.1" 60]
                  ++ boundingboxes_requests c
                  ++ [GetCapabilities "http://example.org/ows" "2.0.1" 60]
                  ++ [DescribeCoverage "http://example.org/ows" (Some name)]
  | _ => False
  end.
Proof.
  destruct (get_resource (example_env coverage_native [envelope_2d]) example_platform example_harvester
              example_resource []) as [[[info|] | e] log'] eqn:H;
    try (vm_compute in H; discriminate).
  exact (harvested_record_of_coverage (example_env coverage_native [envelope_2d]) example_platform
           example_harvester example_resource (example_wcs coverage_native [envelope_2d])
           [GetCapabilities "http://example.org/ows" "2.0.1" 60] [] log' info eq_refl H).
Defined.

(** X15: the UUID of a record returned by [get_resource] is the UUID of
    the GeoNode resource when the harvestable resource has one, and a
    fresh one only otherwise; the parameter [store] is the slug of the
    remote URL cut to at most 255 characters, and [ptype] is the entry
    [WCS] of [GXP_PTYPES], without which no record is returned. *)
Theorem harvested_record_identity
    (env : Env) (platform : Platform) (self : WCSHarvester) (r : HarvestableResource)
    (log log' : list event) (info : HarvestedResourceInfo) :
  get_resource env platform self r log = (Ok (Some info), log') ->
  match geonode_resource r with
  | Some g => py_UUID platform (rb_uuid g) = Some (rd_uuid (resource_descriptor info))
  | None => rd_uuid (resource_descriptor info) = uuid4 platform
  end /\
  (exists store,
      rd_additional_parameters (resource_descriptor info) !! "store"%string = Some store /\
      store = take_str 255 (slugify platform (remote_url self)) /\
      (String.length store <= 255)%nat) /\
  (exists ptype,
      rd_additional_parameters (resource_descriptor info) !! "ptype"%string = Some ptype /\
      GXP_PTYPES platform !! "WCS"%string = Some ptype).
Proof.
  unfold get_resource.
  destruct (get_resource_try env platform self (hr_unique_identifier r) log)
    as [[[[w ci] md] | e] l1]; [|destruct e; discriminate].
  unfold get_resource_else. unfold_m.
  destruct (geonode_resource r) as [g|];
    [destruct (py_UUID platform (rb_uuid g)) as [u|]; [|discriminate]|];
    (destruct (GXP_PTYPES platform !! "WCS"%string) as [ptype|]; [|discriminate]);
    intros [= <- <-]; simpl.
  all: split; [reflexivity|]; split;
    [ eexists; split; [reflexivity|]; split; [reflexivity | apply length_take_str]
    | eexists; split; reflexivity ].
Qed.

Lemma harvested_record_identity_witness :
  match get_resource (example_env coverage_native [envelope_2d]) example_platform example_harvester
          example_resource [] with
  | (Ok (Some info), _) =>
      rd_uuid (resource_descriptor info) = "11111111-2222-4333-8444-555555555555"%string /\
      rd_additional_parameters (resource_descriptor info) !! "ptype"%string
      = Some "gxp_wcssource"%string
  | _ => False
  end.
Proof.
  destruct (get_resource (example_env coverage_native [envelope_2d]) example_platform example_harvester
              example_resource []) as [[[info|] | e] log'] eqn:H;
    try (vm_compute in H; discriminate).
  destruct (harvested_record_identity (example_env coverage_native [envelope_2d]) example_platform
              example_harvester example_resource [] log' info H)
    as (Hu & _ & ptype & Hp & Hg).
  split.
  - cbn in Hu. congruence.
  - rewrite Hp. vm_compute in Hg. congruence.
Defined.

(** ** The defaults of a GeoNode resource *)

(** X16: [get_geonode_resource_defaults] lets the additional parameters of
    the record win over every other entry, sets ["name"] to the name of
    the record unless an additional parameter has that key, sets the two
    temporal keys only for a record with a temporal extent, and leaves
    every other entry of the defaults of the base class as it was; no
    key of those defaults is lost. *)
Theorem resource_defaults_updated {O : Type}
    (defaults : gmap string (dval O)) (harvested_info : HarvestedResourceInfo) :
  let descriptor := resource_descriptor harvested_info in
  let result := get_geonode_resource_defaults defaults harvested_info in
  (forall k v, rd_additional_parameters descriptor !! k = Some v ->
               result !! k = Some (DStr v)) /\
  (rd_additional_parameters descriptor !! "name"%string = None ->
   result !! "name"%string = Some (DStr (ri_name (rd_identification descriptor)))) /\
  (rd_additional_parameters descriptor !! "temporal_extent_start"%string = None ->
   rd_additional_parameters descriptor !! "temporal_extent_end"%string = None ->
   match ri_temporal_extent (rd_identification descriptor) with
   | Some (t0, t1) =>
       result !! "temporal_extent_start"%string = Some (DStr t0) /\
       result !! "temporal_extent_end"%string = Some (DStr t1)
   | None =>
       result !! "temporal_extent_start"%string = defaults !! "temporal_extent_start"%string /\
       result !! "temporal_extent_end"%string = defaults !! "temporal_extent_end"%string
   end) /\
  (forall k, rd_additional_parameters descriptor !! k = None ->
             k <> "name"%string -> k <> "temporal_extent_start"%string ->
             k <> "temporal_extent_end"%string ->
             result !! k = defaults !! k) /\
  (forall k, is_Some (defaults !! k) -> is_Some (result !! k)).
Proof.
  intros descriptor result. subst result. unfold get_geonode_resource_defaults.
  fold descriptor.
  set (extra := rd_additional_parameters descriptor).
  assert (Hleft : forall k v (m : gmap string (dval O)),
            extra !! k = Some v -> ((DStr <$> extra) ∪ m) !! k = Some (DStr v)).
  { intros k v m Hk. apply lookup_union_Some_l. rewrite lookup_fmap, Hk. reflexivity. }
  assert (Hright : forall k (m : gmap string (dval O)),
            extra !! k = None -> ((DStr <$> extra) ∪ m) !! k = m !! k).
  { intros k m Hk. apply lookup_union_r. rewrite lookup_fmap, Hk. reflexivity. }
  split; [|split; [|split; [|split]]].
  - intros k v Hk. apply Hleft. exact Hk.
  - intros Hn. rewrite (Hright _ _ Hn).
    destruct (ri_temporal_extent (rd_identification descriptor)) as [[t0 t1]|].
    + rewrite !lookup_insert_ne by discriminate. apply lookup_insert_eq.
    + apply lookup_insert_eq.
  - intros Hs He.
    destruct (ri_temporal_extent (rd_identification descriptor)) as [[t0 t1]|];
      rewrite (Hright _ _ Hs), (Hright _ _ He).
    + split.
      * rewrite lookup_insert_ne by discriminate. apply lookup_insert_eq.
      * apply lookup_insert_eq.
    + split; rewrite lookup_insert_ne by discriminate; reflexivity.
  - intros k Hk Hn Hs He. rewrite (Hright _ _ Hk).
    destruct (ri_temporal_extent (rd_identification descriptor)) as [[t0 t1]|];
      rewrite !lookup_insert_ne by congruence; reflexivity.
  - intros k [v Hv].
    destruct (extra !! k) as [x|] eqn:Hk.
    + rewrite (Hleft _ _ _ Hk). eauto.
    + rewrite (Hright _ _ Hk).
      destruct (ri_temporal_extent (rd_identification descriptor)) as [[t0 t1]|].
      * destruct (decide (k = "temporal_extent_end"%string)) as [-> | H1];
          [rewrite lookup_insert_eq; eauto | rewrite lookup_insert_ne by congruence].
        destruct (decide (k = "temporal_extent_start"%string)) as [-> | H2];
          [rewrite lookup_insert_eq; eauto | rewrite lookup_insert_ne by congruence].
        destruct (decide (k = "name"%string)) as [-> | H3];
          [rewrite lookup_insert_eq; eauto | rewrite lookup_insert_ne by congruence].
        eauto.
      * destruct (decide (k = "name"%string)) as [-> | H3];
          [rewrite lookup_insert_eq; eauto | rewrite lookup_insert_ne by congruence].
        eauto.
Qed.

Lemma resource_defaults_updated_witness :
  match get_resource (example_env coverage_native [envelope_2d]) example_platform example_harvester
          example_resource [] with
  | (Ok (Some info), _) =>
      get_geonode_resource_defaults
        (<["alternate"%string := DOther tt]> (<["owner"%string := DOther tt]> ∅)) info
        !! "alternate"%string
      = Some (DStr "cov1")
  | _ => False
  end.
Proof.
  destruct (get_resource (example_env coverage_native [envelope_2d]) example_platform example_harvester
              example_resource []) as [[[info|] | e] log'] eqn:H;
    try (vm_compute in H; discriminate).
  apply (proj1 (resource_defaults_updated
                  (<["alternate"%string := DOther tt]> (<["owner"%string := DOther tt]> ∅))
                  info)).
  vm_compute in H. injection H as <- _. reflexivity.
Defined.

(** ** Harvesting one resource, continued *)

Lemma rect4_of_some (b : list float) :
  (4 <= length b)%nat -> exists r, rect4 (Ok (Some b)) = Ok r.
Proof.
  destruct b as [|x0 [|x1 [|x2 [|x3 b]]]]; simpl; try lia.
  intros _. eexists. reflexivity.
Qed.

Lemma truthy_of_some {A} (b : list A) : (4 <= length b)%nat -> truthy (Some b) = true.
Proof. destruct b; simpl; [lia | reflexivity]. Qed.

(** X17: [get_resource] catches [IndexError] only: for a coverage whose
    extent has to come from a document that starts with an envelope of
    another dimension than 3, the [KeyError] of the missing temporal
    extent is raised to the caller, and the resource is neither harvested
    nor reported as not found. *)
Theorem flat_envelope_breaks_harvest
    (env : Env) (platform : Platform) (self : WCSHarvester) (r : HarvestableResource)
    (w : WCS) (evs log : list event) (sc : ServiceContact) (c : ContentMetadata)
    (name : string) (e0 : Envelope) (es : list Envelope) (l : list BBoxEntry)
    (bb wgs : option (list float)) (srs : string) :
  _get_wcs env self [] = (Ok w, evs) ->
  provider_contact platform w = Ok sc ->
  coverage_of w (hr_unique_identifier r) = Some c ->
  cm_id c = Ok (Some name) ->
  boundingBox c = Ok bb -> truthy bb = false ->
  boundingBoxWGS84 c = Ok wgs -> truthy wgs = false ->
  (forall e l', boundingboxes c <> Ok (e :: l')) ->
  describeCoverage w (Some name) = Ok (e0 :: es) ->
  envelope_bboxes env (e0 :: es) = Ok l ->
  dimension_is_3 env e0 = false ->
  attrib e0 !! "srsName"%string = Some srs ->
  (2 <= count_char "/" srs)%nat ->
  get_resource env platform self r log
  = (Raise (KeyError "temporal_extent"),
     log ++ evs ++ evs ++ boundingboxes_requests c ++ evs
         ++ [DescribeCoverage (wcs_url w) (Some name)]).
Proof.
  intros Hw Hsc Hc Hid Hbb Tb Hwgs Tw Hnone Hd Hl H3 Hsrs Hcount.
  rewrite (get_resource_found env platform self r w evs sc c log Hw Hsc Hc).
  destruct (_get_metadata_flat_envelope env self (hr_unique_identifier r) name (log ++ evs)
              evs w c e0 es l bb wgs srs
              Hw Hc Hid Hbb Tb Hwgs Tw Hnone Hd Hl H3 Hsrs Hcount) as (_ & _ & ->).
  rewrite <- !app_assoc. reflexivity.
Qed.

Lemma flat_envelope_breaks_harvest_witness :
  get_resource (example_env coverage_unparsed [envelope_2d; envelope_3d]) example_platform
    example_harvester example_resource []
  = (Raise (KeyError "temporal_extent"),
     [] ++ [GetCapabilities "http://example.org/ows" "2.0.1" 60]
        ++ [GetCapabilities "http://example.org/ows" "2.0.1" 60]
        ++ [DescribeCoverage "http://example.org/ows" (Some "cov1"%string)]
        ++ [GetCapabilities "http://example.org/ows" "2.0.1" 60]
        ++ [DescribeCoverage "http://example.org/ows" (Some "cov1"%string)]).
Proof.
  refine (flat_envelope_breaks_harvest
            (example_env coverage_unparsed [envelope_2d; envelope_3d]) example_platform
            example_harvester example_resource
            (example_wcs coverage_unparsed [envelope_2d; envelope_3d])
            [GetCapabilities "http://example.org/ows" "2.0.1" 60] [] example_contact
            coverage_unparsed "cov1" envelope_2d [envelope_3d] _ None None
            "http://www.opengis.net/def/crs/EPSG/0/4326"
            eq_refl eq_refl eq_refl eq_refl eq_refl eq_refl eq_refl eq_refl _
            eq_refl eq_refl eq_refl eq_refl _).
  - intros e l'. discriminate.
  - vm_compute. lia.
Defined.

(** X18: [get_resource] does return a record for a coverage without a
    primary box and with a WGS84 box of four coordinates, when the contact
    can be read, the UUID of the GeoNode resource (if any) parses and
    [GXP_PTYPES] has the entry [WCS]; its one reference system is
    [EPSG:4326] and it has no temporal extent. *)
Theorem wgs84_coverage_is_harvested
    (env : Env) (platform : Platform) (self : WCSHarvester) (r : HarvestableResource)
    (w : WCS) (evs log : list event) (sc : ServiceContact) (c : ContentMetadata)
    (name : string) (bb : option (list float)) (b : list float) :
  _get_wcs env self [] = (Ok w, evs) ->
  provider_contact platform w = Ok sc ->
  coverage_of w (hr_unique_identifier r) = Some c ->
  cm_id c = Ok (Some name) ->
  boundingBox c = Ok bb -> truthy bb = false ->
  boundingBoxWGS84 c = Ok (Some b) -> (4 <= length b)%nat ->
  match geonode_resource r with
  | Some g => is_Some (py_UUID platform (rb_uuid g))
  | None => True
  end ->
  is_Some (GXP_PTYPES platform !! "WCS"%string) ->
  exists info,
    get_resource env platform self r log
    = (Ok (Some info),
       log ++ evs ++ evs ++ boundingboxes_requests c ++ evs
           ++ [DescribeCoverage (wcs_url w) (Some name)]) /\
    rd_reference_systems (resource_descriptor info) = ["EPSG:4326"%string] /\
    ri_temporal_extent (rd_identification (resource_descriptor info)) = None.
Proof.
  intros Hw Hsc Hc Hid Hbb Tb Hwgs Hlen Hu [ptype Hp].
  rewrite (get_resource_found env platform self r w evs sc c log Hw Hsc Hc).
  unfold _get_metadata. unfold bind at 1.
  rewrite (_get_wcs_content_metadata_run env self _ name w c evs (log ++ evs) Hw Hc Hid).
  assert (Hbox : exists rect,
            fst (_get_bbox env self c ((log ++ evs) ++ evs))
            = Ok {| crs := Some "EPSG:4326"%string; temporal_extent := Some None;
                    spatial_extent := Some (from_bbox rect) |}).
  { destruct (other_boundingboxes_of_total env self c
                (((log ++ evs) ++ evs) ++ boundingboxes_requests c))
      as (other & log2 & Ho).
    rewrite (_get_bbox_by_priority env self c _ _ log2 bb (Some b) _ other Hbb
               (fun _ => Hwgs) (has_boundingboxes_of_run c _) Ho).
    unfold resolve_by_priority, priority, List.find, yields, p_boundingBox, p_boundingBoxWGS84.
    rewrite Tb, (truthy_of_some b Hlen). unfold extent_from, p_boundingBoxWGS84.
    destruct (rect4_of_some b Hlen) as [rect ->]. simpl. eauto. }
  destruct Hbox as (rect & ->). simpl.
  unfold get_resource_else. unfold_m. rewrite Hp.
  destruct (geonode_resource r) as [g|]; [destruct Hu as [u ->]|];
    (eexists; split; [rewrite <- !app_assoc; reflexivity | split; reflexivity]).
Qed.

Lemma wgs84_coverage_is_harvested_witness :
  exists info,
    get_resource (example_env coverage_wgs84 []) example_platform example_harvester
      example_resource []
    = (Ok (Some info),
       [] ++ [GetCapabilities "http://example.org/ows" "2.0.1" 60]
          ++ [GetCapabilities "http://example.org/ows" "2.0.1" 60]
          ++ [DescribeCoverage "http://example.org/ows" (Some "cov1"%string)]
          ++ [GetCapabilities "http://example.org/ows" "2.0.1" 60]
          ++ [DescribeCoverage "http://example.org/ows" (Some "cov1"%string)]) /\
    rd_reference_systems (resource_descriptor info) = ["EPSG:4326"%string] /\
    ri_temporal_extent (rd_identification (resource_descriptor info)) = None.
Proof.
  refine (wgs84_coverage_is_harvested (example_env coverage_wgs84 []) example_platform
            example_harvester example_resource (example_wcs coverage_wgs84 [])
            [GetCapabilities "http://example.org/ows" "2.0.1" 60] [] example_contact
            coverage_wgs84 "cov1" None box_10_20_30_40
            eq_refl eq_refl eq_refl eq_refl eq_refl eq_refl eq_refl _ _ _).
  - simpl. lia.
  - simpl. eauto.
  - vm_compute. eauto.
Defined.
